(** * mp3_tagger: the tag store and the selection synchronizer

    A shallow embedding of [file_utils.py], [mp3_track.py], [album_art_utils.py]
    and the non-graphical part of [mp3_tagger.py], and the properties of the
    specification stated over it.

    Conventions of the embedding.
    - A Python [str] is a [string]; its characters are read as the code points
      below 256.
    - A Python exception is a constructor of [Exn]; code that can raise runs in
      the monad [M S], which threads the mutable state [S] and keeps the state
      reached when an exception is raised, as Python does.
    - Python objects that are shared (the tracks of the editor form) live in a
      heap indexed by their identity. *)

From Stdlib Require Import ZArith Ascii String List Lia Bool.
From stdpp Require Import base option list strings gmap fin_maps functions.

Open Scope Z_scope.

(* ===================================================================== *)
(** * Python built-ins used by the program *)
(* ===================================================================== *)

Module Py.

(** The exceptions the program raises, catches or lets through. *)
Inductive Exn : Type :=
| ValueError | TypeError | AttributeError | KeyError
| IOError | OSError | FileExistsError | URLError
| ID3NoHeaderError | HTTPError | ConnectionError.

Inductive result (A : Type) : Type :=
| Ok (a : A)
| Raise (e : Exn).
Arguments Ok {A} a.
Arguments Raise {A} e.

#[global] Instance Exn_eq_dec : EqDecision Exn.
Proof. solve_decision. Defined.

(** Stateful code that may raise: the state after a [Raise] is the state the
    exception left behind. *)
Definition M (S A : Type) : Type := S -> result A * S.

Definition ret {S A} (a : A) : M S A := fun s => (Ok a, s).
Definition raise {S A} (e : Exn) : M S A := fun s => (Raise e, s).
Definition bind {S A B} (m : M S A) (k : A -> M S B) : M S B :=
  fun s => match m s with
           | (Ok a, s') => k a s'
           | (Raise e, s') => (Raise e, s')
           end.
Definition get {S} : M S S := fun s => (Ok s, s).
Definition modify {S} (f : S -> S) : M S unit := fun s => (Ok tt, f s).
(** A pure computation that may raise. *)
Definition lift {S A} (r : result A) : M S A := fun s => (r, s).
(** [try: m except e: h] *)
Definition try_except {S A} (m : M S A) (e : Exn) (h : M S A) : M S A :=
  fun s => match m s with
           | (Raise e', s') => if decide (e' = e) then h s' else (Raise e', s')
           | r => r
           end.

(** [for x in xs: body x] *)
Fixpoint for_each {S A} (xs : list A) (body : A -> M S unit) : M S unit :=
  match xs with
  | [] => ret tt
  | x :: xs' => bind (body x) (fun _ => for_each xs' body)
  end.

(** ** [str] methods *)

Definition chr_eqb (a b : ascii) : bool := Ascii.eqb a b.

Fixpoint len (s : string) : Z :=
  match s with
  | EmptyString => 0
  | String _ s' => 1 + len s'
  end.

(** [s[:n]] and [s[n:]] for a count [n] that is already in range. *)
Fixpoint take (n : nat) (s : string) : string :=
  match n, s with
  | S n', String c s' => String c (take n' s')
  | _, _ => EmptyString
  end.

Fixpoint drop (n : nat) (s : string) : string :=
  match n, s with
  | S n', String _ s' => drop n' s'
  | _, _ => s
  end.

(** A slice bound as Python resolves it: a negative bound counts from the
    end, and the result is clamped to [0 .. len s]. *)
Definition slice_bound (s : string) (i : Z) : nat :=
  let i' := if i <? 0 then i + len s else i in
  Z.to_nat (Z.max 0 (Z.min i' (len s))).

(** [s[0:stop]] *)
Definition slice_to (s : string) (stop : Z) : string :=
  take (slice_bound s stop) s.

(** [s[start:]] *)
Definition slice_from (s : string) (start : Z) : string :=
  drop (slice_bound s start) s.

(** [s.rfind(c)] for a one-character [c]: the last index of [c], or -1. *)
Fixpoint rfind (c : ascii) (s : string) : Z :=
  match s with
  | EmptyString => -1
  | String a s' =>
      let r := rfind c s' in
      if 0 <=? r then r + 1 else if chr_eqb a c then 0 else -1
  end.

(** [s.startswith(p)] *)
Fixpoint startswith (s p : string) {struct p} : bool :=
  match p, s with
  | EmptyString, _ => true
  | String a p', String b s' => chr_eqb a b && startswith s' p'
  | String _ _, EmptyString => false
  end.

(** [s.endswith(c)] for a one-character [c]. *)
Fixpoint endswith (s : string) (c : ascii) : bool :=
  match s with
  | EmptyString => false
  | String a EmptyString => chr_eqb a c
  | String _ s' => endswith s' c
  end.

(** [str.isspace] on one character: the white space of Unicode below 256. *)
Definition isspace (c : ascii) : bool :=
  let n := Z.of_N (N_of_ascii c) in
  ((9 <=? n) && (n <=? 13)) || ((28 <=? n) && (n <=? 32))
  || (n =? 133) || (n =? 160).

(** [s.rstrip(chars)], the stripped characters given as a predicate. *)
Fixpoint rstrip_by (strip : ascii -> bool) (s : string) : string :=
  match s with
  | EmptyString => EmptyString
  | String c s' =>
      match rstrip_by strip s' with
      | EmptyString => if strip c then EmptyString else String c EmptyString
      | r => String c r
      end
  end.

(** [s.rstrip()] *)
Definition rstrip (s : string) : string := rstrip_by isspace s.

(** [s.replace(old, new)]: the occurrences of [old] are found from the left
    and do not overlap. [skip] counts the characters of an occurrence that
    are still to be passed over. *)
Fixpoint replace_from (old new : string) (skip : nat) (s : string) : string :=
  match s with
  | EmptyString => EmptyString
  | String c s' =>
      match skip with
      | S k => replace_from old new k s'
      | O =>
          if startswith s old
          then new +:+ replace_from old new (Nat.pred (String.length old)) s'
          else String c (replace_from old new 0 s')
      end
  end.

(** Both uses in the program have a non-empty [old]. *)
Definition replace (s old new : string) : string := replace_from old new 0 s.

(** [s.split(sep)] for a one-character [sep]. The result always has at
    least one piece. *)
Fixpoint split (s : string) (sep : ascii) : list string :=
  match s with
  | EmptyString => [EmptyString]
  | String c s' =>
      if chr_eqb c sep then EmptyString :: split s' sep
      else match split s' sep with
           | piece :: pieces => String c piece :: pieces
           | [] => [String c EmptyString]
           end
  end.

(** [sep.join(xs)] *)
Fixpoint join (sep : string) (xs : list string) : string :=
  match xs with
  | [] => EmptyString
  | [x] => x
  | x :: xs' => x +:+ sep +:+ join sep xs'
  end.

(** [c in s] for a one-character [c]. *)
Fixpoint contains_chr (c : ascii) (s : string) : bool :=
  match s with
  | EmptyString => false
  | String a s' => chr_eqb a c || contains_chr c s'
  end.

(** The values a widget of the form can hold and a getter can return:
    [None], a [str] or a [bool]. *)
Inductive Value : Type :=
| VNone
| VStr (s : string)
| VBool (b : bool).

#[global] Instance Value_eq_dec : EqDecision Value.
Proof. solve_decision. Defined.

(** The truth value of [if v:]. *)
Definition truthy (v : Value) : bool :=
  match v with
  | VNone => false
  | VStr s => negb (String.eqb s EmptyString)
  | VBool b => b
  end.

(** ** The two regular expressions of the program

    [re.match] anchors at the start. [[0-9]] is the ASCII digits. In Python
    [$] matches at the end of the string and also just before a newline that
    is the last character of the string. What follows a digit run in both
    patterns cannot match a digit, so the greedy reading is the only one. *)

Definition is_digit (c : ascii) : bool :=
  let n := Z.of_N (N_of_ascii c) in (48 <=? n) && (n <=? 57).

Definition LF : ascii := "010"%char.

(** [$] *)
Definition at_dollar (s : string) : bool :=
  match s with
  | EmptyString => true
  | String c EmptyString => chr_eqb c LF
  | _ => false
  end.

(** [[0-9]{n}]: what is left of [s] after [n] digits. *)
Fixpoint digits (n : nat) (s : string) : option string :=
  match n with
  | O => Some s
  | S n' =>
      match s with
      | String c s' => if is_digit c then digits n' s' else None
      | EmptyString => None
      end
  end.

(** [[0-9]*]: what is left of [s] after its leading digits. *)
Fixpoint skip_digits (s : string) : string :=
  match s with
  | String c s' => if is_digit c then skip_digits s' else s
  | EmptyString => EmptyString
  end.

(** [re.match("^[0-9]{4}$", s)] as a truth value. *)
Definition match_year (s : string) : bool :=
  match digits 4 s with
  | Some rest => at_dollar rest
  | None => false
  end.

(** [re.match("^[0-9]*/[0-9]*$", s)] as a truth value. *)
Definition match_track (s : string) : bool :=
  match skip_digits s with
  | String "/"%char rest => at_dollar (skip_digits rest)
  | _ => false
  end.

End Py.

Export Py (Exn(..), result(..), M).

Declare Scope py_scope.
Delimit Scope py_scope with py.
Notation "'let*' x ':=' m 'in' k" := (Py.bind m (fun x => k))
  (at level 10, x name, m at level 100, k at level 200) : py_scope.
Notation "'do' m 'then' k" := (Py.bind m (fun _ => k))
  (at level 10, m at level 100, k at level 200) : py_scope.
Open Scope py_scope.

(* ===================================================================== *)
(** * [os.path] (posixpath) *)
(* ===================================================================== *)

Module os_path.

(** [dirname]: the part before the last slash, without its trailing slashes
    unless it consists of slashes only. *)
Definition dirname (p : string) : string :=
  let i := Py.rfind "/" p + 1 in
  let head := Py.slice_to p i in
  if negb (String.eqb head "")
     && negb (String.eqb (Py.rstrip_by (Py.chr_eqb "/") head) "")
  then Py.rstrip_by (Py.chr_eqb "/") head
  else head.

(** [basename]: the part after the last slash. *)
Definition basename (p : string) : string :=
  let i := Py.rfind "/" p + 1 in
  Py.slice_from p i.

(** [join(a, b)] *)
Definition join (a b : string) : string :=
  if Py.startswith b "/" then b
  else if String.eqb a "" || Py.endswith a "/" then a +:+ b
  else a +:+ "/" +:+ b.

(** The loop of [genericpath._splitext] that skips the leading dots of the
    file name: [true] when a character other than a dot is met in
    [p[filenameIndex : filenameIndex + n]]. *)
Fixpoint has_name_before_dot (p : string) (filenameIndex n : nat) : bool :=
  match n with
  | O => false
  | S n' =>
      match String.get filenameIndex p with
      | Some "."%char => has_name_before_dot p (S filenameIndex) n'
      | _ => true
      end
  end.

(** [splitext]: the extension starts at the last dot of the last component,
    leading dots of that component apart. *)
Definition splitext (p : string) : string * string :=
  let sepIndex := Py.rfind "/" p in
  let dotIndex := Py.rfind "." p in
  if (sepIndex <? dotIndex)
     && has_name_before_dot p (Z.to_nat (sepIndex + 1))
          (Z.to_nat (dotIndex - (sepIndex + 1)))
  then (Py.slice_to p dotIndex, Py.slice_from p dotIndex)
  else (p, EmptyString).

End os_path.

(* ===================================================================== *)
(** * file_utils.py *)
(* ===================================================================== *)

Module file_utils.

(** Removes the colons of the root of the name and caps its length so that
    root and extension together stay within 255 characters. *)
Definition ensure_valid_filename (filename : string) : string :=
  let '(root, extension) := os_path.splitext filename in
  let root := Py.slice_to (Py.replace root ":" "") (255 - Py.len extension) in
  root +:+ extension.

End file_utils.

(* ===================================================================== *)
(** * The part of mutagenx the program uses

    [mutagenx.id3.ID3] is a dictionary of frames keyed by the frame's
    [HashKey]. The frames are those of the ten identifiers of the program.
    The dictionary is kept as the list of its frames in iteration order; a key
    occurs once. *)
(* ===================================================================== *)

Module mutagenx.

(** The text frame classes: a frame of these is keyed by its identifier, so
    the tag holds one frame of each at most. *)
Inductive TextFrameID : Type :=
| TIT2 | TPE1 | TPE2 | TALB | TCON | TDRC | TRCK | TCMP.

Definition FrameID (id : TextFrameID) : string :=
  match id with
  | TIT2 => "TIT2" | TPE1 => "TPE1" | TPE2 => "TPE2" | TALB => "TALB"
  | TCON => "TCON" | TDRC => "TDRC" | TRCK => "TRCK" | TCMP => "TCMP"
  end.

(** An entry of a frame's [text] list: a [str], or for [TDRC] a time stamp,
    kept as the text its [get_text] prints. *)
Inductive TextValue : Type :=
| Str (s : string)
| ID3TimeStamp (text : string).

Inductive Frame : Type :=
| TextFrame (id : TextFrameID) (text : list TextValue)
| COMM (lang desc : string) (text : list TextValue)
| APIC (mime : string) (type : Z) (desc : string) (data : list Byte.byte).

#[global] Instance byte_eq_dec : EqDecision Byte.byte := Byte.byte_eq_dec.
#[global] Instance TextFrameID_eq_dec : EqDecision TextFrameID.
Proof. solve_decision. Defined.
#[global] Instance TextValue_eq_dec : EqDecision TextValue.
Proof. solve_decision. Defined.
#[global] Instance Frame_eq_dec : EqDecision Frame.
Proof. solve_decision. Defined.

(** [repr] of the language code inside the key of a comment. *)
Definition repr_lang (lang : string) : string := "'" +:+ lang +:+ "'".

Definition HashKey (f : Frame) : string :=
  match f with
  | TextFrame id _ => FrameID id
  | COMM lang desc _ => "COMM:" +:+ desc +:+ ":" +:+ repr_lang lang
  | APIC _ _ desc _ => "APIC:" +:+ desc
  end.

(** [frame.text]; a picture frame has no such attribute. *)
Definition text (f : Frame) : result (list TextValue) :=
  match f with
  | TextFrame _ t => Ok t
  | COMM _ _ t => Ok t
  | APIC _ _ _ _ => Raise AttributeError
  end.

Definition NUL : ascii := "000"%char.

(** The [text] argument of a frame constructor goes through
    [MultiSpec.validate]: [None] gives no entry, a [str] is split at the
    separator of the frame class, anything else is refused. *)
Definition MultiSpec_validate (sep : ascii) (value : Py.Value)
  : result (list string) :=
  match value with
  | Py.VNone => Ok []
  | Py.VStr s => Ok (Py.split s sep)
  | Py.VBool _ => Raise ValueError
  end.

(** [ID3TimeStamp(text)] parses year, month, ... out of the text, split at
    [-T:/.] and at white space, and prints the year back with four digits.
    The program builds a stamp only from a text that [Py.match_year]
    accepted, where the printed text is the four digits. *)
Definition stamp (text : string) : TextValue := ID3TimeStamp (Py.take 4 text).

(** [CLS(encoding=3, text=value)] for a text frame class other than [TDRC]. *)
Definition new_text_frame (id : TextFrameID) (value : Py.Value) : result Frame :=
  match MultiSpec_validate NUL value with
  | Ok pieces => Ok (TextFrame id (map Str pieces))
  | Raise e => Raise e
  end.

(** [TDRC(encoding=3, text=value)]: the separator is a comma and the entries
    are time stamps. *)
Definition new_TDRC (value : Py.Value) : result Frame :=
  match MultiSpec_validate ","%char value with
  | Ok pieces => Ok (TextFrame TDRC (map stamp pieces))
  | Raise e => Raise e
  end.

(** [COMM(encoding=3, lang=lang, desc=desc, text=value)] *)
Definition new_COMM (lang desc : string) (value : Py.Value) : result Frame :=
  match MultiSpec_validate NUL value with
  | Ok pieces => Ok (COMM lang desc (map Str pieces))
  | Raise e => Raise e
  end.

(** ** The dictionary *)

(** [d[key]], when the key is in the dictionary. *)
Definition getitem (key : string) (d : list Frame) : option Frame :=
  List.find (fun f => String.eqb (HashKey f) key) d.

(** [d[HashKey f] = f]: a frame of that key is replaced where it stands. *)
Fixpoint setitem (f : Frame) (d : list Frame) : list Frame :=
  match d with
  | [] => [f]
  | g :: d' =>
      if String.eqb (HashKey g) (HashKey f) then f :: d'
      else g :: setitem f d'
  end.

(** [del d[key]] *)
Definition delitem (key : string) (d : list Frame) : list Frame :=
  List.filter (fun f => negb (String.eqb (HashKey f) key)) d.

(** [getall(key)]: the frame of that very key, or else the frames whose key
    starts with [key + ":"]. *)
Definition getall (key : string) (d : list Frame) : list Frame :=
  match getitem key d with
  | Some f => [f]
  | None => List.filter (fun f => Py.startswith (HashKey f) (key +:+ ":")) d
  end.

(** [delall(key)]: deletes what [getall(key)] finds. *)
Definition delall (key : string) (d : list Frame) : list Frame :=
  match getitem key d with
  | Some _ => delitem key d
  | None =>
      List.filter (fun f => negb (Py.startswith (HashKey f) (key +:+ ":"))) d
  end.

(** ** The tag object and the files *)

Record ID3 : Type := mkID3 { frames : list Frame; filename : string }.

(** A file carries a tag or none; the audio data plays no role. *)
Record File : Type := mkFile { tag : option (list Frame) }.

(** The file system: the files by path. Directories are not modelled. *)
Abbreviation FS := (gmap string File).

(** [id3.add(frame)] *)
Definition add (f : Frame) (id3 : ID3) : ID3 :=
  mkID3 (setitem f (frames id3)) (filename id3).

(** A text or comment frame whose text joins to the empty string is not
    written by [save]. *)
Definition text_is_empty (t : list TextValue) : bool :=
  match t with
  | [] => true
  | [Str EmptyString] => true
  | [ID3TimeStamp EmptyString] => true
  | _ => false
  end.

Definition written (f : Frame) : bool :=
  match f with
  | TextFrame _ t => negb (text_is_empty t)
  | COMM _ _ t => negb (text_is_empty t)
  | APIC _ _ _ _ => true
  end.

(** [id3.save(path)]. A tag without any frame is not written: the tag of the
    file is deleted instead, a missing file being let alone. With a frame
    at all, the frames that are written make the file's tag, and the file
    is created when it is missing. *)
Definition save_as (path : string) : M (FS * ID3) unit :=
  fun '(fs, id3) =>
    match frames id3 with
    | [] =>
        match fs !! path with
        | Some _ => (Ok tt, (<[path := mkFile None]> fs, id3))
        | None => (Ok tt, (fs, id3))
        end
    | _ :: _ =>
        (Ok tt,
         (<[path := mkFile (Some (List.filter written (frames id3)))]> fs, id3))
    end.

(** [id3.save()]: the same method without its argument, which is then the
    [filename] of the tag. *)
Definition save : M (FS * ID3) unit :=
  fun '(fs, id3) => save_as (filename id3) (fs, id3).

(** [id3.load(path)]: sets [filename], opens the file, and adds each frame
    of the file's tag to the dictionary, which is not emptied first. The
    library then brings the frames to version 2.4, see [update_to_v24]
    below for what that leaves out of the embedding. *)
Definition load (path : string) : M (FS * ID3) unit :=
  fun '(fs, id3) =>
    let id3 := mkID3 (frames id3) path in
    match fs !! path with
    | None => (Raise IOError, (fs, id3))
    | Some file =>
        match tag file with
        | None => (Raise ID3NoHeaderError, (fs, id3))
        | Some on_disk =>
            (Ok tt,
             (fs, mkID3 (fold_left (fun d f => setitem f d) on_disk (frames id3))
                        path))
        end
    end.

(** [ID3()]: a tag without frames. Its [filename] is not set; [load] sets it
    before anything reads it. *)
Definition new_ID3 : ID3 := mkID3 [] "".

(** [id3.delete()]: takes the tag out of the file of [filename], then empties
    the dictionary. (The name [delete] is that of the map operation.) *)
Definition ID3_delete : M (FS * ID3) unit :=
  fun '(fs, id3) =>
    match fs !! filename id3 with
    | None => (Raise IOError, (fs, id3))
    | Some _ =>
        (Ok tt, (<[filename id3 := mkFile None]> fs, mkID3 [] (filename id3)))
    end.

(** [id3.update_to_v24()]. The frames of the embedding are those of version
    2.4, and the update leaves them as they are, with one exception that is
    not represented: the library rewrites the text of a genre frame ([TCON])
    into genre names, so that a numeric genre does not read back as it was
    written. What is stated below of a tag that was loaded is stated of a
    tag without genre frame, or does not concern the frames. *)
Definition update_to_v24 (id3 : ID3) : ID3 := id3.

End mutagenx.

(* ===================================================================== *)
(** * [os]: the two calls [rename_file] makes *)
(* ===================================================================== *)

Module os.

(** The file system of the embedding is the map of its files. It has no
    directories and one path for each file, so the two calls are
    represented for a path that is a plain file name in the directory of a
    file that is there: a name that is not empty, is not ["."] or [".."] and
    has no slash (see [Spec.plain_name]). For any other path,
    [os.path.exists] may be true of a directory or of another way to write
    a path, and [os.replace] may fail for want of the directory of the
    target; what is stated below of [rename_file] and [rename_files] is
    stated of plain names. *)

(** [os.path.exists(path)] *)
Definition path_exists (fs : mutagenx.FS) (path : string) : bool :=
  bool_decide (is_Some (fs !! path)).

(** [os.replace(src, dst)]: moves the file, over [dst] if there is one. A
    missing source is the one failure represented. *)
Definition replace (src dst : string) : M mutagenx.FS unit :=
  fun fs =>
    match fs !! src with
    | None => (Raise OSError, fs)
    | Some file => (Ok tt, <[dst := file]> (delete src fs))
    end.

End os.

(* ===================================================================== *)
(** * mp3_track.py *)
(* ===================================================================== *)

Module MP3Track.
Import mutagenx.

Definition _KEY_TITLE : string := "TIT2".
Definition _KEY_ARTIST : string := "TPE1".
Definition _KEY_ALBUM_ARTIST : string := "TPE2".
Definition _KEY_ALBUM : string := "TALB".
Definition _KEY_GENRE : string := "TCON".
Definition _KEY_YEAR : string := "TDRC".
Definition _KEY_TRACK : string := "TRCK".
Definition _KEY_COMPILATION : string := "TCMP".
Definition _KEY_COMMENT : string := "COMM".
Definition _KEY_PICTURE : string := "APIC".

(** The wrapper object: its only attribute is the tag. *)
Record t : Type := mk { _id3 : ID3 }.

(** [self._id3.add(frame)], the frame being the outcome of its constructor. *)
Definition _id3_add (frame : result Frame) : M t unit :=
  match frame with
  | Ok f => Py.modify (fun self => mk (add f (_id3 self)))
  | Raise e => Py.raise e
  end.

Definition _get_frames (identifier : string) (self : t) : list Frame :=
  getall identifier (frames (_id3 self)).

Definition _delete_frames (identifier : string) : M t unit :=
  Py.modify (fun self =>
    mk (mkID3 (delall identifier (frames (_id3 self))) (filename (_id3 self)))).

(** [text.get_text()] for a stamp, the text itself for a [str]. *)
Definition entry_text (tv : TextValue) : string :=
  match tv with
  | Str s => s
  | ID3TimeStamp s => s
  end.

(** The inner loop of [_get_frames_text]. *)
Fixpoint append_texts (texts : list TextValue) (all_text : string) : string :=
  match texts with
  | [] => all_text
  | tv :: rest => append_texts rest ((all_text +:+ entry_text tv) +:+ " ")
  end.

(** The outer loop. *)
Fixpoint append_frames (fs : list Frame) (all_text : string) : result string :=
  match fs with
  | [] => Ok all_text
  | frame :: rest =>
      match text frame with
      | Ok texts => append_frames rest (append_texts texts all_text)
      | Raise e => Raise e
      end
  end.

Definition _get_frames_text (identifier : string) (self : t)
  : result (option string) :=
  let found := _get_frames identifier self in
  if (length found =? 0)%nat then Ok None
  else match append_frames found "" with
       | Ok all_text => Ok (Some (Py.rstrip all_text))
       | Raise e => Raise e
       end.

Definition set_title (title : Py.Value) : M t unit :=
  _id3_add (new_text_frame TIT2 title).
Definition get_title (self : t) := _get_frames_text _KEY_TITLE self.

Definition set_artist (artist : Py.Value) : M t unit :=
  _id3_add (new_text_frame TPE1 artist).
Definition get_artist (self : t) := _get_frames_text _KEY_ARTIST self.

Definition set_album_artist (album_artist : Py.Value) : M t unit :=
  _id3_add (new_text_frame TPE2 album_artist).
Definition get_album_artist (self : t) :=
  _get_frames_text _KEY_ALBUM_ARTIST self.

Definition set_album (album : Py.Value) : M t unit :=
  _id3_add (new_text_frame TALB album).
Definition get_album (self : t) := _get_frames_text _KEY_ALBUM self.

Definition set_genre (genre : Py.Value) : M t unit :=
  _id3_add (new_text_frame TCON genre).
Definition get_genre (self : t) := _get_frames_text _KEY_GENRE self.

(** [re.match] raises [TypeError] on an argument that is not a [str]. *)
Definition set_year (year : Py.Value) : M t unit :=
  match year with
  | Py.VStr s =>
      if Py.match_year s then _id3_add (new_TDRC year)
      else Py.raise ValueError
  | _ => Py.raise TypeError
  end.
Definition get_year (self : t) := _get_frames_text _KEY_YEAR self.

Definition set_track (track : Py.Value) : M t unit :=
  match track with
  | Py.VStr s =>
      if Py.match_track s then _id3_add (new_text_frame TRCK track)
      else Py.raise ValueError
  | _ => Py.raise TypeError
  end.
Definition get_track (self : t) := _get_frames_text _KEY_TRACK self.

Definition set_part_of_compilation (is_part : Py.Value) : M t unit :=
  if Py.truthy is_part
  then _id3_add (new_text_frame TCMP (Py.VStr "1"))
  else _id3_add (new_text_frame TCMP (Py.VStr "0")).

Definition get_part_of_compilation (self : t) : result bool :=
  match _get_frames_text _KEY_COMPILATION self with
  | Ok compilation_flag =>
      match compilation_flag with
      | None => Ok false
      | Some flag => if String.eqb flag "0" then Ok false else Ok true
      end
  | Raise e => Raise e
  end.

Definition clear_comments : M t unit := _delete_frames _KEY_COMMENT.

Definition add_comment (comment : Py.Value) (key : string)
    (clear_existing_comments : bool) : M t unit :=
  do (if clear_existing_comments then clear_comments else Py.ret tt) then
  _id3_add (new_COMM "eng" key comment).

Definition get_comments (self : t) := _get_frames_text _KEY_COMMENT self.

Definition clear_pictures : M t unit := _delete_frames _KEY_PICTURE.

Section Pictures.
(** The surroundings of the two picture methods: [mimetypes.guess_type]
    (its first component), the bytes [open(path, "rb").read()] gives, or
    [None] when the file cannot be opened, and the same for [urlopen]. *)
Variable guess_type : string -> option string.
Variable read_file : string -> option (list Byte.byte).
Variable urlopen : string -> option (list Byte.byte).

Definition supported_mime (mime_type : option string) : bool :=
  match mime_type with
  | Some m => String.eqb m "image/png" || String.eqb m "image/jpeg"
  | None => false
  end.

Definition add_picture_from_file (path : string)
    (clear_existing_pictures : bool) : M t unit :=
  do (if clear_existing_pictures then clear_pictures else Py.ret tt) then
  let mime_type := guess_type path in
  if negb (supported_mime mime_type) then Py.raise ValueError
  else match read_file path with
       | Some data =>
           _id3_add (Ok (APIC (default "" mime_type) 3 "Front Cover" data))
       | None => Py.raise IOError
       end.

Definition add_picture_from_url (url : string)
    (clear_existing_pictures : bool) : M t unit :=
  do (if clear_existing_pictures then clear_pictures else Py.ret tt) then
  let mime_type := guess_type url in
  if negb (supported_mime mime_type) then Py.raise ValueError
  else match urlopen url with
       | Some data =>
           _id3_add (Ok (APIC (default "" mime_type) 3 "Front Cover" data))
       | None => Py.raise URLError
       end.
End Pictures.

(** A method of the tag that touches the file, run on the wrapper. *)
Definition on_id3 {A} (m : M (FS * ID3) A) : M (FS * t) A :=
  fun '(fs, self) =>
    match m (fs, _id3 self) with
    | (r, (fs', id3')) => (r, (fs', mk id3'))
    end.

Definition save_tag : M (FS * t) unit := on_id3 save.

Definition get_file_path (self : t) : string := filename (_id3 self).

Definition rename_file (new_base_filename : string) : M (FS * t) unit :=
  fun '(fs, self) =>
    let original_path := filename (_id3 self) in
    let prefix_path := os_path.dirname original_path in
    let valid_filename := file_utils.ensure_valid_filename new_base_filename in
    let new_path := os_path.join prefix_path valid_filename in
    if os.path_exists fs new_path then (Raise FileExistsError, (fs, self))
    else
      match os.replace original_path new_path fs with
      | (Raise e, fs') => (Raise e, (fs', self))
      | (Ok _, fs') => on_id3 (load new_path) (fs', self)
      end.

(** ** The methods by name, as [getattr] finds them for the fields of the
    form. A getter's result is the value the widget receives. *)

Definition text_value (r : result (option string)) : result Py.Value :=
  match r with
  | Ok None => Ok Py.VNone
  | Ok (Some s) => Ok (Py.VStr s)
  | Raise e => Raise e
  end.

Definition bool_value (r : result bool) : result Py.Value :=
  match r with
  | Ok b => Ok (Py.VBool b)
  | Raise e => Raise e
  end.

Definition call_getter (name : string) (self : t) : result Py.Value :=
  if String.eqb name "get_title" then text_value (get_title self)
  else if String.eqb name "get_artist" then text_value (get_artist self)
  else if String.eqb name "get_album_artist"
    then text_value (get_album_artist self)
  else if String.eqb name "get_album" then text_value (get_album self)
  else if String.eqb name "get_genre" then text_value (get_genre self)
  else if String.eqb name "get_year" then text_value (get_year self)
  else if String.eqb name "get_track" then text_value (get_track self)
  else if String.eqb name "get_comments" then text_value (get_comments self)
  else if String.eqb name "get_part_of_compilation"
    then bool_value (get_part_of_compilation self)
  else Raise AttributeError.

(** [add_comment] is called with its defaults: the key ["comment_key"], and
    the existing comments cleared. *)
Definition call_setter (name : string) (value : Py.Value) : M t unit :=
  if String.eqb name "set_title" then set_title value
  else if String.eqb name "set_artist" then set_artist value
  else if String.eqb name "set_album_artist" then set_album_artist value
  else if String.eqb name "set_album" then set_album value
  else if String.eqb name "set_genre" then set_genre value
  else if String.eqb name "set_year" then set_year value
  else if String.eqb name "set_track" then set_track value
  else if String.eqb name "add_comment"
    then add_comment value "comment_key" true
  else if String.eqb name "set_part_of_compilation"
    then set_part_of_compilation value
  else Py.raise AttributeError.

(** [MP3Track(path)]. [ID3(path)] loads the file into a new tag; a file
    without a tag is given one by saving a blank title frame, and is loaded
    again. Any other exception leaves no track. *)
Definition __init__ (path : string) : M FS t :=
  fun fs =>
    match load path (fs, new_ID3) with
    | (Ok _, (fs1, id3)) => (Ok (mk (update_to_v24 id3)), fs1)
    | (Raise e, (fs1, _)) =>
        if decide (e = ID3NoHeaderError)
        then
          match new_text_frame TIT2 Py.VNone with
          | Raise e' => (Raise e', fs1)
          | Ok blank_title =>
              match save_as path (fs1, add blank_title new_ID3) with
              | (Raise e', (fs2, _)) => (Raise e', fs2)
              | (Ok _, (fs2, id3)) =>
                  match load path (fs2, id3) with
                  | (Ok _, (fs3, id3')) => (Ok (mk (update_to_v24 id3')), fs3)
                  | (Raise e', (fs3, _)) => (Raise e', fs3)
                  end
              end
          end
        else (Raise e, fs1)
    end.

(** [clear_tag]: deletes the tag, of the file as well, and adds a blank title
    frame. *)
Definition clear_tag : M (FS * t) unit :=
  do on_id3 ID3_delete then
  fun '(fs, self) =>
    match _id3_add (new_text_frame TIT2 Py.VNone) self with
    | (r, self') => (r, (fs, self'))
    end.

End MP3Track.

(* ===================================================================== *)
(** * mp3_tagger.py: [Field] *)
(* ===================================================================== *)

Module Field.

Definition MULTIPLE_VALUES_TEXT : string := "Multiple Values".

(** A field of the form: what its constructor is given, and the three
    attributes of its two widgets the program reads and writes,
    [checkbox.value], [entry_widget.value] and [entry_widget.name]. *)
Record t : Type := mk {
  name : string;
  toggle : bool;
  getter : string;
  setter : string;
  checkbox_value : bool;
  entry_widget_value : Py.Value;
  entry_widget_name : Py.Value
}.

Definition with_entry_value (v : Py.Value) (self : t) : t :=
  mk (name self) (toggle self) (getter self) (setter self)
     (checkbox_value self) v (entry_widget_name self).

Definition with_entry_name (n : Py.Value) (self : t) : t :=
  mk (name self) (toggle self) (getter self) (setter self)
     (checkbox_value self) (entry_widget_value self) n.

Definition clear (self : t) : t :=
  if toggle self
  then mk (name self) (toggle self) (getter self) (setter self)
          false (Py.VBool false) (Py.VStr "")
  else mk (name self) (toggle self) (getter self) (setter self)
          false (Py.VStr "") (entry_widget_name self).

Definition is_selected (self : t) : bool := checkbox_value self.

Section Getter.
(** [getattr(track, name)()]: the method of that name, called on the track.
    The form reads its tracks with [MP3Track.call_getter]. *)
Variable getattr : string -> MP3Track.t -> result Py.Value.

(** The loop of [update_value_from_tracks] over the tracks in the order the
    set yields them. It ends at the first track whose value differs from
    the widget's. *)
Fixpoint scan (mp3_tracks : list MP3Track.t) : M t unit :=
  match mp3_tracks with
  | [] => Py.ret tt
  | track :: rest =>
      let* self := Py.get in
      let* value := Py.lift (getattr (getter self) track) in
      if decide (entry_widget_value self = value) then scan rest
      else if toggle self
           then Py.modify (with_entry_name (Py.VStr MULTIPLE_VALUES_TEXT))
           else Py.modify (with_entry_value (Py.VStr MULTIPLE_VALUES_TEXT))
  end.

(** [random_track] is the track [mp3_tracks.pop()] hands out, any one of the
    set; it is put back before the loop. *)
Definition update_value_from_tracks (random_track : MP3Track.t)
    (mp3_tracks : list MP3Track.t) : M t unit :=
  do Py.modify clear then
  if (length mp3_tracks =? 0)%nat then Py.ret tt
  else
    let* self := Py.get in
    let* value := Py.lift (getattr (getter self) random_track) in
    do Py.modify (with_entry_value value) then
    scan mp3_tracks.
End Getter.

Definition apply_value_to_track (self : t) : M MP3Track.t unit :=
  MP3Track.call_setter (setter self) (entry_widget_value self).

End Field.

(* ===================================================================== *)
(** * mp3_tagger.py: [TrackEditorForm] *)
(* ===================================================================== *)

Module TrackEditorForm.
Import mutagenx.

(** The attributes of the form that are not widgets. The two sets are kept
    in the order their iteration yields; [selected_mp3_tracks] holds the
    identities of the selected track objects. *)
Record t : Type := mk {
  fields : list Field.t;
  mp3_tracks : gmap string nat;
  selected_mp3_tracks : list nat
}.

(** The calls made on track objects, recorded to count them. *)
Inductive Event : Type :=
| CallSetter (track : nat) (setter : string) (value : Py.Value)
| CallSaveTag (track : nat).

#[global] Instance Event_eq_dec : EqDecision Event.
Proof. solve_decision. Defined.

(** The files, the track objects by identity, the form, and the record of
    the calls. *)
Record State : Type := mkState {
  fs : FS;
  heap : nat -> MP3Track.t;
  self : t;
  trace : list Event
}.

Definition with_self (f : t -> t) (st : State) : State :=
  mkState (fs st) (heap st) (f (self st)) (trace st).

Definition record (e : Event) : M State unit :=
  Py.modify (fun st => mkState (fs st) (heap st) (self st) (trace st ++ [e])).

(** A method of a track run on the object of identity [r]. *)
Definition on_track {A} (r : nat) (m : M (FS * MP3Track.t) A) : M State A :=
  fun st =>
    match m (fs st, heap st r) with
    | (res, (fs', track')) =>
        (res, mkState fs' (<[r := track']> (heap st)) (self st) (trace st))
    end.

(** A method that leaves the files alone. *)
Definition without_files {A} (m : M MP3Track.t A) : M (FS * MP3Track.t) A :=
  fun '(files, track) =>
    match m track with
    | (res, track') => (res, (files, track'))
    end.

(** The body of the inner loop of [save_entries_to_tracks]. *)
Definition apply_field (track : nat) (field : Field.t) : M State unit :=
  if Field.is_selected field
  then do record (CallSetter track (Field.setter field)
                    (Field.entry_widget_value field)) then
       on_track track (without_files (Field.apply_value_to_track field))
  else Py.ret tt.

(** The body of the outer loop. *)
Definition save_entries_to_track (fields : list Field.t) (track : nat)
  : M State unit :=
  do Py.for_each fields (apply_field track) then
  do record (CallSaveTag track) then
  on_track track MP3Track.save_tag.

Definition save_entries_to_tracks : M State unit :=
  let* st := Py.get in
  Py.for_each (selected_mp3_tracks (self st))
    (save_entries_to_track (fields (self st))).

(** What [rename_files] reports: the two lists behind its error message. *)
Record Report : Type := mkReport {
  files_not_enough_info : list string;
  files_already_exist : list string
}.

(** [self.mp3_tracks[file_path]] *)
Definition mp3_tracks_getitem (file_path : string) : M State nat :=
  fun st =>
    match mp3_tracks (self st) !! file_path with
    | Some r => (Ok r, st)
    | None => (Raise KeyError, st)
    end.

(** [del self.mp3_tracks[file_path]] and
    [self.mp3_tracks[track.get_file_path()] = track] *)
Definition rekey (file_path : string) (track : nat) : M State unit :=
  Py.modify (fun st =>
    with_self (fun form =>
      mk (fields form)
         (<[MP3Track.get_file_path (heap st track) := track]>
            (delete file_path (mp3_tracks form)))
         (selected_mp3_tracks form)) st).

(** The name a track is renamed to, or [None] without artist, album and
    title. *)
Definition new_base_filename_of (artist album title : option string)
  : option string :=
  let file_name_info :=
    option_list artist ++ option_list album ++ option_list title in
  if (0 <? length file_name_info)%nat
  then Some (Py.join " - " file_name_info +:+ ".mp3")
  else None.

(** The loop of [rename_files]; the two lists are its local variables. *)
Fixpoint rename_loop (selected_file_paths : list string) (report : Report)
  : M State Report :=
  match selected_file_paths with
  | [] => Py.ret report
  | file_path :: rest =>
      let* track := mp3_tracks_getitem file_path in
      let* st := Py.get in
      let* artist := Py.lift (MP3Track.get_artist (heap st track)) in
      let* album := Py.lift (MP3Track.get_album (heap st track)) in
      let* title := Py.lift (MP3Track.get_title (heap st track)) in
      match new_base_filename_of artist album title with
      | None =>
          rename_loop rest
            (mkReport (files_not_enough_info report ++ [file_path])
                      (files_already_exist report))
      | Some new_base_filename =>
          if String.eqb
               (os_path.basename (MP3Track.get_file_path (heap st track)))
               new_base_filename
          then rename_loop rest report
          else
            let* renamed :=
              Py.try_except
                (do on_track track (MP3Track.rename_file new_base_filename)
                 then Py.ret true)
                FileExistsError (Py.ret false) in
            if renamed : bool
            then do rekey file_path track then rename_loop rest report
            else rename_loop rest
                   (mkReport (files_not_enough_info report)
                             (files_already_exist report ++ [file_path]))
      end
  end.

(** The part of [update_file_list] that concerns the form's own state: the
    fields are cleared and the selection is emptied. *)
Definition update_file_list : M State unit :=
  Py.modify (with_self (fun form =>
    mk (map Field.clear (fields form)) (mp3_tracks form) [])).

(** [selected_file_paths] is what the file list returns as selected, [None]
    for no selection, in which case nothing but a notice happens. *)
Definition rename_files (selected_file_paths : option (list string))
  : M State (option Report) :=
  match selected_file_paths with
  | None => Py.ret None
  | Some paths =>
      let* report := rename_loop paths (mkReport [] []) in
      do update_file_list then
      Py.ret (Some report)
  end.

(** An identity no track of the index has: that of a new object. *)
Definition new_identity (index : gmap string nat) : nat :=
  S (map_fold (fun _ r acc => Nat.max r acc) 0%nat index).

(** [s.add(x)] on a set kept as the list of its elements. *)
Definition set_add (x : nat) (s : list nat) : list nat :=
  if decide (x ∈ s) then s else s ++ [x].

(** The body of the first loop of [on_file_list_selection_change], up to the
    selection: the track of a path that is not in the index is created and
    indexed. *)
Definition materialize (file_path : string) : M State unit :=
  fun st =>
    match mp3_tracks (self st) !! file_path with
    | Some _ => (Ok tt, st)
    | None =>
        match MP3Track.__init__ file_path (fs st) with
        | (Ok track, fs') =>
            let r := new_identity (mp3_tracks (self st)) in
            (Ok tt,
             mkState fs' (<[r := track]> (heap st))
               (mk (fields (self st))
                   (<[file_path := r]> (mp3_tracks (self st)))
                   (selected_mp3_tracks (self st)))
               (trace st))
        | (Raise e, fs') =>
            (Raise e, mkState fs' (heap st) (self st) (trace st))
        end
    end.

(** The first loop. [self.mp3_tracks.get(file_path)] finds the key, which
    the lines before have put in the index when it was not there. *)
Fixpoint select_paths (selected_file_paths : list string) : M State unit :=
  match selected_file_paths with
  | [] => Py.ret tt
  | file_path :: rest =>
      do materialize file_path then
      let* r := mp3_tracks_getitem file_path in
      do Py.modify (with_self (fun form =>
           mk (fields form) (mp3_tracks form)
              (set_add r (selected_mp3_tracks form)))) then
      select_paths rest
  end.

Section SelectionChange.
(** [mp3_tracks.pop()]: the element a set hands out. *)
Variable pop : list nat -> nat.

(** The last loop: each field is updated from the selected tracks; an
    exception leaves the fields after it as they were. *)
Fixpoint update_fields (random_track : MP3Track.t)
    (tracks : list MP3Track.t) (fields : list Field.t)
  : result unit * list Field.t :=
  match fields with
  | [] => (Ok tt, [])
  | field :: rest =>
      match Field.update_value_from_tracks MP3Track.call_getter random_track
              tracks field with
      | (Ok _, field') =>
          match update_fields random_track tracks rest with
          | (r, rest') => (r, field' :: rest')
          end
      | (Raise e, field') => (Raise e, field' :: rest)
      end
  end.

(** [selected_file_paths] is what the file list returns as selected, [None]
    for no selection. The set of selected tracks is handed to each field in
    turn; what [pop] hands out and the order of iteration are taken to be
    the same for every field. *)
Definition on_file_list_selection_change
    (selected_file_paths : option (list string)) : M State unit :=
  do Py.modify (with_self (fun form =>
       mk (fields form) (mp3_tracks form) [])) then
  do match selected_file_paths with
     | None =>
         Py.modify (with_self (fun form =>
           mk (map Field.clear (fields form)) (mp3_tracks form)
              (selected_mp3_tracks form)))
     | Some paths => select_paths paths
     end then
  fun st =>
    let selected := selected_mp3_tracks (self st) in
    match update_fields (heap st (pop selected)) (map (heap st) selected)
            (fields (self st)) with
    | (r, fields') =>
        (r, with_self (fun form =>
              mk fields' (mp3_tracks form) (selected_mp3_tracks form)) st)
    end.
End SelectionChange.

End TrackEditorForm.

(* ===================================================================== *)
(** * album_art_utils.py *)
(* ===================================================================== *)

Module album_art_utils.

(** A decoded JSON document. *)
#[warnings="-register-all"]
Inductive JSON : Type :=
| JNull
| JBool (b : bool)
| JNum (n : Z)
| JStr (s : string)
| JList (items : list JSON)
| JDict (entries : list (string * JSON)).

(** What [requests.get] returns, as far as the program looks at it:
    the status code and the outcome of [json()], which raises [ValueError]
    on a body that is not JSON. *)
Record Response : Type := mkResponse {
  status_code : Z;
  json : option JSON
}.

(** [requests.codes.ok] *)
Definition codes_ok : Z := 200.

(** [results.raise_for_status()] *)
Definition raise_for_status (results : Response) : result unit :=
  if (400 <=? status_code results) && (status_code results <? 600)
  then Raise HTTPError
  else Ok tt.

Fixpoint dict_get (entries : list (string * JSON)) (key : string)
  : option JSON :=
  match entries with
  | [] => None
  | (k, v) :: rest => if String.eqb k key then Some v else dict_get rest key
  end.

(** [value[key]] for a [str] key. *)
Definition getitem (value : JSON) (key : string) : result JSON :=
  match value with
  | JDict entries =>
      match dict_get entries key with
      | Some v => Ok v
      | None => Raise KeyError
      end
  | _ => Raise TypeError
  end.

Fixpoint chars (s : string) : list JSON :=
  match s with
  | EmptyString => []
  | String c s' => JStr (String c EmptyString) :: chars s'
  end.

(** What [for result in value] goes through. *)
Definition iterate (value : JSON) : result (list JSON) :=
  match value with
  | JList items => Ok items
  | JDict entries => Ok (map (fun kv => JStr (fst kv)) entries)
  | JStr s => Ok (chars s)
  | _ => Raise TypeError
  end.

Fixpoint is_substring (needle s : string) : bool :=
  Py.startswith s needle
  || match s with
     | EmptyString => false
     | String _ s' => is_substring needle s'
     end.

Definition is_JStr (key : string) (value : JSON) : bool :=
  match value with
  | JStr s => String.eqb s key
  | _ => false
  end.

(** [key in value] for a [str] key. *)
Definition contains (key : string) (value : JSON) : result bool :=
  match value with
  | JDict entries => Ok (bool_decide (is_Some (dict_get entries key)))
  | JList items => Ok (existsb (is_JStr key) items)
  | JStr s => Ok (is_substring key s)
  | _ => Raise TypeError
  end.

(** [small_art_url.replace("100x100", "1200x1200")] *)
Definition enlarge (small_art_url : JSON) : result string :=
  match small_art_url with
  | JStr s => Ok (Py.replace s "100x100" "1200x1200")
  | _ => Raise AttributeError
  end.

(** The loop over the results; [urls] is the list built so far. *)
Fixpoint collect (json_results : list JSON) (urls : list string)
  : result (list string) :=
  match json_results with
  | [] => Ok urls
  | result :: rest =>
      match contains "artworkUrl100" result with
      | Raise e => Raise e
      | Ok false => collect rest urls
      | Ok true =>
          match getitem result "artworkUrl100" with
          | Raise e => Raise e
          | Ok small_art_url =>
              match enlarge small_art_url with
              | Raise e => Raise e
              | Ok large_art_url => collect rest (urls ++ [large_art_url])
              end
          end
      end
  end.

Definition search_url (query : string) : string :=
  "https://itunes.apple.com/search?term=" +:+ Py.replace query " " "+"
  +:+ "&media=music&entity=album".

(** What the function does with the response. The status check calls
    [raise_for_status] when the code {e is} [ok]. *)
Definition read_response (results : Response) : result (list string) :=
  match (if status_code results =? codes_ok
         then raise_for_status results else Ok tt) with
  | Raise e => Raise e
  | Ok _ =>
      match json results with
      | None => Raise ValueError
      | Some document =>
          match getitem document "results" with
          | Raise e => Raise e
          | Ok json_results =>
              match iterate json_results with
              | Raise e => Raise e
              | Ok items => collect items []
              end
          end
      end
  end.

Section Fetch.
(** [requests.get]: the response to a URL, or the exception of a request
    that got none. *)
Variable requests_get : string -> result Response.

Definition fetch_album_art (query : string) : result (list string) :=
  match requests_get (search_url query) with
  | Raise e => Raise e
  | Ok results => read_response results
  end.
End Fetch.

End album_art_utils.

(* ===================================================================== *)
(** * mp3_tagger.py: [TrackEditorForm.lookup_album_art] *)
(* ===================================================================== *)

(** The loop over [range(5)]: the tabs opened, in order. It ends at the
    first index that is not below the number of URLs. *)
Fixpoint open_tabs (indices : list nat) (album_art_urls : list string)
  : list string :=
  match indices with
  | [] => []
  | i :: rest =>
      match nth_error album_art_urls i with
      | Some url => url :: open_tabs rest album_art_urls
      | None => []
      end
  end.

(** [lookup_album_art]: the URLs opened in the browser for the query of the
    search box; nothing is caught. *)
Definition lookup_album_art
    (requests_get : string -> result album_art_utils.Response)
    (query : string) : result (list string) :=
  match album_art_utils.fetch_album_art requests_get query with
  | Ok album_art_urls => Ok (open_tabs (seq 0 5) album_art_urls)
  | Raise e => Raise e
  end.

(* ===================================================================== *)
(** * What the specification's words mean, and sample data *)
(* ===================================================================== *)

Module Spec.

(** "matches exactly four decimal digits" *)
Definition four_decimal_digits (s : string) : bool :=
  match Py.digits 4 s with
  | Some EmptyString => true
  | _ => false
  end.

(** "the enumerated image types (PNG, JPEG)" *)
Definition enumerated_image_type (mime : string) : bool :=
  String.eqb mime "image/png" || String.eqb mime "image/jpeg".

(** The list of frames is a dictionary: no key occurs twice. *)
Definition is_dict (d : list mutagenx.Frame) : Prop :=
  List.NoDup (map mutagenx.HashKey d).

(** A comment frame, told by its key. *)
Definition is_comment (f : mutagenx.Frame) : bool :=
  Py.startswith (mutagenx.HashKey f) "COMM:".

(** The singleton text fields, each with the names of its setter and its
    getter. *)
Definition singleton_text_fields : list (string * string) :=
  [ ("set_title", "get_title"); ("set_artist", "get_artist");
    ("set_album_artist", "get_album_artist"); ("set_album", "get_album");
    ("set_genre", "get_genre"); ("set_year", "get_year");
    ("set_track", "get_track") ].

(** "replace each literal space in the query with a URL-safe separator": the
    separator is the plus sign. *)
Fixpoint spaces_to_plus (query : string) : string :=
  match query with
  | EmptyString => EmptyString
  | String c rest =>
      String (if Py.chr_eqb c " "%char then "+"%char else c)
             (spaces_to_plus rest)
  end.

(** A field once the loop of [update_value_from_tracks] has met a track that
    differs. *)
Definition mark_conflict (field : Field.t) : Field.t :=
  if Field.toggle field
  then Field.with_entry_name (Py.VStr Field.MULTIPLE_VALUES_TEXT) field
  else Field.with_entry_value (Py.VStr Field.MULTIPLE_VALUES_TEXT) field.

(** The field shows "Multiple Values": in the name of the entry widget for a
    toggle, as the value of the entry widget otherwise. *)
Definition shows_conflict (field : Field.t) : bool :=
  if Field.toggle field
  then bool_decide (Field.entry_widget_name field
                    = Py.VStr Field.MULTIPLE_VALUES_TEXT)
  else bool_decide (Field.entry_widget_value field
                    = Py.VStr Field.MULTIPLE_VALUES_TEXT).

(** The calls [apply] is to make on one track: the setter of each selected
    field, then one [save_tag]. *)
Definition setter_calls (track : nat) (fields : list Field.t)
  : list TrackEditorForm.Event :=
  map (fun field =>
         TrackEditorForm.CallSetter track (Field.setter field)
           (Field.entry_widget_value field))
      (List.filter Field.is_selected fields).

Definition calls_on_track (fields : list Field.t) (track : nat)
  : list TrackEditorForm.Event :=
  setter_calls track fields ++ [TrackEditorForm.CallSaveTag track].

Definition calls_on_tracks (fields : list Field.t) (tracks : list nat)
  : list TrackEditorForm.Event :=
  flat_map (calls_on_track fields) tracks.

(** Between two states nothing changed but the object of one track and the
    record of the calls. *)
Definition only_track_changed (track : nat)
    (st st' : TrackEditorForm.State) : Prop :=
  TrackEditorForm.self st' = TrackEditorForm.self st /\
  TrackEditorForm.fs st' = TrackEditorForm.fs st /\
  forall other, other <> track ->
    TrackEditorForm.heap st' other = TrackEditorForm.heap st other.

(** How many times [save_tag] was called on a track. *)
Definition saves_of (track : nat) (trace : list TrackEditorForm.Event) : nat :=
  count_occ TrackEditorForm.Event_eq_dec trace
    (TrackEditorForm.CallSaveTag track).

(** The index is in order: each key is the path of the track it maps to, and
    the file of that path is there and carries a tag. *)
Definition index_in_order (st : TrackEditorForm.State) : Prop :=
  forall path r,
    TrackEditorForm.mp3_tracks (TrackEditorForm.self st) !! path = Some r ->
    MP3Track.get_file_path (TrackEditorForm.heap st r) = path /\
    exists file on_disk,
      TrackEditorForm.fs st !! path = Some file /\
      mutagenx.tag file = Some on_disk.




(** The path a track of path [path] is moved to for the base name [name]. *)
Definition target_path (path name : string) : string :=
  os_path.join (os_path.dirname path) (file_utils.ensure_valid_filename name).







(** The three states of the view of a field, as the attributes of its two
    widgets; what the constructor of the field was given stays. "Empty":
    the checkbox unticked and the entry widget emptied, which is the text
    [""] for a text field and, for a toggle, the value [False] under the
    name [""]. The name of the entry widget of a text field is never
    written. *)
Definition empty_view (field : Field.t) : Field.t :=
  Field.mk (Field.name field) (Field.toggle field) (Field.getter field)
    (Field.setter field) false
    (if Field.toggle field then Py.VBool false else Py.VStr "")
    (if Field.toggle field then Py.VStr "" else Field.entry_widget_name field).

(** "Single value": the entry widget holds the value; a toggle has the
    name [""]. *)
Definition single_value_view (value : Py.Value) (field : Field.t) : Field.t :=
  Field.mk (Field.name field) (Field.toggle field) (Field.getter field)
    (Field.setter field) false value
    (if Field.toggle field then Py.VStr "" else Field.entry_widget_name field).

(** "Conflict": a text field holds the text "Multiple Values"; a toggle
    holds the value of the reference track under the name "Multiple
    Values". *)
Definition conflict_view (reference : Py.Value) (field : Field.t) : Field.t :=
  Field.mk (Field.name field) (Field.toggle field) (Field.getter field)
    (Field.setter field) false
    (if Field.toggle field then reference
     else Py.VStr Field.MULTIPLE_VALUES_TEXT)
    (if Field.toggle field then Py.VStr Field.MULTIPLE_VALUES_TEXT
     else Field.entry_widget_name field).

(** A text as its entries read once joined: the library splits a text at
    each NUL, and each entry is read followed by a space. *)
Fixpoint nul_as_space (text : string) : string :=
  match text with
  | EmptyString => EmptyString
  | String c rest =>
      String (if Py.chr_eqb c mutagenx.NUL then " "%char else c)
             (nul_as_space rest)
  end.

(** "the concatenated text of all frames": each entry of each frame, in the
    order of the frames, followed by a space. *)
Definition frame_text (f : mutagenx.Frame) : string :=
  match f with
  | mutagenx.TextFrame _ entries | mutagenx.COMM _ _ entries =>
      fold_right (fun entry rest => MP3Track.entry_text entry +:+ " " +:+ rest)
                 "" entries
  | mutagenx.APIC _ _ _ _ => ""
  end.

Definition joined_text (frames : list mutagenx.Frame) : string :=
  fold_right (fun f rest => frame_text f +:+ rest) "" frames.


End Spec.

Module Sample.
Import mutagenx.

Definition newline : string := String Py.LF EmptyString.

(** A track without frames. *)
Definition blank_track : MP3Track.t := MP3Track.mk (mkID3 [] "/music/a.mp3").

Definition cover : Frame :=
  APIC "image/png" 3 "Front Cover" [Byte.x89; Byte.x50; Byte.x4e; Byte.x47].

(** A track with a title and a cover. *)
Definition track_with_cover : MP3Track.t :=
  MP3Track.mk (mkID3 [TextFrame TIT2 [Str "Intro"]; cover] "/music/a.mp3").

(** A guess by extension, for the few extensions of the samples. *)
Definition guess_type (path : string) : option string :=
  let ext := snd (os_path.splitext path) in
  if String.eqb ext ".png" then Some "image/png"
  else if String.eqb ext ".jpg" then Some "image/jpeg"
  else if String.eqb ext ".gif" then Some "image/gif"
  else None.

Definition gif_bytes : list Byte.byte := [Byte.x47; Byte.x49; Byte.x46].

Definition read_file (path : string) : option (list Byte.byte) :=
  if String.eqb path "/covers/front.gif" then Some gif_bytes else None.

Definition urlopen (url : string) : option (list Byte.byte) :=
  if String.eqb url "http://covers.example/front.gif" then Some gif_bytes
  else None.

(** The files of a folder with one track, whose saved title is "Old". *)
Definition one_file : FS :=
  {[ "/music/a.mp3" := mkFile (Some [TextFrame TIT2 [Str "Old"]]) ]}.

(** The track of that file as loaded. *)
Definition loaded_track : MP3Track.t :=
  MP3Track.mk (mkID3 [TextFrame TIT2 [Str "Old"]] "/music/a.mp3").

(** The same track after [set_title("New")], not saved. *)
Definition edited_track : MP3Track.t :=
  snd (MP3Track.set_title (Py.VStr "New") loaded_track).

(** A response of a server that is down: no JSON in the body. *)
Definition unavailable : album_art_utils.Response :=
  album_art_utils.mkResponse 503 None.

(** A response without any result. *)
Definition no_result : album_art_utils.Response :=
  album_art_utils.mkResponse 200
    (Some (album_art_utils.JDict
             [("resultCount", album_art_utils.JNum 0);
              ("results", album_art_utils.JList [])])).

(** The artist field of the form, as its constructor leaves it. *)
Definition artist_field : Field.t :=
  Field.mk "Artist:" false "get_artist" "set_artist" false (Py.VStr "")
    Py.VNone.

Definition track_of_artist (artist path : string) : MP3Track.t :=
  MP3Track.mk (mkID3 [TextFrame TPE1 [Str artist]] path).

Definition track_A1 : MP3Track.t := track_of_artist "A" "/music/1.mp3".
Definition track_B : MP3Track.t := track_of_artist "B" "/music/2.mp3".
Definition track_A2 : MP3Track.t := track_of_artist "A" "/music/3.mp3".

(** A form with the year and the title selected to write, the year not a
    year, and two tracks selected. *)
Definition year_field : Field.t :=
  Field.mk "Year:" false "get_year" "set_year" true (Py.VStr "99") Py.VNone.

Definition title_field : Field.t :=
  Field.mk "Title:" false "get_title" "set_title" true (Py.VStr "Outro")
    Py.VNone.

Definition two_files : FS :=
  {[ "/music/1.mp3" := mkFile (Some [TextFrame TPE1 [Str "A"]]);
     "/music/2.mp3" := mkFile (Some [TextFrame TPE1 [Str "B"]]) ]}.

Definition two_tracks (r : nat) : MP3Track.t :=
  match r with
  | O => track_A1
  | _ => track_B
  end.

Definition form_with (fields : list Field.t) : TrackEditorForm.t :=
  TrackEditorForm.mk fields
    {[ "/music/1.mp3" := 0%nat; "/music/2.mp3" := 1%nat ]} [0%nat; 1%nat].

(** The state in which the user presses "Save Tags" with a malformed year. *)
Definition bad_year_state : TrackEditorForm.State :=
  TrackEditorForm.mkState two_files two_tracks
    (form_with [year_field; title_field]) [].

(** The same with the title alone selected. *)
Definition title_only_state : TrackEditorForm.State :=
  TrackEditorForm.mkState two_files two_tracks (form_with [title_field]) [].

(** A way of reading tracks that fails on the track of "/music/3.mp3". *)
Definition failing_on_third (name : string) (track : MP3Track.t)
  : result Py.Value :=
  if String.eqb (MP3Track.get_file_path track) "/music/3.mp3"
  then Raise IOError
  else MP3Track.call_getter name track.

(** Two tracks whose tags give the same file name, "A.mp3", both selected
    for renaming. *)
Definition same_name_files : FS :=
  {[ "/music/1.mp3" := mkFile (Some [TextFrame TPE1 [Str "A"]]);
     "/music/3.mp3" := mkFile (Some [TextFrame TPE1 [Str "A"]]) ]}.

Definition same_name_tracks (r : nat) : MP3Track.t :=
  match r with
  | O => track_A1
  | _ => track_A2
  end.

Definition same_name_state : TrackEditorForm.State :=
  TrackEditorForm.mkState same_name_files same_name_tracks
    (TrackEditorForm.mk [artist_field]
       {[ "/music/1.mp3" := 0%nat; "/music/3.mp3" := 1%nat ]}
       [0%nat; 1%nat])
    [].

Definition same_name_selection : list string :=
  ["/music/1.mp3"; "/music/3.mp3"].

End Sample.

(* ===================================================================== *)
(** * The forms of values, for the statements on the validating setters *)
(* ===================================================================== *)

Module Forms.

(** Every character is a decimal digit; so for the empty string. *)
Fixpoint all_digits (s : string) : bool :=
  match s with
  | EmptyString => true
  | String c s' => Py.is_digit c && all_digits s'
  end.

(** Digits, a slash, digits, each run possibly empty; or that followed by
    one newline. *)
Definition track_form (s : string) : Prop :=
  exists a b, all_digits a = true /\ all_digits b = true /\
    (s = a +:+ "/" +:+ b \/ s = a +:+ "/" +:+ b +:+ Sample.newline).

End Forms.

(* ===================================================================== *)
(** * The fields of a track *)
(* ===================================================================== *)

Module Fields.

(** The fields [MP3Track] gives access to, each with the name of its setter,
    the name of its getter, and the key its getter reads. *)
Definition accessors : list (string * string * string) :=
  [ ("set_title", "get_title", MP3Track._KEY_TITLE);
    ("set_artist", "get_artist", MP3Track._KEY_ARTIST);
    ("set_album_artist", "get_album_artist", MP3Track._KEY_ALBUM_ARTIST);
    ("set_album", "get_album", MP3Track._KEY_ALBUM);
    ("set_genre", "get_genre", MP3Track._KEY_GENRE);
    ("set_year", "get_year", MP3Track._KEY_YEAR);
    ("set_track", "get_track", MP3Track._KEY_TRACK);
    ("add_comment", "get_comments", MP3Track._KEY_COMMENT);
    ("set_part_of_compilation", "get_part_of_compilation",
     MP3Track._KEY_COMPILATION) ].

Definition getters : list string := map (fun a => snd (fst a)) accessors.

End Fields.

(* ===================================================================== *)
(** * More sample data *)
(* ===================================================================== *)

Module Inputs.
Import mutagenx.

Definition png_bytes : list Byte.byte := [Byte.x89; Byte.x50; Byte.x4e; Byte.x47].
Definition jpeg_bytes : list Byte.byte := [Byte.xff; Byte.xd8; Byte.xff].

(** Two picture files that can be read. *)
Definition read_file (path : string) : option (list Byte.byte) :=
  if String.eqb path "/covers/front.png" then Some png_bytes
  else if String.eqb path "/covers/back.jpg" then Some jpeg_bytes
  else None.

(** A folder with a file that has been opened, whose track has an unsaved
    title, and a file without a tag that has not. *)
Definition folder : FS :=
  {[ "/music/1.mp3" := mkFile (Some [TextFrame TPE1 [Str "A"]]);
     "/music/new.mp3" := mkFile None ]}.

Definition opened_track : MP3Track.t :=
  MP3Track.mk
    (mkID3 [TextFrame TPE1 [Str "A"]; TextFrame TIT2 [Str "Unsaved"]]
           "/music/1.mp3").

Definition folder_state : TrackEditorForm.State :=
  TrackEditorForm.mkState folder (fun _ => opened_track)
    (TrackEditorForm.mk [Sample.artist_field; Sample.title_field]
       {[ "/music/1.mp3" := 0%nat ]} [0%nat])
    [].

Definition folder_selection : list string :=
  ["/music/1.mp3"; "/music/new.mp3"].

(** [pop] as the first element in the order of iteration. *)
Definition first_of (s : list nat) : nat := hd 0%nat s.

End Inputs.

(* ===================================================================== *)
(** * The results of a search, for the statements on the album art *)
(* ===================================================================== *)

Module Results.
Import album_art_utils.

(** A result as the search API returns it: a dictionary whose artwork URL,
    when it has one, is a string. *)
Definition is_result (item : JSON) : bool :=
  match item with
  | JDict entries =>
      match dict_get entries "artworkUrl100" with
      | Some (JStr _) | None => true
      | Some _ => false
      end
  | _ => false
  end.

(** The artwork URL of a result, when it has one. *)
Definition artwork (item : JSON) : option string :=
  match item with
  | JDict entries =>
      match dict_get entries "artworkUrl100" with
      | Some (JStr small_art_url) => Some small_art_url
      | _ => None
      end
  | _ => None
  end.

(** A response of the given status whose body is a document with the given
    results. *)
Definition response_with (code : Z) (items : list JSON) : Response :=
  mkResponse code (Some (JDict [("resultCount", JNum (Z.of_nat (length items)));
                                ("results", JList items)])).

(** Two results with artwork around one without. *)
Definition three_results : list JSON :=
  [ JDict [("collectionName", JStr "Dark Arc");
           ("artworkUrl100", JStr "http://a.example/1/100x100bb.jpg")];
    JDict [("collectionName", JStr "Last")];
    JDict [("artworkUrl100", JStr "http://a.example/3/100x100bb.jpg")] ].

End Results.

(* ===================================================================== *)
(** * What a change of the selection leaves of the files and the tracks *)
(* ===================================================================== *)

Module Selection.
Import mutagenx.

(** The files [files'] are the files [files], but that files of [paths]
    that had no tag may have been given an empty one. *)
Definition files_tagged (paths : list string) (files files' : FS) : Prop :=
  forall path,
    files' !! path = files !! path \/
    In path paths /\
    exists file,
      files !! path = Some file /\ tag file = None /\
      files' !! path = Some (mkFile (Some [])).

(** The index of [st'] has no entry that the index of [st] has not, but
    for paths of [paths]. *)
Definition index_grown (paths : list string)
    (st st' : TrackEditorForm.State) : Prop :=
  forall path r,
    TrackEditorForm.mp3_tracks (TrackEditorForm.self st') !! path = Some r ->
    TrackEditorForm.mp3_tracks (TrackEditorForm.self st) !! path = Some r \/
    In path paths.

(** The tracks of the index of [st] are indexed in [st'] as they were, and
    are the same objects in the same state. *)
Definition tracks_kept (st st' : TrackEditorForm.State) : Prop :=
  forall path r,
    TrackEditorForm.mp3_tracks (TrackEditorForm.self st) !! path = Some r ->
    TrackEditorForm.mp3_tracks (TrackEditorForm.self st') !! path = Some r /\
    TrackEditorForm.heap st' r = TrackEditorForm.heap st r.

(** The fields of the form read their values with getters of [MP3Track]. *)
Definition fields_read_tracks (st : TrackEditorForm.State) : Prop :=
  Forall (fun field => In (Field.getter field) Fields.getters)
         (TrackEditorForm.fields (TrackEditorForm.self st)).

End Selection.

(* ===================================================================== *)
(** * Properties *)
(* ===================================================================== *)

Import mutagenx.

(** ** The monad and the string functions *)

Lemma digit_is_not_comma (c : ascii) :
  Py.is_digit c = true -> Py.chr_eqb c ","%char = false.
Proof. destruct c as [[] [] [] [] [] [] [] []]; vm_compute; congruence. Qed.

(** Four digits and nothing else: the shape of the string. *)
Lemma four_decimal_digits_inv (s : string) :
  Spec.four_decimal_digits s = true ->
  exists c1 c2 c3 c4,
    s = String c1 (String c2 (String c3 (String c4 EmptyString))) /\
    Py.is_digit c1 = true /\ Py.is_digit c2 = true /\
    Py.is_digit c3 = true /\ Py.is_digit c4 = true.
Proof.
  unfold Spec.four_decimal_digits.
  destruct s as [|c1 [|c2 [|c3 [|c4 r]]]]; simpl; try discriminate;
    repeat (match goal with
            | |- context [Py.is_digit ?c] => destruct (Py.is_digit c) eqn:?
            end; try discriminate).
  destruct r; [|discriminate]. intros _. by exists c1, c2, c3, c4.
Qed.

(** The guard of [set_year] accepts four digits, and four digits followed by
    a newline, and nothing else. *)
Lemma match_year_iff (s : string) :
  Py.match_year s = true <->
  Spec.four_decimal_digits s = true \/
  exists d, Spec.four_decimal_digits d = true /\ s = d +:+ Sample.newline.
Proof.
  unfold Py.match_year, Spec.four_decimal_digits. split.
  - destruct s as [|c1 [|c2 [|c3 [|c4 r]]]]; simpl; try discriminate;
      repeat (match goal with
              | |- context [Py.is_digit ?c] => destruct (Py.is_digit c) eqn:?
              end; try discriminate).
    destruct r as [|c [|]]; simpl; try discriminate; [by left|].
    intros Hc. right.
    exists (String c1 (String c2 (String c3 (String c4 EmptyString)))).
    simpl. rewrite Heqb, Heqb0, Heqb1, Heqb2. split; [done|].
    unfold Py.chr_eqb in Hc. apply Ascii.eqb_eq in Hc. by subst.
  - intros [H | (d & H & ->)].
    + destruct (Py.digits 4 s) as [[|]|]; try discriminate. done.
    + apply four_decimal_digits_inv in H
        as (c1 & c2 & c3 & c4 & -> & H1 & H2 & H3 & H4).
      simpl. by rewrite H1, H2, H3, H4.
Qed.

(** ** The frames as a dictionary *)

Lemma keys_setitem (f : Frame) (d : list Frame) (key : string) :
  In key (map HashKey (setitem f d)) ->
  key = HashKey f \/ In key (map HashKey d).
Proof.
  induction d as [|g d IH]; simpl.
  - intros [<- | []]. by left.
  - destruct (String.eqb (HashKey g) (HashKey f)) eqn:E; simpl.
    + intros [<- | H]; [by left | right; by right].
    + intros [<- | H]; [right; by left|].
      destruct (IH H) as [-> | H']; [by left | right; by right].
Qed.

(** Setting an item, deleting frames and loading a tag keep the keys
    distinct. *)
Lemma is_dict_setitem (f : Frame) (d : list Frame) :
  Spec.is_dict d -> Spec.is_dict (setitem f d).
Proof.
  unfold Spec.is_dict. induction d as [|g d IH]; simpl; intros Hd.
  - constructor; [by intros []|constructor].
  - inversion Hd as [|? ? Hfresh Hd']; subst.
    destruct (String.eqb (HashKey g) (HashKey f)) eqn:E; simpl.
    + apply String.eqb_eq in E. rewrite <- E. by constructor.
    + apply String.eqb_neq in E. constructor; [|by apply IH].
      intros H. apply keys_setitem in H as [H | H]; [by apply E | by apply Hfresh].
Qed.

Lemma is_dict_filter (keep : Frame -> bool) (d : list Frame) :
  Spec.is_dict d -> Spec.is_dict (List.filter keep d).
Proof.
  unfold Spec.is_dict. induction d as [|g d IH]; simpl; intros Hd; [done|].
  inversion Hd as [|? ? Hfresh Hd']; subst.
  destruct (keep g); simpl; [|by apply IH].
  constructor; [|by apply IH].
  intros H. apply Hfresh. apply in_map_iff in H as (h & Hk & Hh).
  apply filter_In in Hh as [Hh _]. apply in_map_iff. by exists h.
Qed.

Lemma is_dict_delall (key : string) (d : list Frame) :
  Spec.is_dict d -> Spec.is_dict (delall key d).
Proof.
  intros Hd. unfold delall, delitem.
  destruct (getitem key d); by apply is_dict_filter.
Qed.

Lemma is_dict_load (on_disk d : list Frame) :
  Spec.is_dict d ->
  Spec.is_dict (fold_left (fun d f => setitem f d) on_disk d).
Proof.
  revert d. induction on_disk as [|f on_disk IH]; intros d Hd; [done|].
  simpl. apply IH. by apply is_dict_setitem.
Qed.

(** ** [set_year] *)

(** A year of four digits is stored as it is. *)
Lemma set_year_four_digits (year : string) (self : MP3Track.t) :
  Spec.four_decimal_digits year = true ->
  MP3Track.set_year (Py.VStr year) self =
  (Ok tt,
   MP3Track.mk (add (TextFrame TDRC [ID3TimeStamp year]) (MP3Track._id3 self))).
Proof.
  intros H. pose proof H as Hm.
  apply four_decimal_digits_inv in H
    as (c1 & c2 & c3 & c4 & -> & H1 & H2 & H3 & H4).
  unfold MP3Track.set_year.
  replace (Py.match_year _) with true
    by (symmetry; apply match_year_iff; by left).
  unfold new_TDRC, MultiSpec_validate. simpl.
  by rewrite !digit_is_not_comma.
Qed.

(** A value the guard refuses raises [ValueError] and changes nothing. *)
Lemma set_year_refused (year : string) (self : MP3Track.t) :
  Py.match_year year = false ->
  MP3Track.set_year (Py.VStr year) self = (Raise ValueError, self).
Proof. intros H. unfold MP3Track.set_year. by rewrite H. Qed.

(** The values of the specification's examples. *)
Example set_year_1999 :
  fst (MP3Track.set_year (Py.VStr "1999") Sample.blank_track) = Ok tt.
Proof. reflexivity. Qed.

Example set_year_malformed :
  fst (MP3Track.set_year (Py.VStr "99") Sample.blank_track) = Raise ValueError /\
  fst (MP3Track.set_year (Py.VStr "abcd") Sample.blank_track)
    = Raise ValueError /\
  fst (MP3Track.set_year (Py.VStr "19999") Sample.blank_track)
    = Raise ValueError.
Proof. repeat split; reflexivity. Qed.

Example set_track_examples :
  fst (MP3Track.set_track (Py.VStr "3/12") Sample.blank_track) = Ok tt /\
  fst (MP3Track.set_track (Py.VStr "/12") Sample.blank_track) = Ok tt /\
  fst (MP3Track.set_track (Py.VStr "3/") Sample.blank_track) = Ok tt /\
  fst (MP3Track.set_track (Py.VStr "3") Sample.blank_track) = Raise ValueError.
Proof. repeat split; reflexivity. Qed.

(** C8 (code defect). [set_year] is to succeed exactly on four decimal digits.
    On the value "1999" followed by a newline, which is not four decimal
    digits, the guard [^[0-9]{4}$] matches, no [ValueError] is raised and a
    year frame is stored that reads back as "1999". *)
Theorem set_year_accepts_final_newline :
  Spec.four_decimal_digits ("1999" +:+ Sample.newline) = false /\
  MP3Track.set_year (Py.VStr ("1999" +:+ Sample.newline)) Sample.blank_track =
    (Ok tt,
     MP3Track.mk (mkID3 [TextFrame TDRC [ID3TimeStamp "1999"]] "/music/a.mp3")) /\
  MP3Track.get_year
    (snd (MP3Track.set_year (Py.VStr ("1999" +:+ Sample.newline))
            Sample.blank_track)) = Ok (Some "1999").
Proof. repeat split; reflexivity. Qed.

(** ** The picture methods *)

Section PictureProperties.
Variable guess_type : string -> option string.
Variable read_file urlopen : string -> option (list Byte.byte).

(** With the existing pictures kept, a refused type leaves the tag as it
    was. *)
Lemma add_picture_from_file_refused_keep (path : string) (self : MP3Track.t) :
  MP3Track.supported_mime (guess_type path) = false ->
  MP3Track.add_picture_from_file guess_type read_file path false self =
  (Raise ValueError, self).
Proof.
  intros H. unfold MP3Track.add_picture_from_file, Py.bind, Py.ret.
  by rewrite H.
Qed.

(** With the default, the pictures are deleted before the type is looked
    at: the exception leaves a tag without pictures. *)
Lemma add_picture_from_file_refused_clear (path : string) (self : MP3Track.t) :
  MP3Track.supported_mime (guess_type path) = false ->
  MP3Track.add_picture_from_file guess_type read_file path true self =
  (Raise ValueError, snd (MP3Track.clear_pictures self)).
Proof.
  intros H. unfold MP3Track.add_picture_from_file, Py.bind.
  destruct (MP3Track.clear_pictures self) as [[[]|e] self'] eqn:E;
    [|discriminate E]. simpl. by rewrite H.
Qed.

Lemma add_picture_from_url_refused_clear (url : string) (self : MP3Track.t) :
  MP3Track.supported_mime (guess_type url) = false ->
  MP3Track.add_picture_from_url guess_type urlopen url true self =
  (Raise ValueError, snd (MP3Track.clear_pictures self)).
Proof.
  intros H. unfold MP3Track.add_picture_from_url, Py.bind.
  destruct (MP3Track.clear_pictures self) as [[[]|e] self'] eqn:E;
    [|discriminate E]. simpl. by rewrite H.
Qed.
End PictureProperties.

(** C1 (code defect). A picture of a type outside PNG and JPEG is to be
    refused before any frame is touched. On a track that has a cover, setting
    a GIF from a file or from a URL with the default
    [clear_existing_pictures] raises [ValueError] and the cover the track
    had is gone: the pictures are cleared before the type is checked. *)
Theorem add_picture_gif_removes_cover :
  Sample.guess_type "/covers/front.gif" = Some "image/gif" /\
  Spec.enumerated_image_type "image/gif" = false /\
  MP3Track._get_frames MP3Track._KEY_PICTURE Sample.track_with_cover =
    [Sample.cover] /\
  MP3Track.add_picture_from_file Sample.guess_type Sample.read_file
    "/covers/front.gif" true Sample.track_with_cover =
    (Raise ValueError,
     MP3Track.mk (mkID3 [TextFrame TIT2 [Str "Intro"]] "/music/a.mp3")) /\
  MP3Track._get_frames MP3Track._KEY_PICTURE
    (snd (MP3Track.add_picture_from_file Sample.guess_type Sample.read_file
            "/covers/front.gif" true Sample.track_with_cover)) = [] /\
  MP3Track.add_picture_from_url Sample.guess_type Sample.urlopen
    "http://covers.example/front.gif" true Sample.track_with_cover =
    (Raise ValueError,
     MP3Track.mk (mkID3 [TextFrame TIT2 [Str "Intro"]] "/music/a.mp3")).
Proof. repeat split; reflexivity. Qed.

(** ** Writing a field and reading it back *)

Lemma app_cons (c : ascii) (s w : string) :
  String c s +:+ w = String c (s +:+ w).
Proof. reflexivity. Qed.

Lemma app_empty_l (s : string) : "" +:+ s = s.
Proof. reflexivity. Qed.

(** Characters that are stripped anyway do not count at the end. *)
Lemma rstrip_by_snoc (strip : ascii -> bool) (c : ascii) (s : string) :
  strip c = true ->
  Py.rstrip_by strip (s +:+ String c "") = Py.rstrip_by strip s.
Proof.
  intros Hc. induction s as [|a s IH].
  - rewrite app_empty_l. simpl. by rewrite Hc.
  - rewrite app_cons. simpl. by rewrite IH.
Qed.

(** A string without the separator is one piece. *)
Lemma split_one_piece (sep : ascii) (s : string) :
  Py.contains_chr sep s = false -> Py.split s sep = [s].
Proof.
  induction s as [|a s IH]; [done|]. simpl.
  destruct (Py.chr_eqb a sep); [discriminate|]. simpl.
  intros H. by rewrite (IH H).
Qed.

Lemma getitem_setitem (f : Frame) (d : list Frame) :
  getitem (HashKey f) (setitem f d) = Some f.
Proof.
  unfold getitem. induction d as [|g d IH]; simpl.
  - by rewrite String.eqb_refl.
  - destruct (String.eqb (HashKey g) (HashKey f)) eqn:E; simpl.
    + by rewrite String.eqb_refl.
    + by rewrite E.
Qed.

Lemma getall_setitem_text (id : TextFrameID) (txt : list TextValue)
    (d : list Frame) :
  getall (FrameID id) (setitem (TextFrame id txt) d) = [TextFrame id txt].
Proof.
  unfold getall. change (FrameID id) with (HashKey (TextFrame id txt)).
  by rewrite getitem_setitem.
Qed.

(** After a frame of one text entry is added, the text read under its key is
    that entry without its trailing white space. *)
Lemma get_frames_text_add (id : TextFrameID) (entry : TextValue)
    (self : MP3Track.t) :
  MP3Track._get_frames_text (FrameID id)
    (MP3Track.mk (add (TextFrame id [entry]) (MP3Track._id3 self))) =
  Ok (Some (Py.rstrip (MP3Track.entry_text entry))).
Proof.
  unfold MP3Track._get_frames_text, MP3Track._get_frames, add. simpl.
  rewrite getall_setitem_text. simpl. rewrite app_empty_l.
  unfold Py.rstrip. by rewrite rstrip_by_snoc.
Qed.

Lemma text_setter_round_trip (id : TextFrameID) (V : string)
    (self : MP3Track.t) :
  Py.contains_chr NUL V = false ->
  Py.rstrip V = V ->
  MP3Track._get_frames_text (FrameID id)
    (snd (MP3Track._id3_add (new_text_frame id (Py.VStr V)) self)) =
  Ok (Some V).
Proof.
  intros Hnul Hstrip. unfold new_text_frame, MultiSpec_validate.
  rewrite (split_one_piece _ _ Hnul). simpl.
  rewrite get_frames_text_add. simpl. by rewrite Hstrip.
Qed.

Lemma length_snoc (c : ascii) (s : string) :
  String.length (s +:+ String c "") = S (String.length s).
Proof.
  induction s as [|a s IH]; [done|]. rewrite app_cons. simpl. by rewrite IH.
Qed.

(** A year the guard accepted and that has no trailing white space is four
    digits. *)
Lemma match_year_stripped (V : string) :
  Py.match_year V = true -> Py.rstrip V = V ->
  Spec.four_decimal_digits V = true.
Proof.
  intros Hm Hs. apply match_year_iff in Hm as [H | (d & H & ->)]; [done|].
  exfalso. unfold Py.rstrip, Sample.newline in Hs.
  rewrite rstrip_by_snoc in Hs by reflexivity.
  assert (Hlen : (String.length (Py.rstrip_by Py.isspace d)
                  <= String.length d)%nat).
  { clear. induction d as [|a d IH]; simpl; [lia|].
    destruct (Py.rstrip_by Py.isspace d); simpl in *;
      [destruct (Py.isspace a); simpl; lia | lia]. }
  rewrite Hs, length_snoc in Hlen. lia.
Qed.

Lemma id3_add_ok (f : Frame) (self : MP3Track.t) :
  MP3Track._id3_add (Ok f) self =
  (Ok tt, MP3Track.mk (add f (MP3Track._id3 self))).
Proof. reflexivity. Qed.

Lemma set_part_of_compilation_round_trip (b : bool) (self : MP3Track.t) :
  MP3Track.get_part_of_compilation
    (snd (MP3Track.set_part_of_compilation (Py.VBool b) self)) = Ok b.
Proof.
  unfold MP3Track.get_part_of_compilation, MP3Track.set_part_of_compilation,
    MP3Track._KEY_COMPILATION.
  change "TCMP" with (FrameID TCMP).
  change (new_text_frame TCMP (Py.VStr "1")) with (Ok (TextFrame TCMP [Str "1"])).
  change (new_text_frame TCMP (Py.VStr "0")) with (Ok (TextFrame TCMP [Str "0"])).
  destruct b; unfold Py.truthy; rewrite id3_add_ok; unfold snd;
    by rewrite get_frames_text_add.
Qed.

Lemma text_setter_getter (id : TextFrameID) (V : string)
    (self self' : MP3Track.t) :
  MP3Track._id3_add (new_text_frame id (Py.VStr V)) self = (Ok tt, self') ->
  Py.contains_chr NUL V = false ->
  Py.rstrip V = V ->
  MP3Track.text_value (MP3Track._get_frames_text (FrameID id) self') =
  Ok (Py.VStr V).
Proof.
  intros Hset Hnul Hstrip.
  pose proof (text_setter_round_trip id V self Hnul Hstrip) as H.
  rewrite Hset in H. simpl in H. by rewrite H.
Qed.

Lemma year_setter_getter (V : string) (self self' : MP3Track.t) :
  MP3Track.set_year (Py.VStr V) self = (Ok tt, self') ->
  Py.rstrip V = V ->
  MP3Track.text_value (MP3Track.get_year self') = Ok (Py.VStr V).
Proof.
  intros Hset Hstrip.
  destruct (Py.match_year V) eqn:Hm;
    [|rewrite (set_year_refused V self Hm) in Hset; discriminate Hset].
  rewrite (set_year_four_digits V self (match_year_stripped V Hm Hstrip))
    in Hset.
  injection Hset as <-.
  unfold MP3Track.get_year, MP3Track._KEY_YEAR.
  change "TDRC" with (FrameID TDRC). rewrite get_frames_text_add.
  simpl. by rewrite Hstrip.
Qed.

(** C6, as stated, fails: a title that ends in a space is read back without
    it. *)
Lemma title_with_trailing_space_not_read_back :
  MP3Track.get_title
    (snd (MP3Track.set_title (Py.VStr "Intro ") Sample.blank_track))
  <> Ok (Some "Intro ").
Proof. vm_compute. discriminate. Qed.

(** C6 (amended). For each singleton text field and each string [V] that the
    field's setter accepts, that holds no NUL character and that does not end
    in white space, the getter after the setter returns exactly [V]; the
    setters of title, artist, album artist, album and genre accept every
    string. [set_part_of_compilation b] followed by
    [get_part_of_compilation] returns [b]. *)
Theorem set_then_get_round_trip :
  (forall setter getter V self self',
      (setter, getter) ∈ Spec.singleton_text_fields ->
      MP3Track.call_setter setter (Py.VStr V) self = (Ok tt, self') ->
      Py.contains_chr NUL V = false ->
      Py.rstrip V = V ->
      MP3Track.call_getter getter self' = Ok (Py.VStr V)) /\
  (forall setter getter V self,
      (setter, getter) ∈ Spec.singleton_text_fields ->
      setter <> "set_year" -> setter <> "set_track" ->
      fst (MP3Track.call_setter setter (Py.VStr V) self) = Ok tt) /\
  (forall b self,
      MP3Track.get_part_of_compilation
        (snd (MP3Track.set_part_of_compilation (Py.VBool b) self)) = Ok b).
Proof.
  split; [|split].
  - intros setter getter V self self' Hin Hset Hnul Hstrip.
    unfold Spec.singleton_text_fields in Hin.
    repeat (apply elem_of_cons in Hin as [Hin | Hin];
            [injection Hin as -> ->|]); [..|by apply elem_of_nil in Hin].
    + exact (text_setter_getter TIT2 V self self' Hset Hnul Hstrip).
    + exact (text_setter_getter TPE1 V self self' Hset Hnul Hstrip).
    + exact (text_setter_getter TPE2 V self self' Hset Hnul Hstrip).
    + exact (text_setter_getter TALB V self self' Hset Hnul Hstrip).
    + exact (text_setter_getter TCON V self self' Hset Hnul Hstrip).
    + exact (year_setter_getter V self self' Hset Hstrip).
    + change (MP3Track.set_track (Py.VStr V) self = (Ok tt, self')) in Hset.
      unfold MP3Track.set_track in Hset.
      destruct (Py.match_track V); [|discriminate Hset].
      exact (text_setter_getter TRCK V self self' Hset Hnul Hstrip).
  - intros setter getter V self Hin Hy Ht.
    unfold Spec.singleton_text_fields in Hin.
    repeat (apply elem_of_cons in Hin as [Hin | Hin];
            [injection Hin as -> ->|]); [..|by apply elem_of_nil in Hin];
      try done;
      cbn; unfold new_text_frame, MultiSpec_validate; reflexivity.
  - apply set_part_of_compilation_round_trip.
Qed.

(** ** Comments *)

Lemma length_app (s t : string) :
  String.length (s +:+ t) = (String.length s + String.length t)%nat.
Proof.
  induction s as [|a s IH]; [done|]. rewrite app_cons. simpl. by rewrite IH.
Qed.

Lemma app_inj_r (s1 s2 t : string) : s1 +:+ t = s2 +:+ t -> s1 = s2.
Proof.
  revert s2. induction s1 as [|a s1 IH]; intros [|b s2] H.
  - done.
  - apply (f_equal String.length) in H. rewrite !length_app in H.
    simpl in H. lia.
  - apply (f_equal String.length) in H. rewrite !length_app in H.
    simpl in H. lia.
  - rewrite !app_cons in H. injection H as -> H. f_equal. by apply IH.
Qed.

(** Comments of different keys are stored under different keys. *)
Lemma HashKey_COMM_inj (lang k1 k2 : string) (t1 t2 : list TextValue) :
  HashKey (COMM lang k1 t1) = HashKey (COMM lang k2 t2) -> k1 = k2.
Proof.
  unfold HashKey. intros H. apply String.app_inj in H.
  by apply app_inj_r in H.
Qed.

(** No frame is stored under the bare key ["COMM"]. *)
Lemma getitem_COMM (d : list Frame) : getitem "COMM" d = None.
Proof.
  unfold getitem. induction d as [|g d IH]; [done|]. simpl.
  replace (String.eqb (HashKey g) "COMM") with false; [done|].
  destruct g as [[] ?|? ? ?|? ? ? ?]; reflexivity.
Qed.

Lemma getall_COMM (d : list Frame) :
  getall "COMM" d = List.filter Spec.is_comment d.
Proof. unfold getall. by rewrite getitem_COMM. Qed.

Lemma In_setitem_new (f : Frame) (d : list Frame) : In f (setitem f d).
Proof.
  induction d as [|g d IH]; simpl; [by left|].
  destruct (String.eqb (HashKey g) (HashKey f)); simpl; auto.
Qed.

Lemma In_setitem_old (f g : Frame) (d : list Frame) :
  In g d -> HashKey g <> HashKey f -> In g (setitem f d).
Proof.
  intros Hin Hne. induction d as [|h d IH]; simpl in *; [done|].
  destruct (String.eqb (HashKey h) (HashKey f)) eqn:E; simpl.
  - destruct Hin as [-> | Hin]; [|by right].
    apply String.eqb_eq in E. done.
  - destruct Hin as [-> | Hin]; [by left | right; auto].
Qed.

Lemma getitem_setitem_ne (key : string) (f : Frame) (d : list Frame) :
  HashKey f <> key -> getitem key (setitem f d) = getitem key d.
Proof.
  intros Hne. unfold getitem.
  induction d as [|g d IH]; simpl.
  - by apply String.eqb_neq in Hne as ->.
  - destruct (String.eqb (HashKey g) (HashKey f)) eqn:E; simpl.
    + apply String.eqb_eq in E.
      apply String.eqb_neq in Hne. rewrite Hne.
      rewrite E. by rewrite Hne.
    + by rewrite IH.
Qed.

(** A frame of a new key goes last. *)
Lemma filter_setitem_fresh (P : Frame -> bool) (f : Frame) (d : list Frame) :
  getitem (HashKey f) d = None ->
  List.filter P (setitem f d) = List.filter P d ++ (if P f then [f] else []).
Proof.
  unfold getitem. induction d as [|g d IH]; simpl; [done|].
  destruct (String.eqb (HashKey g) (HashKey f)); [discriminate|].
  intros H. simpl. rewrite (IH H). by destruct (P g).
Qed.

Lemma getitem_None_without (P : Frame -> bool) (key : string)
    (d : list Frame) :
  (forall g, HashKey g = key -> P g = true) ->
  List.filter P d = [] -> getitem key d = None.
Proof.
  intros HP. unfold getitem. induction d as [|g d IH]; simpl; [done|].
  destruct (String.eqb (HashKey g) key) eqn:E.
  - apply String.eqb_eq in E. by rewrite (HP g E).
  - destruct (P g); [discriminate | exact IH].
Qed.

(** Setting a key twice leaves what the second setting alone leaves. *)
Lemma setitem_setitem_same_key (f1 f2 : Frame) (d : list Frame) :
  HashKey f1 = HashKey f2 -> setitem f2 (setitem f1 d) = setitem f2 d.
Proof.
  intros Hk. induction d as [|g d IH]; simpl.
  - by rewrite Hk, String.eqb_refl.
  - destruct (String.eqb (HashKey g) (HashKey f2)) eqn:E.
    + rewrite Hk, E. simpl. by rewrite <- Hk, String.eqb_refl.
    + rewrite Hk, E. simpl. rewrite E. by rewrite IH.
Qed.

Lemma add_comment_keep (c key : string) (self : MP3Track.t) :
  MP3Track.add_comment (Py.VStr c) key false self =
  (Ok tt,
   MP3Track.mk (add (COMM "eng" key (map Str (Py.split c NUL)))
                    (MP3Track._id3 self))).
Proof. reflexivity. Qed.

(** The two comments of the claim, added one after the other without
    clearing. *)
Lemma add_two_comments (c1 c2 k1 k2 : string) (self : MP3Track.t) :
  snd (MP3Track.add_comment (Py.VStr c2) k2 false
         (snd (MP3Track.add_comment (Py.VStr c1) k1 false self))) =
  MP3Track.mk
    (mkID3 (setitem (COMM "eng" k2 (map Str (Py.split c2 NUL)))
              (setitem (COMM "eng" k1 (map Str (Py.split c1 NUL)))
                 (frames (MP3Track._id3 self))))
           (filename (MP3Track._id3 self))).
Proof. reflexivity. Qed.

(** C9, as stated, fails for equal keys: the second comment takes the place
    of the first, and only the second is read. *)
Lemma second_comment_of_same_key_replaces_first :
  MP3Track._get_frames MP3Track._KEY_COMMENT
    (snd (MP3Track.add_comment (Py.VStr "two") "note" false
            (snd (MP3Track.add_comment (Py.VStr "one") "note" false
                    Sample.blank_track)))) =
    [COMM "eng" "note" [Str "two"]] /\
  MP3Track.get_comments
    (snd (MP3Track.add_comment (Py.VStr "two") "note" false
            (snd (MP3Track.add_comment (Py.VStr "one") "note" false
                    Sample.blank_track)))) = Ok (Some "two").
Proof. split; reflexivity. Qed.

Lemma set_then_get_round_trip_witness :
  ("set_title", "get_title") ∈ Spec.singleton_text_fields /\
  Py.contains_chr NUL "Intro" = false /\
  Py.rstrip "Intro" = "Intro" /\
  MP3Track.call_getter "get_title"
    (snd (MP3Track.call_setter "set_title" (Py.VStr "Intro")
            Sample.blank_track)) = Ok (Py.VStr "Intro").
Proof.
  split; [apply list_elem_of_here|].
  split; [reflexivity|]. split; [reflexivity|].
  apply (proj1 set_then_get_round_trip "set_title" "get_title" "Intro"
           Sample.blank_track).
  - apply list_elem_of_here.
  - reflexivity.
  - reflexivity.
  - reflexivity.
Defined.

(** ** The album art lookup *)

Lemma replace_space_by_plus (query : string) :
  Py.replace query " " "+" = Spec.spaces_to_plus query.
Proof.
  unfold Py.replace. induction query as [|c rest IH]; [done|].
  change (Py.replace_from " " "+" 0 (String c rest))
    with (if Py.chr_eqb " " c && true
          then "+" +:+ Py.replace_from " " "+" 0 rest
          else String c (Py.replace_from " " "+" 0 rest)).
  change (Spec.spaces_to_plus (String c rest))
    with (String (if Py.chr_eqb c " " then "+"%char else c)
            (Spec.spaces_to_plus rest)).
  rewrite IH, andb_true_r.
  replace (Py.chr_eqb " " c) with (Py.chr_eqb c " ")
    by apply Ascii.eqb_sym.
  by destruct (Py.chr_eqb c " ").
Qed.

Lemma spaces_to_plus_has_no_space (query : string) :
  Py.contains_chr " " (Spec.spaces_to_plus query) = false.
Proof.
  induction query as [|c rest IH]; [done|].
  change (Py.chr_eqb (if Py.chr_eqb c " " then "+"%char else c) " "
          || Py.contains_chr " " (Spec.spaces_to_plus rest) = false).
  rewrite IH, orb_false_r.
  destruct (Py.chr_eqb c " ") eqn:E; [reflexivity | exact E].
Qed.

(** A document whose result list is empty gives no URL, whatever the
    status. *)
Lemma read_response_no_result (results : album_art_utils.Response)
    (document : album_art_utils.JSON) :
  album_art_utils.json results = Some document ->
  album_art_utils.getitem document "results" = Ok (album_art_utils.JList []) ->
  album_art_utils.read_response results = Ok [].
Proof.
  intros Hj Hr. unfold album_art_utils.read_response.
  rewrite Hj, Hr. simpl.
  destruct (album_art_utils.status_code results =? album_art_utils.codes_ok)
    eqn:E; [|done].
  apply Z.eqb_eq in E. unfold album_art_utils.raise_for_status.
  rewrite E. reflexivity.
Qed.

(** C10, as stated, fails: on a response that is not a success and carries no
    JSON, the lookup raises, and nothing in the caller catches it. *)
Lemma lookup_raises_on_unavailable_server :
  album_art_utils.fetch_album_art (fun _ => Ok Sample.unavailable) "dark arc"
  = Raise ValueError.
Proof. reflexivity. Qed.

(** C10 (amended). For every query the request goes to the search URL in
    which each space of the query is replaced by a plus sign, so that no
    space of the query is dispatched, and the outcome depends on the
    response to that URL alone; for a success response whose result list is
    empty the lookup returns the empty list. *)
Theorem fetch_album_art_dispatch :
  (forall query,
      album_art_utils.search_url query =
        "https://itunes.apple.com/search?term=" +:+ Spec.spaces_to_plus query
        +:+ "&media=music&entity=album" /\
      Py.contains_chr " " (Spec.spaces_to_plus query) = false) /\
  (forall requests_get query,
      album_art_utils.fetch_album_art requests_get query =
      match requests_get (album_art_utils.search_url query) with
      | Ok results => album_art_utils.read_response results
      | Raise e => Raise e
      end) /\
  (forall requests_get query results document,
      requests_get (album_art_utils.search_url query) = Ok results ->
      album_art_utils.status_code results = album_art_utils.codes_ok ->
      album_art_utils.json results = Some document ->
      album_art_utils.getitem document "results"
        = Ok (album_art_utils.JList []) ->
      album_art_utils.fetch_album_art requests_get query = Ok []).
Proof.
  split; [|split].
  - intros query. unfold album_art_utils.search_url.
    rewrite replace_space_by_plus. split; [done|].
    apply spaces_to_plus_has_no_space.
  - reflexivity.
  - intros requests_get query results document Hget _ Hj Hr.
    unfold album_art_utils.fetch_album_art. rewrite Hget.
    by apply (read_response_no_result results document).
Qed.

Lemma fetch_album_art_dispatch_witness :
  album_art_utils.status_code Sample.no_result = album_art_utils.codes_ok /\
  album_art_utils.fetch_album_art (fun _ => Ok Sample.no_result) "dark arc"
  = Ok [].
Proof.
  split; [reflexivity|].
  apply (proj2 (proj2 fetch_album_art_dispatch) (fun _ => Ok Sample.no_result)
           "dark arc" Sample.no_result
           (album_art_utils.JDict
              [("resultCount", album_art_utils.JNum 0);
               ("results", album_art_utils.JList [])])).
  - reflexivity.
  - reflexivity.
  - reflexivity.
  - reflexivity.
Defined.

(** ** [rename_file] *)

(** The path [rename_file] moves the file to. *)
Lemma rename_file_target_exists (new_base_filename : string) (fs : FS)
    (self : MP3Track.t) :
  os.path_exists fs
    (os_path.join (os_path.dirname (MP3Track.get_file_path self))
       (file_utils.ensure_valid_filename new_base_filename)) = true ->
  MP3Track.rename_file new_base_filename (fs, self) =
  (Raise FileExistsError, (fs, self)).
Proof.
  intros H. unfold MP3Track.rename_file, MP3Track.get_file_path in *.
  by rewrite H.
Qed.




(** C4 (code defect). A rename is to leave every value the getters show as
    it was, unsaved edits included. On a track whose saved title is "Old"
    and whose title was set to "New" without saving, a successful rename
    reloads the tag from the moved file: the title read afterwards is "Old",
    the edit is lost. *)
Theorem rename_file_discards_unsaved_title :
  MP3Track.get_title Sample.edited_track = Ok (Some "New") /\
  fst (MP3Track.rename_file "b.mp3" (Sample.one_file, Sample.edited_track))
    = Ok tt /\
  MP3Track.get_file_path
    (snd (snd (MP3Track.rename_file "b.mp3"
                 (Sample.one_file, Sample.edited_track)))) = "/music/b.mp3" /\
  MP3Track.get_title
    (snd (snd (MP3Track.rename_file "b.mp3"
                 (Sample.one_file, Sample.edited_track)))) = Ok (Some "Old").
Proof. repeat split; reflexivity. Qed.

(** ** The view of a field over the selected tracks *)

Lemma getter_clear (field : Field.t) :
  Field.getter (Field.clear field) = Field.getter field.
Proof. unfold Field.clear. by destruct (Field.toggle field). Qed.

Section FieldView.
Variable getattr : string -> MP3Track.t -> result Py.Value.

Lemma scan_cons (track : MP3Track.t) (rest : list MP3Track.t)
    (field : Field.t) :
  Field.scan getattr (track :: rest) field =
  match getattr (Field.getter field) track with
  | Ok value =>
      if decide (Field.entry_widget_value field = value)
      then Field.scan getattr rest field
      else (Ok tt, Spec.mark_conflict field)
  | Raise e => (Raise e, field)
  end.
Proof.
  simpl. unfold Py.bind, Py.get, Py.lift, Spec.mark_conflict, Py.modify.
  destruct (getattr _ _); [|done].
  destruct (decide _); [done|]. by destruct (Field.toggle field).
Qed.

(** While the tracks agree with the widget, the loop goes on and changes
    nothing. *)
Lemma scan_agree (tracks : list MP3Track.t) (field : Field.t) :
  (forall track, In track tracks ->
     getattr (Field.getter field) track
     = Ok (Field.entry_widget_value field)) ->
  Field.scan getattr tracks field = (Ok tt, field).
Proof.
  induction tracks as [|track rest IH]; intros H; [done|].
  rewrite scan_cons, (H track) by (by left).
  rewrite decide_True by done. apply IH. intros t Ht. apply H. by right.
Qed.

(** The loop stops at the first track that differs: the tracks after it are
    not read, whatever reading them would give. *)
Lemma scan_first_mismatch (before after : list MP3Track.t)
    (track : MP3Track.t) (value : Py.Value) (field : Field.t) :
  (forall t, In t before ->
     getattr (Field.getter field) t = Ok (Field.entry_widget_value field)) ->
  getattr (Field.getter field) track = Ok value ->
  Field.entry_widget_value field <> value ->
  Field.scan getattr (before ++ track :: after) field
  = (Ok tt, Spec.mark_conflict field).
Proof.
  intros Hb Ht Hne. induction before as [|t before IH]; simpl app.
  - rewrite scan_cons, Ht. by rewrite decide_False.
  - rewrite scan_cons, (Hb t) by (by left).
    rewrite decide_True by done. apply IH. intros t' Ht'. apply Hb. by right.
Qed.

(** A track that differs somewhere in the list is enough for the mark. *)
Lemma scan_some_mismatch (tracks : list MP3Track.t) (field : Field.t) :
  (forall t, In t tracks ->
     exists v, getattr (Field.getter field) t = Ok v) ->
  (exists t v, In t tracks /\
     getattr (Field.getter field) t = Ok v /\
     Field.entry_widget_value field <> v) ->
  Field.scan getattr tracks field = (Ok tt, Spec.mark_conflict field).
Proof.
  induction tracks as [|track rest IH]; intros Hall (t & v & Hin & Hv & Hne).
  - destruct Hin.
  - rewrite scan_cons.
    destruct (Hall track) as [v0 Hv0]; [by left|]. rewrite Hv0.
    destruct (decide (Field.entry_widget_value field = v0)) as [Heq|]; [|done].
    apply IH.
    + intros t' Ht'. apply Hall. by right.
    + exists t, v. split; [|done].
      destruct Hin as [-> | Hin]; [|done].
      rewrite Hv0 in Hv. injection Hv as <-. done.
Qed.

Lemma update_value_from_tracks_nonempty (random_track : MP3Track.t)
    (mp3_tracks : list MP3Track.t) (field : Field.t) (value : Py.Value) :
  mp3_tracks <> [] ->
  getattr (Field.getter field) random_track = Ok value ->
  Field.update_value_from_tracks getattr random_track mp3_tracks field =
  Field.scan getattr mp3_tracks
    (Field.with_entry_value value (Field.clear field)).
Proof.
  intros Hne Hv. destruct mp3_tracks as [|t l]; [done|].
  unfold Field.update_value_from_tracks.
  unfold Py.bind, Py.modify, Py.get, Py.lift.
  change ((length (t :: l) =? 0)%nat) with false. cbv beta iota.
  rewrite getter_clear, Hv. reflexivity.
Qed.
End FieldView.

(** The view a field is left with, attribute by attribute. *)
Lemma clear_empty_view (field : Field.t) :
  Field.clear field = Spec.empty_view field.
Proof. unfold Field.clear, Spec.empty_view. by destruct (Field.toggle field). Qed.

Lemma with_entry_value_single_view (value : Py.Value) (field : Field.t) :
  Field.with_entry_value value (Field.clear field)
  = Spec.single_value_view value field.
Proof.
  unfold Field.clear, Spec.single_value_view, Field.with_entry_value.
  by destruct (Field.toggle field).
Qed.

Lemma mark_conflict_view (reference : Py.Value) (field : Field.t) :
  Spec.mark_conflict (Field.with_entry_value reference (Field.clear field))
  = Spec.conflict_view reference field.
Proof.
  unfold Field.clear, Spec.conflict_view, Spec.mark_conflict,
    Field.with_entry_value, Field.with_entry_name.
  by destruct field as [name [|] getter setter checkbox value widget_name].
Qed.

Lemma shows_conflict_view (reference : Py.Value) (field : Field.t) :
  Spec.shows_conflict (Spec.conflict_view reference field) = true.
Proof.
  unfold Spec.shows_conflict, Spec.conflict_view.
  by destruct field as [name [|] getter setter checkbox value widget_name].
Qed.

Lemma shows_no_conflict_view (value : Py.Value) (field : Field.t) :
  Field.toggle field = true \/ value <> Py.VStr Field.MULTIPLE_VALUES_TEXT ->
  Spec.shows_conflict (Spec.single_value_view value field) = false.
Proof.
  unfold Spec.shows_conflict, Spec.single_value_view.
  destruct field as [name [|] getter setter checkbox v widget_name]; simpl.
  - done.
  - intros [H | H]; [done|]. by apply bool_decide_eq_false.
Qed.

(** C7. For every field, however its getter reads a track. On an empty
    selection the field is left empty: the checkbox unticked and the entry
    widget emptied (the text [""]; for a toggle the value [False] under the
    name [""]). When all the selected tracks give the same value, the entry
    widget holds that value and the mark "Multiple Values" is not shown,
    unless that very text is the common value of a text field. When two
    selected tracks give different values the field shows "Multiple
    Values", whichever track is taken as the reference and in whichever
    order the tracks are scanned: the outcome for a text field is the same
    for every reference and every order, and a toggle keeps the value of
    the reference under the mark. The scan stops at the first track that
    differs from the reference: the tracks after it are not read, so that
    the outcome is the same even if reading one of them would raise. *)
Theorem update_value_from_tracks_view
    (getattr : string -> MP3Track.t -> result Py.Value) (field : Field.t) :
  (forall random_track,
      Field.update_value_from_tracks getattr random_track [] field
      = (Ok tt, Spec.empty_view field)) /\
  (forall random_track mp3_tracks value,
      In random_track mp3_tracks ->
      (forall track, In track mp3_tracks ->
         getattr (Field.getter field) track = Ok value) ->
      Field.update_value_from_tracks getattr random_track mp3_tracks field
      = (Ok tt, Spec.single_value_view value field) /\
      (Field.toggle field = true \/
       value <> Py.VStr Field.MULTIPLE_VALUES_TEXT ->
       Spec.shows_conflict (Spec.single_value_view value field) = false)) /\
  (forall random_track mp3_tracks reference track1 track2 value1 value2,
      In random_track mp3_tracks ->
      (forall track, In track mp3_tracks ->
         exists v, getattr (Field.getter field) track = Ok v) ->
      getattr (Field.getter field) random_track = Ok reference ->
      In track1 mp3_tracks -> In track2 mp3_tracks ->
      getattr (Field.getter field) track1 = Ok value1 ->
      getattr (Field.getter field) track2 = Ok value2 ->
      value1 <> value2 ->
      Field.update_value_from_tracks getattr random_track mp3_tracks field
      = (Ok tt, Spec.conflict_view reference field) /\
      Spec.shows_conflict (Spec.conflict_view reference field) = true /\
      (Field.toggle field = false ->
       forall other_track order,
         In other_track order ->
         (forall track, In track order <-> In track mp3_tracks) ->
         Field.update_value_from_tracks getattr other_track order field
         = Field.update_value_from_tracks getattr random_track mp3_tracks
             field)) /\
  (forall random_track reference before track after value,
      getattr (Field.getter field) random_track = Ok reference ->
      (forall t, In t before ->
         getattr (Field.getter field) t = Ok reference) ->
      getattr (Field.getter field) track = Ok value ->
      reference <> value ->
      Field.update_value_from_tracks getattr random_track
        (before ++ track :: after) field
      = (Ok tt, Spec.conflict_view reference field)).
Proof.
  assert (Hconflict :
    forall random_track mp3_tracks reference track1 track2 value1 value2,
      In random_track mp3_tracks ->
      (forall track, In track mp3_tracks ->
         exists v, getattr (Field.getter field) track = Ok v) ->
      getattr (Field.getter field) random_track = Ok reference ->
      In track1 mp3_tracks -> In track2 mp3_tracks ->
      getattr (Field.getter field) track1 = Ok value1 ->
      getattr (Field.getter field) track2 = Ok value2 ->
      value1 <> value2 ->
      Field.update_value_from_tracks getattr random_track mp3_tracks field
      = (Ok tt, Spec.conflict_view reference field)).
  { intros random_track mp3_tracks reference track1 track2 value1 value2
      Hin Hall Href H1 H2 Hv1 Hv2 Hne.
    rewrite (update_value_from_tracks_nonempty _ _ _ _ reference);
      [|by destruct mp3_tracks|done].
    rewrite <- mark_conflict_view. apply scan_some_mismatch.
    - intros t Ht.
      cbn [Field.getter Field.entry_widget_value Field.with_entry_value].
      rewrite getter_clear. by apply Hall.
    - cbn [Field.getter Field.entry_widget_value Field.with_entry_value].
      rewrite getter_clear.
      destruct (decide (reference = value1)) as [->|Hr].
      + by exists track2, value2.
      + by exists track1, value1. }
  split; [|split; [|split]].
  - intros random_track. by rewrite <- clear_empty_view.
  - intros random_track mp3_tracks value Hin Hall.
    split; [|apply shows_no_conflict_view].
    rewrite (update_value_from_tracks_nonempty _ _ _ _ value);
      [|by destruct mp3_tracks|by apply Hall].
    rewrite <- with_entry_value_single_view.
    apply scan_agree. intros track Ht.
    cbn [Field.getter Field.entry_widget_value Field.with_entry_value].
    rewrite getter_clear. by apply Hall.
  - intros random_track mp3_tracks reference track1 track2 value1 value2
      Hin Hall Href H1 H2 Hv1 Hv2 Hne.
    split; [by apply (Hconflict _ _ _ track1 track2 value1 value2)|].
    split; [apply shows_conflict_view|].
    intros Htoggle other_track order Hother Hsame.
    destruct (Hall other_track) as [other Hov]; [by apply Hsame|].
    rewrite (Hconflict other_track order other track1 track2 value1 value2);
      try done; try (by apply Hsame).
    + rewrite (Hconflict _ _ _ track1 track2 value1 value2 Hin Hall Href
                 H1 H2 Hv1 Hv2 Hne).
      unfold Spec.conflict_view. by rewrite Htoggle.
    + intros track Ht. apply Hall. by apply Hsame.
  - intros random_track reference before track after value Href Hb Ht Hne.
    rewrite (update_value_from_tracks_nonempty _ _ _ _ reference);
      [|by destruct before|done].
    rewrite <- mark_conflict_view.
    apply (scan_first_mismatch getattr before after track value); try done;
      cbn [Field.getter Field.entry_widget_value Field.with_entry_value];
      rewrite ?getter_clear; done.
Qed.

Lemma update_value_from_tracks_view_witness :
  In Sample.track_A1 [Sample.track_A1; Sample.track_B; Sample.track_A2] /\
  Py.VStr "A" <> Py.VStr "B" /\
  Field.update_value_from_tracks MP3Track.call_getter Sample.track_A1
    [Sample.track_A1; Sample.track_B; Sample.track_A2] Sample.artist_field
  = (Ok tt, Spec.conflict_view (Py.VStr "A") Sample.artist_field).
Proof.
  split; [by left|]. split; [discriminate|].
  refine (proj1 (proj1 (proj2 (proj2 (update_value_from_tracks_view
                                        MP3Track.call_getter
                                        Sample.artist_field)))
                   Sample.track_A1
                   [Sample.track_A1; Sample.track_B; Sample.track_A2]
                   (Py.VStr "A") Sample.track_A1 Sample.track_B
                   (Py.VStr "A") (Py.VStr "B") _ _ _ _ _ _ _ _)).
  - by left.
  - intros track [<- | [<- | [<- | []]]]; eexists; reflexivity.
  - reflexivity.
  - by left.
  - right. by left.
  - reflexivity.
  - reflexivity.
  - discriminate.
Defined.

(** A text field whose tracks all hold the text "Multiple Values" holds it
    as their common value, which reads like the mark. *)
Example common_value_that_reads_like_the_mark :
  let track :=
    MP3Track.mk (mkID3 [TextFrame TPE1 [Str "Multiple Values"]] "/music/1.mp3")
  in
  Spec.shows_conflict
    (snd (Field.update_value_from_tracks MP3Track.call_getter track
            [track; track] Sample.artist_field)) = true.
Proof. reflexivity. Qed.

(** The two selections of the specification's example, for the artist
    field, with each of the three tracks as the reference. *)
Example artist_view_of_A_A_A :
  forall random_track,
    In random_track [Sample.track_A1; Sample.track_A1; Sample.track_A2] ->
    Field.update_value_from_tracks MP3Track.call_getter random_track
      [Sample.track_A1; Sample.track_A1; Sample.track_A2] Sample.artist_field
    = (Ok tt, Field.with_entry_value (Py.VStr "A") Sample.artist_field).
Proof. intros t [<- | [<- | [<- | []]]]; reflexivity. Qed.

Example artist_view_of_A_B_A :
  forall random_track,
    In random_track [Sample.track_A1; Sample.track_B; Sample.track_A2] ->
    Field.update_value_from_tracks MP3Track.call_getter random_track
      [Sample.track_A1; Sample.track_B; Sample.track_A2] Sample.artist_field
    = (Ok tt,
       Field.with_entry_value (Py.VStr Field.MULTIPLE_VALUES_TEXT)
         Sample.artist_field).
Proof. intros t [<- | [<- | [<- | []]]]; reflexivity. Qed.

(** The scan does not reach the third track: reading it would raise, and the
    field is marked all the same. *)
Example scan_stops_before_third_track :
  Sample.failing_on_third "get_artist" Sample.track_A2 = Raise IOError /\
  Field.update_value_from_tracks Sample.failing_on_third Sample.track_A1
    [Sample.track_A1; Sample.track_B; Sample.track_A2] Sample.artist_field
  = (Ok tt,
     Field.with_entry_value (Py.VStr Field.MULTIPLE_VALUES_TEXT)
       Sample.artist_field).
Proof. split; reflexivity. Qed.

(** ** Applying the fields to the selected tracks *)

Import TrackEditorForm.

Lemma for_each_cons {S A} (x : A) (xs : list A) (body : A -> M S unit)
    (s : S) :
  Py.for_each (x :: xs) body s =
  match body x s with
  | (Ok _, s') => Py.for_each xs body s'
  | (Raise e, s') => (Raise e, s')
  end.
Proof. reflexivity. Qed.

Lemma on_track_without_files {A} (r : nat) (m : M MP3Track.t A) (st : State) :
  on_track r (without_files m) st =
  (fst (m (heap st r)),
   mkState (fs st) (<[r := snd (m (heap st r))]> (heap st)) (self st)
     (trace st)).
Proof.
  unfold on_track, without_files. by destruct (m (heap st r)).
Qed.

(** A selected field: the call is recorded, then made. *)
Lemma apply_field_selected (r : nat) (field : Field.t) (st : State) :
  Field.is_selected field = true ->
  apply_field r field st =
  (fst (Field.apply_value_to_track field (heap st r)),
   mkState (fs st)
     (<[r := snd (Field.apply_value_to_track field (heap st r))]> (heap st))
     (self st)
     (trace st ++ [CallSetter r (Field.setter field)
                     (Field.entry_widget_value field)])).
Proof.
  intros Hsel. unfold apply_field. rewrite Hsel.
  unfold Py.bind, record, Py.modify. by rewrite on_track_without_files.
Qed.

Lemma apply_field_not_selected (r : nat) (field : Field.t) (st : State) :
  Field.is_selected field = false -> apply_field r field st = (Ok tt, st).
Proof. intros Hsel. unfold apply_field. by rewrite Hsel. Qed.

Lemma only_track_changed_refl (r : nat) (st : State) :
  Spec.only_track_changed r st st.
Proof. by repeat split. Qed.

Lemma only_track_changed_trans (r : nat) (st1 st2 st3 : State) :
  Spec.only_track_changed r st1 st2 -> Spec.only_track_changed r st2 st3 ->
  Spec.only_track_changed r st1 st3.
Proof.
  intros (Hs & Hf & Hh) (Hs' & Hf' & Hh'). repeat split.
  - by rewrite Hs'.
  - by rewrite Hf'.
  - intros other Hne. by rewrite Hh', Hh.
Qed.

Lemma apply_field_frame (r : nat) (field : Field.t) (st : State) :
  Spec.only_track_changed r st (snd (apply_field r field st)).
Proof.
  destruct (Field.is_selected field) eqn:Hsel.
  - rewrite apply_field_selected by done. repeat split; simpl.
    intros other Hne. by rewrite fn_lookup_insert_ne.
  - rewrite apply_field_not_selected by done. apply only_track_changed_refl.
Qed.

Lemma setter_calls_cons (r : nat) (field : Field.t) (fields : list Field.t) :
  Spec.setter_calls r (field :: fields) =
  (if Field.is_selected field
   then [CallSetter r (Field.setter field) (Field.entry_widget_value field)]
   else []) ++ Spec.setter_calls r fields.
Proof.
  unfold Spec.setter_calls. simpl. by destruct (Field.is_selected field).
Qed.

(** The inner loop: only the track is touched, and when it ends normally the
    calls recorded are those of the selected fields, in order. *)
Lemma apply_fields_frame (r : nat) (fields : list Field.t) (st : State) :
  Spec.only_track_changed r st (snd (Py.for_each fields (apply_field r) st)).
Proof.
  revert st. induction fields as [|field fields IH]; intros st.
  - apply only_track_changed_refl.
  - rewrite for_each_cons.
    pose proof (apply_field_frame r field st) as H.
    destruct (apply_field r field st) as [[[]|e] st1]; simpl in H.
    + eapply only_track_changed_trans; [exact H | apply IH].
    + exact H.
Qed.

Lemma apply_fields_trace (r : nat) (fields : list Field.t) (st st' : State) :
  Py.for_each fields (apply_field r) st = (Ok tt, st') ->
  trace st' = trace st ++ Spec.setter_calls r fields.
Proof.
  revert st. induction fields as [|field fields IH]; intros st H.
  - injection H as <-. by rewrite app_nil_r.
  - rewrite for_each_cons in H. rewrite setter_calls_cons.
    destruct (Field.is_selected field) eqn:Hsel.
    + rewrite apply_field_selected in H by done.
      destruct (fst (Field.apply_value_to_track field (heap st r)));
        [|discriminate H].
      apply IH in H. simpl in H. by rewrite H, <- app_assoc.
    + rewrite apply_field_not_selected in H by done. by apply IH in H.
Qed.

Lemma apply_fields_accepted (r : nat) (fields : list Field.t) (st : State) :
  (forall field track_state,
      In field fields -> Field.is_selected field = true ->
      fst (Field.apply_value_to_track field track_state) = Ok tt) ->
  fst (Py.for_each fields (apply_field r) st) = Ok tt.
Proof.
  revert st. induction fields as [|field fields IH]; intros st H; [done|].
  rewrite for_each_cons.
  destruct (Field.is_selected field) eqn:Hsel.
  - rewrite apply_field_selected by done.
    rewrite (H field) by (done || by left).
    apply IH. intros f t Hf. apply H. by right.
  - rewrite apply_field_not_selected by done.
    apply IH. intros f t Hf. apply H. by right.
Qed.

Lemma apply_fields_refused (r : nat) (before after : list Field.t)
    (field : Field.t) (e : Exn) (st : State) :
  (forall f track_state,
      In f before -> Field.is_selected f = true ->
      fst (Field.apply_value_to_track f track_state) = Ok tt) ->
  Field.is_selected field = true ->
  (forall track_state,
      fst (Field.apply_value_to_track field track_state) = Raise e) ->
  fst (Py.for_each (before ++ field :: after) (apply_field r) st) = Raise e /\
  trace (snd (Py.for_each (before ++ field :: after) (apply_field r) st)) =
    trace st ++ Spec.setter_calls r before
    ++ [CallSetter r (Field.setter field) (Field.entry_widget_value field)].
Proof.
  revert st. induction before as [|f before IH]; intros st Hb Hsel He.
  - simpl app. rewrite for_each_cons, apply_field_selected by done.
    rewrite He. by split.
  - simpl app. rewrite for_each_cons, setter_calls_cons.
    assert (Hb' : forall f' t, In f' before -> Field.is_selected f' = true ->
                    fst (Field.apply_value_to_track f' t) = Ok tt).
    { intros f' t Hf'. apply Hb. by right. }
    destruct (Field.is_selected f) eqn:Hf.
    + rewrite apply_field_selected by done.
      rewrite (Hb f) by (done || by left).
      match goal with
      | |- context [Py.for_each _ _ ?s] =>
          destruct (IH s Hb' Hsel He) as [-> ->]
      end.
      split; [done|]. simpl. by rewrite <- !app_assoc.
    + rewrite apply_field_not_selected by done.
      destruct (IH st Hb' Hsel He) as [-> ->]. by split.
Qed.

Lemma on_track_save_tag (r : nat) (st : State) :
  exists files,
    on_track r MP3Track.save_tag st =
    (Ok tt, mkState files (<[r := heap st r]> (heap st)) (self st) (trace st)).
Proof.
  unfold on_track, MP3Track.save_tag, MP3Track.on_id3, save, save_as. simpl.
  destruct (heap st r) as [[[|f d] p]]; simpl; [|by eexists].
  destruct (fs st !! p); by eexists.
Qed.

(** One turn of the outer loop: the fields, then one [save_tag], unless a
    setter raised. *)
Lemma save_entries_to_track_ok (fields : list Field.t) (r : nat)
    (st st' : State) :
  save_entries_to_track fields r st = (Ok tt, st') ->
  trace st' = trace st ++ Spec.calls_on_track fields r /\
  self st' = self st.
Proof.
  unfold save_entries_to_track, Py.bind. intros H.
  pose proof (apply_fields_frame r fields st) as (Hself & _ & _).
  destruct (Py.for_each fields (apply_field r) st) as [[[]|e] st0] eqn:E;
    [|discriminate H].
  apply apply_fields_trace in E. simpl in Hself.
  unfold record, Py.modify in H.
  match type of H with
  | on_track r MP3Track.save_tag ?s = _ =>
      destruct (on_track_save_tag r s) as [files Hs]; rewrite Hs in H
  end.
  injection H as <-. simpl. rewrite E. unfold Spec.calls_on_track.
  by rewrite app_assoc.
Qed.

Lemma save_entries_to_track_accepted (fields : list Field.t) (r : nat)
    (st : State) :
  (forall field track_state,
      In field fields -> Field.is_selected field = true ->
      fst (Field.apply_value_to_track field track_state) = Ok tt) ->
  fst (save_entries_to_track fields r st) = Ok tt.
Proof.
  intros H. unfold save_entries_to_track, Py.bind.
  pose proof (apply_fields_accepted r fields st H) as Hok.
  destruct (Py.for_each fields (apply_field r) st) as [[[]|e] st0];
    [|discriminate Hok].
  unfold record, Py.modify.
  match goal with
  | |- fst (on_track r MP3Track.save_tag ?s) = _ =>
      destruct (on_track_save_tag r s) as [files ->]
  end.
  reflexivity.
Qed.

Lemma save_entries_to_track_refused (fields : list Field.t) (r : nat)
    (e : Exn) (st : State) :
  fst (Py.for_each fields (apply_field r) st) = Raise e ->
  save_entries_to_track fields r st =
  (Raise e, snd (Py.for_each fields (apply_field r) st)).
Proof.
  intros H. unfold save_entries_to_track, Py.bind.
  destruct (Py.for_each fields (apply_field r) st) as [[[]|e'] st0];
    [discriminate H|]. simpl in H. by injection H as ->.
Qed.

Lemma save_entries_to_tracks_unfold (st : State) :
  save_entries_to_tracks st =
  Py.for_each (selected_mp3_tracks (self st))
    (save_entries_to_track (fields (self st))) st.
Proof. reflexivity. Qed.

Lemma tracks_loop_ok (fields : list Field.t) (tracks : list nat)
    (st st' : State) :
  Py.for_each tracks (save_entries_to_track fields) st = (Ok tt, st') ->
  trace st' = trace st ++ Spec.calls_on_tracks fields tracks.
Proof.
  revert st. induction tracks as [|r tracks IH]; intros st H.
  - injection H as <-. unfold Spec.calls_on_tracks. simpl.
    by rewrite app_nil_r.
  - rewrite for_each_cons in H.
    destruct (save_entries_to_track fields r st) as [[[]|e] st1] eqn:E;
      [|discriminate H].
    apply save_entries_to_track_ok in E as [E _]. apply IH in H.
    rewrite H, E. unfold Spec.calls_on_tracks. simpl.
    by rewrite <- app_assoc.
Qed.

Lemma tracks_loop_accepted (fields : list Field.t) (tracks : list nat)
    (st : State) :
  (forall field track_state,
      In field fields -> Field.is_selected field = true ->
      fst (Field.apply_value_to_track field track_state) = Ok tt) ->
  fst (Py.for_each tracks (save_entries_to_track fields) st) = Ok tt.
Proof.
  intros H. revert st. induction tracks as [|r tracks IH]; intros st; [done|].
  rewrite for_each_cons.
  pose proof (save_entries_to_track_accepted fields r st H) as Hok.
  destruct (save_entries_to_track fields r st) as [[[]|e] st1];
    [apply IH | discriminate Hok].
Qed.

(** [save_tag] is counted once for each occurrence of the track in the
    selection. *)
Lemma saves_of_calls_on_tracks (fields : list Field.t) (tracks : list nat)
    (track : nat) :
  Spec.saves_of track (Spec.calls_on_tracks fields tracks) =
  count_occ Nat.eq_dec tracks track.
Proof.
  unfold Spec.saves_of, Spec.calls_on_tracks.
  induction tracks as [|r tracks IH]; [done|].
  simpl flat_map. rewrite count_occ_app, IH. unfold Spec.calls_on_track.
  rewrite count_occ_app.
  replace (count_occ Event_eq_dec (Spec.setter_calls r fields)
             (CallSaveTag track)) with 0%nat.
  2:{ symmetry. apply count_occ_not_In. unfold Spec.setter_calls.
      rewrite in_map_iff. by intros (f & Hf & _). }
  cbn [count_occ].
  destruct (Nat.eq_dec r track) as [->|Hne];
    destruct (Event_eq_dec (CallSaveTag _) (CallSaveTag track)) as [Heq|Hneq];
    try done.
  by injection Heq.
Qed.

(** C2, as stated, fails: with the year and the title selected and a year
    that is not four digits, the [ValueError] of [set_year] on the first
    track ends [save_entries_to_tracks]. The title is written to no track
    and [save_tag] is called on none. *)
Lemma malformed_year_aborts_apply :
  fst (save_entries_to_tracks Sample.bad_year_state) = Raise ValueError /\
  trace (snd (save_entries_to_tracks Sample.bad_year_state))
    = [CallSetter 0 "set_year" (Py.VStr "99")] /\
  MP3Track.get_title
    (heap (snd (save_entries_to_tracks Sample.bad_year_state)) 0%nat)
    = Ok None /\
  MP3Track.get_title
    (heap (snd (save_entries_to_tracks Sample.bad_year_state)) 1%nat)
    = Ok None /\
  Spec.saves_of 0 (trace (snd (save_entries_to_tracks Sample.bad_year_state)))
    = 0%nat /\
  Spec.saves_of 1 (trace (snd (save_entries_to_tracks Sample.bad_year_state)))
    = 0%nat.
Proof. repeat split; reflexivity. Qed.

(** C2 (amended). [save_entries_to_tracks] goes through the selected tracks
    and, for each, calls the setter of every selected field, in the order of
    the fields, and then [save_tag] on that track. When it ends normally
    the calls made are exactly these, so that [save_tag] was called exactly
    once on each selected track; it ends normally when every selected
    field's setter accepts the field's value. An exception of a setter is
    not caught: it ends [save_entries_to_tracks] at once, the track at hand
    is not saved, and the remaining fields and tracks are not touched. *)
Theorem save_entries_to_tracks_calls (st : State) :
  (forall st',
      save_entries_to_tracks st = (Ok tt, st') ->
      trace st' =
        trace st ++ Spec.calls_on_tracks (fields (self st))
                      (selected_mp3_tracks (self st))) /\
  (forall track,
      NoDup (selected_mp3_tracks (self st)) ->
      In track (selected_mp3_tracks (self st)) ->
      Spec.saves_of track
        (Spec.calls_on_tracks (fields (self st))
           (selected_mp3_tracks (self st))) = 1%nat) /\
  ((forall field track_state,
       In field (fields (self st)) -> Field.is_selected field = true ->
       fst (Field.apply_value_to_track field track_state) = Ok tt) ->
   fst (save_entries_to_tracks st) = Ok tt) /\
  (forall track rest before field after e,
      selected_mp3_tracks (self st) = track :: rest ->
      fields (self st) = before ++ field :: after ->
      (forall f track_state,
          In f before -> Field.is_selected f = true ->
          fst (Field.apply_value_to_track f track_state) = Ok tt) ->
      Field.is_selected field = true ->
      (forall track_state,
          fst (Field.apply_value_to_track field track_state) = Raise e) ->
      fst (save_entries_to_tracks st) = Raise e /\
      trace (snd (save_entries_to_tracks st)) =
        trace st ++ Spec.setter_calls track before
        ++ [CallSetter track (Field.setter field)
              (Field.entry_widget_value field)] /\
      fs (snd (save_entries_to_tracks st)) = fs st /\
      forall other,
        other <> track ->
        heap (snd (save_entries_to_tracks st)) other = heap st other).
Proof.
  split; [|split; [|split]].
  - intros st' H. rewrite save_entries_to_tracks_unfold in H.
    by apply tracks_loop_ok in H.
  - intros track Hnd Hin. rewrite saves_of_calls_on_tracks.
    apply NoDup_ListNoDup in Hnd.
    exact (proj1 (NoDup_count_occ' Nat.eq_dec _) Hnd track Hin).
  - intros H. rewrite save_entries_to_tracks_unfold.
    by apply tracks_loop_accepted.
  - intros track rest before field after e Hsel Hfields Hb Hs He.
    rewrite save_entries_to_tracks_unfold, Hsel, Hfields, for_each_cons.
    destruct (apply_fields_refused track before after field e st Hb Hs He)
      as [Hr Ht].
    rewrite (save_entries_to_track_refused _ _ e) by exact Hr.
    split; [done|]. split; [exact Ht|].
    pose proof (apply_fields_frame track (before ++ field :: after) st)
      as (_ & Hfs & Hheap).
    by split.
Qed.

Lemma save_entries_to_tracks_calls_witness :
  (forall field track_state,
      In field (fields (self Sample.title_only_state)) ->
      Field.is_selected field = true ->
      fst (Field.apply_value_to_track field track_state) = Ok tt) /\
  fst (save_entries_to_tracks Sample.title_only_state) = Ok tt.
Proof.
  assert (H : forall field track_state,
             In field (fields (self Sample.title_only_state)) ->
             Field.is_selected field = true ->
             fst (Field.apply_value_to_track field track_state) = Ok tt).
  { intros field track_state [<- | []] _. reflexivity. }
  split; [exact H|].
  exact (proj1 (proj2 (proj2 (save_entries_to_tracks_calls
                                Sample.title_only_state))) H).
Defined.

(** ** The getters of the text fields never raise *)

(** What [getall] finds under the identifier of a text frame carries a
    text. *)
Lemma getall_has_text (id : TextFrameID) (d : list Frame) (f : Frame) :
  In f (getall (FrameID id) d) -> exists t, text f = Ok t.
Proof.
  unfold getall. destruct (getitem (FrameID id) d) as [f0|] eqn:E.
  - intros [<- | []]. apply find_some in E as [_ E].
    destruct f0 as [id0 t|lang desc t|mime type desc data];
      [by exists t | by exists t |].
    by destruct id.
  - intros H. apply filter_In in H as [_ H].
    destruct f as [id0 t|lang desc t|mime type desc data];
      [by exists t | by exists t |].
    by destruct id.
Qed.

Lemma append_frames_ok (found : list Frame) (all_text : string) :
  (forall f, In f found -> exists t, text f = Ok t) ->
  exists s, MP3Track.append_frames found all_text = Ok s.
Proof.
  revert all_text. induction found as [|f found IH]; intros all_text H.
  - by exists all_text.
  - simpl. destruct (H f) as [t ->]; [by left|].
    apply IH. intros g Hg. apply H. by right.
Qed.

Lemma get_frames_text_ok (id : TextFrameID) (self : MP3Track.t) :
  exists v, MP3Track._get_frames_text (FrameID id) self = Ok v.
Proof.
  unfold MP3Track._get_frames_text, MP3Track._get_frames.
  destruct (length _ =? 0)%nat; [by eexists|].
  destruct (append_frames_ok (getall (FrameID id) (frames (MP3Track._id3 self)))
              "") as [s ->]; [|by eexists].
  intros f. apply getall_has_text.
Qed.


(** ** Renaming the selected files *)

Section RenameStep.
Variables (path : string) (rest : list string) (report : Report)
          (st : State) (r : nat) (artist album title : option string).
Hypothesis Hindex : mp3_tracks (self st) !! path = Some r.
Hypothesis Hartist : MP3Track.get_artist (heap st r) = Ok artist.
Hypothesis Halbum : MP3Track.get_album (heap st r) = Ok album.
Hypothesis Htitle : MP3Track.get_title (heap st r) = Ok title.

End RenameStep.


















(** The example of the specification: of two tracks that compute the same
    name the first is renamed and keyed by its new path, the second is
    reported as a collision and stays keyed by its path. *)
Example rename_two_tracks_of_same_name :
  exists report st',
    rename_files (Some Sample.same_name_selection) Sample.same_name_state
      = (Ok (Some report), st') /\
    files_not_enough_info report = [] /\
    files_already_exist report = ["/music/3.mp3"] /\
    mp3_tracks (self st') !! "/music/A.mp3" = Some 0%nat /\
    mp3_tracks (self st') !! "/music/1.mp3" = None /\
    mp3_tracks (self st') !! "/music/3.mp3" = Some 1%nat /\
    MP3Track.get_file_path (heap st' 0%nat) = "/music/A.mp3" /\
    MP3Track.get_file_path (heap st' 1%nat) = "/music/3.mp3".
Proof.
  eexists _, _. split; [vm_compute; reflexivity|].
  repeat split; reflexivity.
Qed.




(* ===================================================================== *)
(** * Further properties of the code *)
(* ===================================================================== *)

(** ** File names: [os.path] and [ensure_valid_filename] *)

Lemma len_length (s : string) : Py.len s = Z.of_nat (String.length s).
Proof.
  induction s as [|a s IH]; [done|]. cbn [Py.len String.length]. lia.
Qed.

Lemma len_app (s t : string) : Py.len (s +:+ t) = Py.len s + Py.len t.
Proof. rewrite !len_length, length_app. lia. Qed.

Lemma take_drop (n : nat) (s : string) : Py.take n s +:+ Py.drop n s = s.
Proof.
  revert s. induction n as [|n IH]; intros [|a s]; try done.
  simpl. rewrite app_cons. by rewrite IH.
Qed.

Lemma length_take (n : nat) (s : string) :
  String.length (Py.take n s) = Nat.min n (String.length s).
Proof.
  revert s. induction n as [|n IH]; intros [|a s]; try done.
  simpl. by rewrite IH.
Qed.

Lemma take_all (n : nat) (s : string) :
  (String.length s <= n)%nat -> Py.take n s = s.
Proof.
  revert s. induction n as [|n IH]; intros [|a s] H; simpl in *; try done; try lia.
  f_equal. apply IH. lia.
Qed.

Lemma take_app_length (a b : string) : Py.take (String.length a) (a +:+ b) = a.
Proof.
  induction a as [|x a IH]; [by destruct b|]. rewrite app_cons. simpl. by rewrite IH.
Qed.

Lemma drop_app_length (a b : string) : Py.drop (String.length a) (a +:+ b) = b.
Proof.
  induction a as [|x a IH]; [by destruct b|]. rewrite app_cons. simpl. by rewrite IH.
Qed.

Lemma slice_bound_in_range (s : string) (i : Z) :
  0 <= i <= Py.len s -> Py.slice_bound s i = Z.to_nat i.
Proof.
  intros H. unfold Py.slice_bound.
  destruct (i <? 0) eqn:E; [apply Z.ltb_lt in E; lia|]. f_equal. lia.
Qed.

Lemma contains_chr_app (c : ascii) (a b : string) :
  Py.contains_chr c (a +:+ b) = Py.contains_chr c a || Py.contains_chr c b.
Proof.
  induction a as [|x a IH]; [done|]. rewrite app_cons.
  cbn [Py.contains_chr]. rewrite IH. by rewrite orb_assoc.
Qed.

Lemma contains_chr_take (c : ascii) (n : nat) (s : string) :
  Py.contains_chr c s = false -> Py.contains_chr c (Py.take n s) = false.
Proof.
  intros H. rewrite <- (take_drop n s), contains_chr_app in H.
  by apply orb_false_elim in H as [H _].
Qed.

(** [rfind] *)
Lemma rfind_absent (c : ascii) (s : string) :
  Py.contains_chr c s = false -> Py.rfind c s = -1.
Proof.
  induction s as [|a s IH]; [done|]. cbn [Py.contains_chr Py.rfind].
  destruct (Py.chr_eqb a c) eqn:E; [done|]. cbn [orb]. intros H.
  by rewrite (IH H).
Qed.

Lemma rfind_range (c : ascii) (s : string) : -1 <= Py.rfind c s < Py.len s.
Proof.
  induction s as [|a s IH]; cbn [Py.rfind Py.len]; [lia|].
  destruct (0 <=? Py.rfind c s) eqn:E.
  - lia.
  - apply Z.leb_gt in E. destruct (Py.chr_eqb a c); lia.
Qed.

Lemma rfind_last (c : ascii) (a n : string) :
  Py.contains_chr c n = false ->
  Py.rfind c (a +:+ String c n) = Py.len a.
Proof.
  intros H. induction a as [|x a IH].
  - rewrite app_empty_l. cbn [Py.rfind]. rewrite (rfind_absent c n H).
    unfold Py.chr_eqb. by rewrite Ascii.eqb_refl.
  - rewrite app_cons. cbn [Py.rfind Py.len]. rewrite IH.
    rewrite len_length.
    destruct (0 <=? Z.of_nat (String.length a)) eqn:E; [lia|].
    apply Z.leb_gt in E. lia.
Qed.

Lemma str_app_assoc (a b c : string) : (a +:+ b) +:+ c = a +:+ (b +:+ c).
Proof.
  induction a as [|x a IH]; [done|]. rewrite !app_cons. by rewrite IH.
Qed.

Lemma str_app_empty_r (a : string) : a +:+ "" = a.
Proof. induction a as [|x a IH]; [done|]. rewrite app_cons. by rewrite IH. Qed.

Lemma slice_to_app (a b : string) : Py.slice_to (a +:+ b) (Py.len a) = a.
Proof.
  unfold Py.slice_to. rewrite slice_bound_in_range.
  - rewrite len_length, Nat2Z.id. apply take_app_length.
  - rewrite len_app, !len_length. lia.
Qed.

Lemma slice_from_app (a b : string) : Py.slice_from (a +:+ b) (Py.len a) = b.
Proof.
  unfold Py.slice_from. rewrite slice_bound_in_range.
  - rewrite len_length, Nat2Z.id. apply drop_app_length.
  - rewrite len_app, !len_length. lia.
Qed.

Lemma slice_from_0 (s : string) : Py.slice_from s 0 = s.
Proof.
  unfold Py.slice_from. rewrite slice_bound_in_range; [done|].
  rewrite len_length. lia.
Qed.

Lemma slice_to_0 (s : string) : Py.slice_to s 0 = "".
Proof.
  unfold Py.slice_to. rewrite slice_bound_in_range; [by destruct s|].
  rewrite len_length. lia.
Qed.

Lemma slice_to_from (s : string) (i : Z) :
  Py.slice_to s i +:+ Py.slice_from s i = s.
Proof. apply take_drop. Qed.

(** The part up to and including the last [c] of a string that ends in a
    part without [c]. *)
Lemma rfind_after_prefix (c : ascii) (a n : string) :
  Py.contains_chr c n = false ->
  Py.rfind c ((a +:+ String c "") +:+ n) + 1 = Py.len (a +:+ String c "").
Proof.
  intros H. rewrite str_app_assoc, app_cons, app_empty_l.
  rewrite (rfind_last c a n H), len_app. reflexivity.
Qed.

Lemma endswith_snoc (c : ascii) (s : string) :
  Py.endswith s c = true -> exists a, s = a +:+ String c "".
Proof.
  induction s as [|x s IH]; [done|]. cbn [Py.endswith].
  destruct s as [|y s].
  - intros H. exists "". unfold Py.chr_eqb in H. apply Ascii.eqb_eq in H.
    by subst.
  - intros H. destruct (IH H) as [a Ha]. exists (String x a).
    rewrite app_cons. by rewrite <- Ha.
Qed.

Lemma no_slash_startswith (n : string) :
  Py.contains_chr "/" n = false -> Py.startswith n "/" = false.
Proof.
  destruct n as [|b n]; [done|]. cbn [Py.contains_chr Py.startswith].
  intros H. apply orb_false_elim in H as [H _].
  unfold Py.chr_eqb in *. rewrite Ascii.eqb_sym. by rewrite H.
Qed.

(** [basename] of a joined path is the name that was joined, when the name
    has no slash. *)
Lemma basename_join (d n : string) :
  Py.contains_chr "/" n = false ->
  os_path.basename (os_path.join d n) = n.
Proof.
  intros Hn. unfold os_path.join. rewrite (no_slash_startswith n Hn).
  unfold os_path.basename.
  destruct (String.eqb d "") eqn:Hd.
  - apply String.eqb_eq in Hd as ->. cbn [orb]. rewrite app_empty_l.
    rewrite (rfind_absent _ _ Hn). apply slice_from_0.
  - cbn [orb]. destruct (Py.endswith d "/") eqn:He.
    + apply endswith_snoc in He as [a ->].
      rewrite (rfind_after_prefix _ a n Hn). apply slice_from_app.
    + replace (d +:+ "/" +:+ n) with ((d +:+ "/") +:+ n)
        by apply str_app_assoc.
      rewrite (rfind_after_prefix _ d n Hn). apply slice_from_app.
Qed.

Lemma rstrip_by_cons (strip : ascii -> bool) (c : ascii) (s : string) :
  Py.rstrip_by strip (String c s) =
  match Py.rstrip_by strip s with
  | EmptyString => if strip c then EmptyString else String c EmptyString
  | r => String c r
  end.
Proof. reflexivity. Qed.

(** [rstrip] twice is [rstrip] once. *)
Lemma rstrip_by_idem (strip : ascii -> bool) (s : string) :
  Py.rstrip_by strip (Py.rstrip_by strip s) = Py.rstrip_by strip s.
Proof.
  induction s as [|c s IH]; [done|]. rewrite rstrip_by_cons.
  destruct (Py.rstrip_by strip s) as [|y r] eqn:E.
  - destruct (strip c) eqn:Ec; [done|]. rewrite rstrip_by_cons.
    cbn [Py.rstrip_by]. by rewrite Ec.
  - rewrite (rstrip_by_cons strip c (String y r)). by rewrite IH.
Qed.

(** A stripped string that is not empty does not end in a slash; a string of
    slashes does. *)
Lemma stripped_no_final_slash (s : string) :
  Py.rstrip_by (Py.chr_eqb "/") s = s -> s <> "" -> Py.endswith s "/" = false.
Proof.
  induction s as [|c s IH]; [done|]. rewrite rstrip_by_cons.
  intros H _.
  destruct (Py.rstrip_by (Py.chr_eqb "/") s) as [|y r] eqn:E.
  - destruct (Py.chr_eqb "/" c) eqn:Ec; [discriminate H|].
    injection H as <-. cbn [Py.endswith].
    unfold Py.chr_eqb in *. by rewrite Ascii.eqb_sym.
  - injection H as <-. cbn [Py.endswith]. by apply IH.
Qed.

Lemma slashes_final_slash (s : string) :
  Py.rstrip_by (Py.chr_eqb "/") s = "" -> s <> "" -> Py.endswith s "/" = true.
Proof.
  induction s as [|c s IH]; [done|]. rewrite rstrip_by_cons.
  intros H _.
  destruct (Py.rstrip_by (Py.chr_eqb "/") s) as [|y r] eqn:E; [|discriminate H].
  destruct (Py.chr_eqb "/" c) eqn:Ec; [|discriminate H].
  destruct s as [|y s]; cbn [Py.endswith].
  - unfold Py.chr_eqb in *. by rewrite Ascii.eqb_sym.
  - by apply IH.
Qed.

(** What [dirname] returns: nothing, slashes only, or a path that does not
    end in a slash. *)
Lemma dirname_shape (p : string) :
  os_path.dirname p = "" \/
  (os_path.dirname p <> "" /\
   Py.rstrip_by (Py.chr_eqb "/") (os_path.dirname p) = "") \/
  (os_path.dirname p <> "" /\
   Py.rstrip_by (Py.chr_eqb "/") (os_path.dirname p) = os_path.dirname p).
Proof.
  unfold os_path.dirname.
  set (head := Py.slice_to p (Py.rfind "/" p + 1)).
  destruct (String.eqb head "") eqn:E1; cbn [negb andb].
  { left. by apply String.eqb_eq. }
  apply String.eqb_neq in E1.
  destruct (String.eqb (Py.rstrip_by (Py.chr_eqb "/") head) "") eqn:E2;
    cbn [negb].
  - right. left. split; [done|]. by apply String.eqb_eq.
  - right. right. apply String.eqb_neq in E2. split; [done|].
    apply rstrip_by_idem.
Qed.

(** [dirname] of a string cut after its last slash. *)
Lemma dirname_of_head (h n : string) :
  Py.contains_chr "/" n = false ->
  Py.endswith h "/" = true ->
  os_path.dirname (h +:+ n) =
  if negb (String.eqb (Py.rstrip_by (Py.chr_eqb "/") h) "")
  then Py.rstrip_by (Py.chr_eqb "/") h else h.
Proof.
  intros Hn Hh. apply endswith_snoc in Hh as [a ->].
  unfold os_path.dirname. rewrite (rfind_after_prefix _ a n Hn).
  rewrite slice_to_app.
  replace (String.eqb (a +:+ "/") "") with false; [done|].
  symmetry. apply String.eqb_neq. by destruct a.
Qed.

(** A file renamed inside the directory [dirname] gave stays in it. *)
Lemma dirname_join_dirname (p n : string) :
  Py.contains_chr "/" n = false ->
  os_path.dirname (os_path.join (os_path.dirname p) n) = os_path.dirname p.
Proof.
  intros Hn. unfold os_path.join. rewrite (no_slash_startswith n Hn).
  destruct (dirname_shape p) as [Hd | [[Hne Hd] | [Hne Hd]]];
    set (d := os_path.dirname p) in *.
  - rewrite Hd. cbn [String.eqb orb]. rewrite app_empty_l.
    unfold os_path.dirname. rewrite (rfind_absent _ _ Hn).
    by rewrite slice_to_0.
  - rewrite (slashes_final_slash d Hd Hne), orb_true_r.
    rewrite dirname_of_head; [|done|by apply slashes_final_slash].
    rewrite Hd. reflexivity.
  - rewrite (stripped_no_final_slash d Hd Hne), orb_false_r.
    apply String.eqb_neq in Hne. rewrite Hne.
    replace (d +:+ "/" +:+ n) with ((d +:+ "/") +:+ n)
      by apply str_app_assoc.
    rewrite dirname_of_head; [|done|].
    + rewrite (rstrip_by_snoc _ "/"%char d) by reflexivity. rewrite Hd.
      apply String.eqb_neq in Hne. by apply String.eqb_neq in Hne as ->.
    + clear. induction d as [|x d IH]; [done|]. rewrite app_cons.
      cbn [Py.endswith]. destruct d; [done|]. exact IH.
Qed.

Lemma replace_colon_cons (c : ascii) (s : string) :
  Py.replace (String c s) ":" "" =
  if Py.chr_eqb ":" c then Py.replace s ":" ""
  else String c (Py.replace s ":" "").
Proof.
  unfold Py.replace.
  change (Py.replace_from ":" "" 0 (String c s))
    with (if Py.chr_eqb ":" c && true
          then "" +:+ Py.replace_from ":" "" 0 s
          else String c (Py.replace_from ":" "" 0 s)).
  rewrite andb_true_r. by destruct (Py.chr_eqb ":" c).
Qed.

Lemma replace_colon_none (s : string) :
  Py.contains_chr ":" (Py.replace s ":" "") = false.
Proof.
  induction s as [|c s IH]; [done|]. rewrite replace_colon_cons.
  destruct (Py.chr_eqb ":" c) eqn:E; [done|].
  cbn [Py.contains_chr]. rewrite IH, orb_false_r.
  unfold Py.chr_eqb in *. by rewrite Ascii.eqb_sym.
Qed.

Lemma replace_colon_id (s : string) :
  Py.contains_chr ":" s = false -> Py.replace s ":" "" = s.
Proof.
  induction s as [|c s IH]; [done|]. cbn [Py.contains_chr]. intros H.
  apply orb_false_elim in H as [Hc Hs]. rewrite replace_colon_cons.
  unfold Py.chr_eqb in *. rewrite Ascii.eqb_sym, Hc. by rewrite IH.
Qed.

Lemma len_slice_to (s : string) (k : Z) :
  0 <= k -> Py.len (Py.slice_to s k) <= k.
Proof.
  intros Hk. unfold Py.slice_to, Py.slice_bound.
  destruct (k <? 0) eqn:E; [apply Z.ltb_lt in E; lia|].
  rewrite len_length, length_take. lia.
Qed.

Lemma slice_to_all (s : string) (k : Z) :
  Py.len s <= k -> Py.slice_to s k = s.
Proof.
  intros Hk. pose proof (len_length s). unfold Py.slice_to, Py.slice_bound.
  destruct (k <? 0) eqn:E; [apply Z.ltb_lt in E; lia|].
  apply take_all. lia.
Qed.

(** [splitext] cuts the name in two parts. *)
Lemma splitext_concat (p : string) :
  fst (os_path.splitext p) +:+ snd (os_path.splitext p) = p.
Proof.
  unfold os_path.splitext. destruct (_ && _); cbn [fst snd].
  - apply slice_to_from.
  - apply str_app_empty_r.
Qed.

Lemma ensure_valid_filename_eq (filename : string) :
  file_utils.ensure_valid_filename filename =
  Py.slice_to (Py.replace (fst (os_path.splitext filename)) ":" "")
    (255 - Py.len (snd (os_path.splitext filename)))
  +:+ snd (os_path.splitext filename).
Proof.
  unfold file_utils.ensure_valid_filename.
  by destruct (os_path.splitext filename).
Qed.

(** X1. The name [ensure_valid_filename] returns has at most 255 characters
    whenever the extension of the name has at most 255. *)
Theorem ensure_valid_filename_length (filename : string) :
  Py.len (snd (os_path.splitext filename)) <= 255 ->
  Py.len (file_utils.ensure_valid_filename filename) <= 255.
Proof.
  intros H. rewrite ensure_valid_filename_eq, len_app.
  pose proof (len_slice_to
                (Py.replace (fst (os_path.splitext filename)) ":" "")
                (255 - Py.len (snd (os_path.splitext filename)))).
  lia.
Qed.

Lemma ensure_valid_filename_length_witness :
  Py.len (snd (os_path.splitext "a:b:c.mp3")) <= 255 /\
  Py.len (file_utils.ensure_valid_filename "a:b:c.mp3") <= 255.
Proof.
  assert (H : Py.len (snd (os_path.splitext "a:b:c.mp3")) <= 255)
    by (vm_compute; discriminate).
  split; [exact H|]. exact (ensure_valid_filename_length "a:b:c.mp3" H).
Defined.

(** X2. A name without a colon and of at most 255 characters is returned as
    it is. *)
Theorem ensure_valid_filename_valid (filename : string) :
  Py.contains_chr ":" filename = false ->
  Py.len filename <= 255 ->
  file_utils.ensure_valid_filename filename = filename.
Proof.
  intros Hc Hl. rewrite ensure_valid_filename_eq.
  pose proof (splitext_concat filename) as Hp.
  set (root := fst (os_path.splitext filename)) in *.
  set (ext := snd (os_path.splitext filename)) in *.
  assert (Hroot : Py.contains_chr ":" root = false).
  { rewrite <- Hp, contains_chr_app in Hc.
    by apply orb_false_elim in Hc as [Hc _]. }
  rewrite (replace_colon_id root Hroot).
  rewrite slice_to_all; [done|].
  rewrite <- Hp, len_app in Hl. lia.
Qed.

Lemma ensure_valid_filename_valid_witness :
  Py.contains_chr ":" "Intro - A.mp3" = false /\
  Py.len "Intro - A.mp3" <= 255 /\
  file_utils.ensure_valid_filename "Intro - A.mp3" = "Intro - A.mp3".
Proof.
  assert (H1 : Py.contains_chr ":" "Intro - A.mp3" = false) by reflexivity.
  assert (H2 : Py.len "Intro - A.mp3" <= 255) by (vm_compute; discriminate).
  split; [exact H1|]. split; [exact H2|].
  exact (ensure_valid_filename_valid "Intro - A.mp3" H1 H2).
Defined.

(** X3. The name returned is a root without any colon followed by the
    extension of the name given, which is kept whole: a colon of the
    extension is not removed. *)
Theorem ensure_valid_filename_root (filename : string) :
  exists root,
    file_utils.ensure_valid_filename filename
      = root +:+ snd (os_path.splitext filename) /\
    Py.contains_chr ":" root = false.
Proof.
  eexists. split; [apply ensure_valid_filename_eq|].
  apply contains_chr_take, replace_colon_none.
Qed.

Example colon_in_extension_is_kept :
  file_utils.ensure_valid_filename "a:b.m:p3" = "ab.m:p3".
Proof. reflexivity. Qed.

(** A rename that returns has put the track at the target path. *)
Lemma rename_file_ok_path (name : string) (fs fs' : FS)
    (self self' : MP3Track.t) :
  MP3Track.rename_file name (fs, self) = (Ok tt, (fs', self')) ->
  MP3Track.get_file_path self'
  = Spec.target_path (MP3Track.get_file_path self) name.
Proof.
  unfold MP3Track.rename_file, Spec.target_path, MP3Track.get_file_path.
  destruct (os.path_exists fs _); [discriminate|].
  unfold os.replace.
  destruct (fs !! filename (MP3Track._id3 self)) as [file|]; [|discriminate].
  unfold MP3Track.on_id3, load. simpl. rewrite lookup_insert_eq.
  destruct (tag file); [|discriminate]. intros H. by injection H as _ <-.
Qed.

(** X4. A rename that succeeds leaves the file in its directory and gives it
    the sanitized name as base name, provided that name has no slash. *)
Theorem rename_file_same_directory (name : string) (fs fs' : FS)
    (self self' : MP3Track.t) :
  MP3Track.rename_file name (fs, self) = (Ok tt, (fs', self')) ->
  Py.contains_chr "/" (file_utils.ensure_valid_filename name) = false ->
  os_path.dirname (MP3Track.get_file_path self')
    = os_path.dirname (MP3Track.get_file_path self) /\
  os_path.basename (MP3Track.get_file_path self')
    = file_utils.ensure_valid_filename name.
Proof.
  intros Hok Hslash. rewrite (rename_file_ok_path _ _ _ _ _ Hok).
  unfold Spec.target_path. split.
  - by apply dirname_join_dirname.
  - by apply basename_join.
Qed.

Lemma rename_file_same_directory_witness :
  Py.contains_chr "/" (file_utils.ensure_valid_filename "b.mp3") = false /\
  os_path.dirname
    (MP3Track.get_file_path
       (snd (snd (MP3Track.rename_file "b.mp3"
                    (Sample.one_file, Sample.loaded_track)))))
    = "/music" /\
  os_path.basename
    (MP3Track.get_file_path
       (snd (snd (MP3Track.rename_file "b.mp3"
                    (Sample.one_file, Sample.loaded_track)))))
    = "b.mp3".
Proof.
  assert (H : Py.contains_chr "/" (file_utils.ensure_valid_filename "b.mp3")
              = false) by reflexivity.
  split; [exact H|].
  exact (rename_file_same_directory "b.mp3" Sample.one_file _
           Sample.loaded_track _ eq_refl H).
Defined.

(** ** The guard of [set_track] *)

Lemma at_dollar_iff (s : string) :
  Py.at_dollar s = true <-> s = "" \/ s = Sample.newline.
Proof.
  split.
  - destruct s as [|c [|]]; simpl; try discriminate; [by left|].
    intros Hc. right. unfold Py.chr_eqb in Hc. apply Ascii.eqb_eq in Hc.
    by subst.
  - by intros [-> | ->].
Qed.

Lemma skip_digits_split (s : string) :
  exists a, Forms.all_digits a = true /\ s = a +:+ Py.skip_digits s.
Proof.
  induction s as [|c s (a & Ha & IH)]; simpl.
  - by exists "".
  - destruct (Py.is_digit c) eqn:Hc.
    + exists (String c a). simpl. rewrite Hc, Ha. split; [done|].
      rewrite app_cons. by rewrite <- IH.
    + by exists "".
Qed.

Lemma skip_digits_app (a r : string) :
  Forms.all_digits a = true -> Py.skip_digits r = r ->
  Py.skip_digits (a +:+ r) = r.
Proof.
  induction a as [|c a IH]; simpl; intros Ha Hr.
  - by rewrite app_empty_l.
  - apply andb_prop in Ha as [Hc Ha]. rewrite Hc. by apply IH.
Qed.

Lemma skip_digits_all (a : string) :
  Forms.all_digits a = true -> Py.skip_digits a = "".
Proof.
  induction a as [|c a IH]; simpl; [done|].
  intros [Hc Ha]%andb_prop. rewrite Hc. by apply IH.
Qed.

Lemma skip_digits_fixed (s : string) :
  Py.skip_digits (Py.skip_digits s) = Py.skip_digits s.
Proof.
  induction s as [|c s IH]; simpl; [done|].
  destruct (Py.is_digit c) eqn:Hc; [done|]. simpl. by rewrite Hc.
Qed.

(** The guard accepts digits, a slash and digits, with or without a final
    newline, and nothing else. *)
Lemma match_track_iff (s : string) :
  Py.match_track s = true <-> Forms.track_form s.
Proof.
  unfold Py.match_track, Forms.track_form. split.
  - destruct (skip_digits_split s) as (a & Ha & Hs).
    destruct (Py.skip_digits s) as [|c rest] eqn:Hskip; [discriminate|].
    destruct (Ascii.eqb_spec c "/"%char) as [-> | Hne].
    2:{ intros H. exfalso. revert H.
        destruct c as [[] [] [] [] [] [] [] []]; try discriminate.
        by contradict Hne. }
    intros Hd. apply at_dollar_iff in Hd.
    destruct (skip_digits_split rest) as (b & Hb & Hrest).
    exists a, b. split; [done|]. split; [done|].
    destruct Hd as [Hd | Hd]; rewrite Hd in Hrest.
    + left. rewrite Hs. f_equal. rewrite Hrest at 1.
      by rewrite str_app_empty_r.
    + right. rewrite Hs. f_equal. by rewrite Hrest at 1.
  - intros (a & b & Ha & Hb & [-> | ->]).
    + rewrite skip_digits_app; [|done|done].
      change ("/" +:+ b) with (String "/"%char b). cbv iota beta.
      by rewrite (skip_digits_all b Hb).
    + rewrite skip_digits_app; [|done|done].
      change ("/" +:+ b +:+ Sample.newline)
        with (String "/"%char (b +:+ Sample.newline)). cbv iota beta.
      by rewrite (skip_digits_app b Sample.newline Hb).
Qed.

Lemma all_digits_no_slash (s : string) :
  Forms.all_digits s = true -> Py.match_track s = false.
Proof.
  intros Hs. unfold Py.match_track. by rewrite (skip_digits_all s Hs).
Qed.

Lemma set_track_refused (track : string) (self : MP3Track.t) :
  Py.match_track track = false ->
  MP3Track.set_track (Py.VStr track) self = (Raise ValueError, self).
Proof. intros H. unfold MP3Track.set_track. by rewrite H. Qed.

(** X5. [set_track] accepts a text exactly when it is digits, a slash and
    digits (either run may be empty), possibly followed by one final
    newline: the track frame then holds the text. Any other text raises
    [ValueError] and the tag is left as it was. *)
Theorem set_track_accepts_iff (track : string) (self : MP3Track.t) :
  (Forms.track_form track ->
   MP3Track.set_track (Py.VStr track) self
   = (Ok tt,
      MP3Track.mk (add (TextFrame TRCK (map Str (Py.split track NUL)))
                       (MP3Track._id3 self)))) /\
  (~ Forms.track_form track ->
   MP3Track.set_track (Py.VStr track) self = (Raise ValueError, self)).
Proof.
  split.
  - intros H%match_track_iff. unfold MP3Track.set_track. by rewrite H.
  - intros H. apply set_track_refused.
    destruct (Py.match_track track) eqn:Hm; [|done].
    by apply match_track_iff in Hm.
Qed.

(** X6. A track number alone, without a slash, is refused by [set_track]
    with [ValueError], the tag left as it was, although the method
    documents the form ["<track_number>"]. *)
Theorem set_track_refuses_plain_number (track : string) (self : MP3Track.t) :
  Forms.all_digits track = true ->
  MP3Track.set_track (Py.VStr track) self = (Raise ValueError, self).
Proof. intros H. apply set_track_refused. by apply all_digits_no_slash. Qed.

Lemma set_track_refuses_plain_number_witness :
  Forms.all_digits "7" = true /\
  MP3Track.set_track (Py.VStr "7") Sample.blank_track
  = (Raise ValueError, Sample.blank_track).
Proof.
  split; [reflexivity|].
  apply (set_track_refuses_plain_number "7" Sample.blank_track). reflexivity.
Defined.

(** ** One field at a time *)

Lemma filter_setitem_out (P : Frame -> bool) (f : Frame) (d : list Frame) :
  (forall g, HashKey g = HashKey f -> P g = false) ->
  List.filter P (setitem f d) = List.filter P d.
Proof.
  intros HP. induction d as [|g d IH]; simpl.
  - by rewrite (HP f eq_refl).
  - destruct (String.eqb (HashKey g) (HashKey f)) eqn:E; simpl.
    + apply String.eqb_eq in E. by rewrite (HP f eq_refl), (HP g E).
    + by rewrite IH.
Qed.

(** A frame set under one key is not seen under another. *)
Lemma getall_setitem_other (key : string) (f : Frame) (d : list Frame) :
  HashKey f <> key ->
  Py.startswith (HashKey f) (key +:+ ":") = false ->
  getall key (setitem f d) = getall key d.
Proof.
  intros Hne Hpre. unfold getall. rewrite (getitem_setitem_ne key f d Hne).
  destruct (getitem key d); [done|].
  apply filter_setitem_out. by intros g ->.
Qed.

Lemma getitem_filter_keep (P : Frame -> bool) (key : string)
    (d : list Frame) :
  (forall g, HashKey g = key -> P g = true) ->
  getitem key (List.filter P d) = getitem key d.
Proof.
  intros HP. unfold getitem. induction d as [|g d IH]; simpl; [done|].
  destruct (String.eqb (HashKey g) key) eqn:E.
  - apply String.eqb_eq in E. rewrite (HP g E). simpl.
    apply String.eqb_eq in E. by rewrite E.
  - destruct (P g); simpl; [by rewrite E|done].
Qed.

Lemma filter_filter_keep (P Q : Frame -> bool) (d : list Frame) :
  (forall g, Q g = true -> P g = true) ->
  List.filter Q (List.filter P d) = List.filter Q d.
Proof.
  intros HPQ. induction d as [|g d IH]; simpl; [done|].
  destruct (Q g) eqn:HQ.
  - rewrite (HPQ g HQ). simpl. by rewrite HQ, IH.
  - destruct (P g); simpl; [by rewrite HQ|done].
Qed.

(** No frame is stored under the bare key ["APIC"]. *)
Lemma getitem_APIC (d : list Frame) : getitem "APIC" d = None.
Proof.
  unfold getitem. induction d as [|g d IH]; [done|]. simpl.
  replace (String.eqb (HashKey g) "APIC") with false; [done|].
  destruct g as [[] ?|? ? ?|? ? ? ?]; reflexivity.
Qed.

(** What [delall] of a bare key deletes is not seen under a key none of
    whose frames starts with the bare key. *)
Lemma getall_delall_other (bare key : string) (d : list Frame) :
  getitem bare d = None ->
  (forall g, HashKey g = key \/ Py.startswith (HashKey g) (key +:+ ":") = true ->
             Py.startswith (HashKey g) (bare +:+ ":") = false) ->
  getall key (delall bare d) = getall key d.
Proof.
  intros Hbare Hother. unfold getall, delall. rewrite Hbare.
  rewrite getitem_filter_keep.
  2:{ intros g Hg. by rewrite (Hother g (or_introl Hg)). }
  destruct (getitem key d); [done|].
  apply filter_filter_keep. intros g Hg.
  by rewrite (Hother g (or_intror Hg)).
Qed.

Lemma getitem_filter_None (P : Frame -> bool) (key : string)
    (d : list Frame) :
  getitem key d = None -> getitem key (List.filter P d) = None.
Proof.
  unfold getitem. induction d as [|g d IH]; simpl; [done|].
  destruct (String.eqb (HashKey g) key) eqn:E; [discriminate|].
  intros H. destruct (P g); simpl; [rewrite E|]; by apply IH.
Qed.

Lemma filter_filter_negb (Q : Frame -> bool) (d : list Frame) :
  List.filter Q (List.filter (fun g => negb (Q g)) d) = [].
Proof.
  induction d as [|g d IH]; simpl; [done|].
  destruct (Q g) eqn:HQ; simpl; [done|]. by rewrite HQ.
Qed.

(** After [delall] of a bare key, [getall] of it finds nothing. *)
Lemma getall_delall_same (bare : string) (d : list Frame) :
  getitem bare d = None -> getall bare (delall bare d) = [].
Proof.
  intros Hbare. unfold getall, delall. rewrite Hbare.
  rewrite (getitem_filter_None _ _ _ Hbare).
  apply filter_filter_negb.
Qed.

(** The keys the getters read, but for the comments, are the identifiers of
    text frames. *)
Lemma text_key_no_prefix (id : TextFrameID) (g : Frame) :
  Py.startswith (HashKey g) (FrameID id +:+ ":") = false.
Proof. destruct id, g as [[] ?|? ? ?|? ? ? ?]; reflexivity. Qed.

Lemma text_key_not_bare (id : TextFrameID) (bare : string) (g : Frame) :
  bare = "COMM" \/ bare = "APIC" ->
  HashKey g = FrameID id ->
  Py.startswith (HashKey g) (bare +:+ ":") = false.
Proof.
  intros Hbare ->. destruct Hbare as [-> | ->]; destruct id; reflexivity.
Qed.

Lemma getall_delall_text (bare : string) (id : TextFrameID) (d : list Frame) :
  bare = "COMM" \/ bare = "APIC" ->
  getall (FrameID id) (delall bare d) = getall (FrameID id) d.
Proof.
  intros Hbare. apply getall_delall_other.
  - destruct Hbare as [-> | ->]; [apply getitem_COMM | apply getitem_APIC].
  - intros g [Hg | Hg].
    + by apply (text_key_not_bare id).
    + by rewrite text_key_no_prefix in Hg.
Qed.

Lemma getall_delall_COMM_APIC (d : list Frame) :
  getall "APIC" (delall "COMM" d) = getall "APIC" d.
Proof.
  apply getall_delall_other; [apply getitem_COMM|].
  intros g [Hg | Hg]; destruct g as [[] ?|? ? ?|? ? ? ?];
    try reflexivity; try discriminate Hg.
Qed.

Lemma getall_delall_APIC_COMM (d : list Frame) :
  getall "COMM" (delall "APIC" d) = getall "COMM" d.
Proof.
  apply getall_delall_other; [apply getitem_APIC|].
  intros g [Hg | Hg]; destruct g as [[] ?|? ? ?|? ? ? ?];
    try reflexivity; try discriminate Hg.
Qed.

(** The text a getter returns depends on the frames found under its key
    alone. *)
Lemma get_frames_text_ext (key : string) (self self' : MP3Track.t) :
  MP3Track._get_frames key self' = MP3Track._get_frames key self ->
  MP3Track._get_frames_text key self' = MP3Track._get_frames_text key self.
Proof. intros H. unfold MP3Track._get_frames_text. by rewrite H. Qed.

Lemma call_getter_ext (setter getter key : string) (self self' : MP3Track.t) :
  In (setter, getter, key) Fields.accessors ->
  MP3Track._get_frames key self' = MP3Track._get_frames key self ->
  MP3Track.call_getter getter self' = MP3Track.call_getter getter self.
Proof.
  intros Hin H. apply get_frames_text_ext in H.
  simpl in Hin.
  repeat (destruct Hin as [Hin | Hin]; [injection Hin as <- <- <-|]);
    [..|destruct Hin];
    unfold MP3Track.call_getter; cbn [String.eqb Ascii.eqb Bool.eqb];
    unfold MP3Track.get_title, MP3Track.get_artist, MP3Track.get_album_artist,
      MP3Track.get_album, MP3Track.get_genre, MP3Track.get_year,
      MP3Track.get_track, MP3Track.get_comments,
      MP3Track.get_part_of_compilation;
    by rewrite H.
Qed.

(** Adding a frame changes nothing under a key that is not the frame's. *)
Lemma id3_add_other (key : string) (frame : result Frame)
    (self : MP3Track.t) :
  (forall f, frame = Ok f ->
     HashKey f <> key /\ Py.startswith (HashKey f) (key +:+ ":") = false) ->
  MP3Track._get_frames key (snd (MP3Track._id3_add frame self))
  = MP3Track._get_frames key self.
Proof.
  intros Hf. destruct frame as [f|e]; [|done].
  destruct (Hf f eq_refl) as [Hne Hpre]. unfold MP3Track._get_frames. simpl.
  by apply getall_setitem_other.
Qed.

Lemma new_text_frame_key (id : TextFrameID) (value : Py.Value) (f : Frame) :
  new_text_frame id value = Ok f -> HashKey f = FrameID id.
Proof.
  unfold new_text_frame. destruct (MultiSpec_validate _ _); [|discriminate].
  by intros [= <-].
Qed.

Lemma new_TDRC_key (value : Py.Value) (f : Frame) :
  new_TDRC value = Ok f -> HashKey f = FrameID TDRC.
Proof.
  unfold new_TDRC. destruct (MultiSpec_validate _ _); [|discriminate].
  by intros [= <-].
Qed.

Lemma new_COMM_key (lang desc : string) (value : Py.Value) (f : Frame) :
  new_COMM lang desc value = Ok f ->
  HashKey f = "COMM:" +:+ desc +:+ ":" +:+ repr_lang lang.
Proof.
  unfold new_COMM. destruct (MultiSpec_validate _ _); [|discriminate].
  by intros [= <-].
Qed.

Lemma add_comment_clearing (comment : Py.Value) (key : string)
    (self : MP3Track.t) :
  MP3Track.add_comment comment key true self
  = MP3Track._id3_add (new_COMM "eng" key comment)
      (snd (MP3Track.clear_comments self)).
Proof. reflexivity. Qed.

Lemma clear_comments_other (id : TextFrameID) (self : MP3Track.t) :
  MP3Track._get_frames (FrameID id) (snd (MP3Track.clear_comments self))
  = MP3Track._get_frames (FrameID id) self.
Proof. apply (getall_delall_text "COMM"). by left. Qed.

Lemma clear_pictures_other (id : TextFrameID) (self : MP3Track.t) :
  MP3Track._get_frames (FrameID id) (snd (MP3Track.clear_pictures self))
  = MP3Track._get_frames (FrameID id) self.
Proof. apply (getall_delall_text "APIC"). by right. Qed.

Ltac other_key :=
  intros ? ?Hf;
  first [ apply new_text_frame_key in Hf
        | apply new_TDRC_key in Hf
        | apply new_COMM_key in Hf ];
  rewrite Hf; split; [by vm_compute | reflexivity].

Ltac text_id tac :=
  first [ tac TIT2 | tac TPE1 | tac TPE2 | tac TALB | tac TCON | tac TDRC
        | tac TRCK | tac TCMP ].

(** A setter changes nothing under the key of another field. *)
Lemma call_setter_other (setter getter key : string) (other : string)
    (value : Py.Value) (self : MP3Track.t) :
  In (setter, getter, key) Fields.accessors ->
  In other (map snd Fields.accessors) ->
  other <> key ->
  MP3Track._get_frames other (snd (MP3Track.call_setter setter value self))
  = MP3Track._get_frames other self.
Proof.
  intros Hin Hother Hne. simpl in Hin, Hother.
  repeat (destruct Hin as [Hin | Hin]; [injection Hin as <- <- <-|]);
    [..|destruct Hin];
    repeat (destruct Hother as [<- | Hother]; [try done|]);
    try (destruct Hother);
    unfold MP3Track.call_setter; cbn [String.eqb Ascii.eqb Bool.eqb];
    unfold MP3Track.set_title, MP3Track.set_artist, MP3Track.set_album_artist,
      MP3Track.set_album, MP3Track.set_genre, MP3Track.set_year,
      MP3Track.set_track, MP3Track.set_part_of_compilation;
    try (apply id3_add_other; other_key).
  all: try (destruct value as [|s|b]; try reflexivity;
            match goal with
            | |- context [Py.match_year ?s] => destruct (Py.match_year s)
            | |- context [Py.match_track ?s] => destruct (Py.match_track s)
            end; try reflexivity; apply id3_add_other; other_key).
  all: try (destruct (Py.truthy value); apply id3_add_other; other_key).
  all: rewrite add_comment_clearing, id3_add_other by other_key.
  all: text_id ltac:(fun id => apply (clear_comments_other id)).
Qed.

Lemma clear_comments_pictures (self : MP3Track.t) :
  MP3Track._get_frames MP3Track._KEY_PICTURE
    (snd (MP3Track.clear_comments self))
  = MP3Track._get_frames MP3Track._KEY_PICTURE self.
Proof. apply getall_delall_COMM_APIC. Qed.

(** No setter touches the pictures. *)
Lemma call_setter_pictures (setter getter key : string) (value : Py.Value)
    (self : MP3Track.t) :
  In (setter, getter, key) Fields.accessors ->
  MP3Track._get_frames MP3Track._KEY_PICTURE
    (snd (MP3Track.call_setter setter value self))
  = MP3Track._get_frames MP3Track._KEY_PICTURE self.
Proof.
  intros Hin. simpl in Hin.
  repeat (destruct Hin as [Hin | Hin]; [injection Hin as <- <- <-|]);
    [..|destruct Hin];
    unfold MP3Track.call_setter; cbn [String.eqb Ascii.eqb Bool.eqb];
    unfold MP3Track.set_title, MP3Track.set_artist, MP3Track.set_album_artist,
      MP3Track.set_album, MP3Track.set_genre, MP3Track.set_year,
      MP3Track.set_track, MP3Track.set_part_of_compilation;
    try (apply id3_add_other; other_key).
  all: try (destruct value as [|s|b]; try reflexivity;
            match goal with
            | |- context [Py.match_year ?s] => destruct (Py.match_year s)
            | |- context [Py.match_track ?s] => destruct (Py.match_track s)
            end; try reflexivity; apply id3_add_other; other_key).
  all: try (destruct (Py.truthy value); apply id3_add_other; other_key).
  rewrite add_comment_clearing, id3_add_other by other_key.
  apply clear_comments_pictures.
Qed.

Lemma accessors_getter_key (setter getter key setter' getter' key' : string) :
  In (setter, getter, key) Fields.accessors ->
  In (setter', getter', key') Fields.accessors ->
  key' = key -> getter' = getter.
Proof.
  intros Hin Hin'. simpl in Hin, Hin'.
  repeat (destruct Hin as [Hin | Hin]; [injection Hin as <- <- <-|]);
    [..|destruct Hin];
    repeat (destruct Hin' as [Hin' | Hin']; [injection Hin' as <- <- <-|]);
    try (destruct Hin'); done.
Qed.

(** X7. The fields of a track are independent: whatever a setter is called
    with, and whether it accepts the value or raises, the getter of every
    other field returns afterwards what it returned before, and the
    pictures of the tag are the same. [add_comment] is called with its
    defaults, as the form calls it. *)
Theorem setter_keeps_other_fields
    (setter getter key setter' getter' key' : string)
    (value : Py.Value) (self : MP3Track.t) :
  In (setter, getter, key) Fields.accessors ->
  In (setter', getter', key') Fields.accessors ->
  getter' <> getter ->
  MP3Track.call_getter getter'
    (snd (MP3Track.call_setter setter value self))
  = MP3Track.call_getter getter' self /\
  MP3Track._get_frames MP3Track._KEY_PICTURE
    (snd (MP3Track.call_setter setter value self))
  = MP3Track._get_frames MP3Track._KEY_PICTURE self.
Proof.
  intros Hin Hin' Hne. split.
  - apply (call_getter_ext setter' getter' key' _ _ Hin').
    apply (call_setter_other setter getter key); [done| |].
    + apply (in_map snd) in Hin'. exact Hin'.
    + intros ->. apply Hne.
      by apply (accessors_getter_key setter getter key setter' getter' key).
  - by apply (call_setter_pictures setter getter key).
Qed.

Lemma setter_keeps_other_fields_witness :
  MP3Track.call_getter "get_artist"
    (snd (MP3Track.call_setter "set_title" (Py.VStr "Intro")
            Sample.loaded_track))
  = MP3Track.call_getter "get_artist" Sample.loaded_track /\
  MP3Track._get_frames MP3Track._KEY_PICTURE
    (snd (MP3Track.call_setter "set_title" (Py.VStr "Intro")
            Sample.loaded_track))
  = MP3Track._get_frames MP3Track._KEY_PICTURE Sample.loaded_track.
Proof.
  apply (setter_keeps_other_fields "set_title" "get_title" "TIT2"
           "set_artist" "get_artist" "TPE1").
  - simpl. by left.
  - simpl. right. by left.
  - discriminate.
Defined.

(** ** Comments and pictures *)

Lemma get_frames_clear_comments (self : MP3Track.t) :
  MP3Track._get_frames MP3Track._KEY_COMMENT
    (snd (MP3Track.clear_comments self)) = [].
Proof. apply getall_delall_same, getitem_COMM. Qed.

Lemma get_frames_clear_pictures (self : MP3Track.t) :
  MP3Track._get_frames MP3Track._KEY_PICTURE
    (snd (MP3Track.clear_pictures self)) = [].
Proof. apply getall_delall_same, getitem_APIC. Qed.

(** X8. [add_comment] with its default, clearing the comments there are,
    leaves exactly one comment frame in the tag, the new one, whatever
    comments of whatever keys the tag had; a comment without NUL character
    that does not end in white space is what [get_comments] then returns. *)
Theorem add_comment_replaces_comments (comment key : string)
    (self : MP3Track.t) :
  let self' := snd (MP3Track.add_comment (Py.VStr comment) key true self) in
  MP3Track._get_frames MP3Track._KEY_COMMENT self'
  = [COMM "eng" key (map Str (Py.split comment NUL))] /\
  (Py.contains_chr NUL comment = false -> Py.rstrip comment = comment ->
   MP3Track.get_comments self' = Ok (Some comment)).
Proof.
  intros self'.
  assert (Hframes : MP3Track._get_frames MP3Track._KEY_COMMENT self'
                    = [COMM "eng" key (map Str (Py.split comment NUL))]).
  { subst self'. rewrite add_comment_clearing.
    pose proof (get_frames_clear_comments self) as Hclear.
    unfold MP3Track._get_frames in *. simpl in *.
    rewrite getall_COMM in *.
    rewrite filter_setitem_fresh.
    - by rewrite Hclear.
    - apply (getitem_None_without Spec.is_comment); [|exact Hclear].
      intros g Hg. unfold Spec.is_comment. by rewrite Hg. }
  split; [exact Hframes|].
  intros Hnul Hstrip. unfold MP3Track.get_comments, MP3Track._get_frames_text.
  rewrite Hframes, (split_one_piece _ _ Hnul). simpl.
  rewrite app_empty_l. unfold Py.rstrip in *.
  rewrite rstrip_by_snoc by done. by rewrite Hstrip.
Qed.

Example add_comment_over_two_comments :
  MP3Track.get_comments
    (snd (MP3Track.add_comment (Py.VStr "third") "comment_key" true
       (snd (MP3Track.add_comment (Py.VStr "second") "b" false
          (snd (MP3Track.add_comment (Py.VStr "first") "a" false
             Sample.blank_track))))))
  = Ok (Some "third").
Proof. reflexivity. Qed.

Lemma accessors_text_key (setter getter key : string) :
  In (setter, getter, key) Fields.accessors ->
  getter = "get_comments" /\ key = "COMM" \/ exists id, key = FrameID id.
Proof.
  intros Hin. simpl in Hin.
  repeat (destruct Hin as [Hin | Hin]; [injection Hin as <- <- <-|]);
    [..|destruct Hin]; try (by left); right.
  - by exists TIT2.
  - by exists TPE1.
  - by exists TPE2.
  - by exists TALB.
  - by exists TCON.
  - by exists TDRC.
  - by exists TRCK.
  - by exists TCMP.
Qed.

(** X9. [clear_comments] never raises; afterwards the tag has no comment
    frame and [get_comments] returns [None], while the getter of every
    other field returns what it returned before and the pictures are the
    same. *)
Theorem clear_comments_clears_only_comments (self : MP3Track.t) :
  let self' := snd (MP3Track.clear_comments self) in
  fst (MP3Track.clear_comments self) = Ok tt /\
  MP3Track._get_frames MP3Track._KEY_COMMENT self' = [] /\
  MP3Track.get_comments self' = Ok None /\
  (forall setter getter key,
     In (setter, getter, key) Fields.accessors ->
     getter <> "get_comments" ->
     MP3Track.call_getter getter self' = MP3Track.call_getter getter self) /\
  MP3Track._get_frames MP3Track._KEY_PICTURE self'
  = MP3Track._get_frames MP3Track._KEY_PICTURE self.
Proof.
  intros self'. split; [done|].
  pose proof (get_frames_clear_comments self) as Hclear.
  split; [exact Hclear|]. split.
  { unfold MP3Track.get_comments, MP3Track._get_frames_text.
    fold self' in Hclear. by rewrite Hclear. }
  split; [|apply clear_comments_pictures].
  intros setter getter key Hin Hne.
  apply (call_getter_ext setter getter key _ _ Hin).
  destruct (accessors_text_key _ _ _ Hin) as [[-> _] | [id ->]]; [done|].
  apply clear_comments_other.
Qed.

Lemma clear_pictures_comments (self : MP3Track.t) :
  MP3Track._get_frames MP3Track._KEY_COMMENT
    (snd (MP3Track.clear_pictures self))
  = MP3Track._get_frames MP3Track._KEY_COMMENT self.
Proof. apply getall_delall_APIC_COMM. Qed.

(** X10. [clear_pictures] never raises; afterwards the tag has no picture
    frame, and every getter of the track returns what it returned before. *)
Theorem clear_pictures_clears_only_pictures (self : MP3Track.t) :
  let self' := snd (MP3Track.clear_pictures self) in
  fst (MP3Track.clear_pictures self) = Ok tt /\
  MP3Track._get_frames MP3Track._KEY_PICTURE self' = [] /\
  (forall setter getter key,
     In (setter, getter, key) Fields.accessors ->
     MP3Track.call_getter getter self' = MP3Track.call_getter getter self).
Proof.
  intros self'. split; [done|].
  split; [apply get_frames_clear_pictures|].
  intros setter getter key Hin.
  apply (call_getter_ext setter getter key _ _ Hin).
  destruct (accessors_text_key _ _ _ Hin) as [[_ ->] | [id ->]].
  - apply clear_pictures_comments.
  - apply clear_pictures_other.
Qed.

(** ** Adding a picture *)

Section AddPicture.
Variable guess_type : string -> option string.
Variable read_file : string -> option (list Byte.byte).

Lemma add_picture_from_file_ok (path mime : string) (data : list Byte.byte)
    (clear_existing_pictures : bool) (self : MP3Track.t) :
  guess_type path = Some mime ->
  MP3Track.supported_mime (Some mime) = true ->
  read_file path = Some data ->
  MP3Track.add_picture_from_file guess_type read_file path
    clear_existing_pictures self
  = (Ok tt,
     MP3Track.mk
       (add (APIC mime 3 "Front Cover" data)
            (MP3Track._id3
               (if clear_existing_pictures
                then snd (MP3Track.clear_pictures self) else self)))).
Proof.
  intros Hguess Hmime Hread. unfold MP3Track.add_picture_from_file.
  rewrite Hguess, Hmime, Hread.
  by destruct clear_existing_pictures.
Qed.

Lemma cover_other_key (mime : string) (data : list Byte.byte)
    (key : string) :
  key = "COMM" \/ (exists id, key = FrameID id) ->
  forall f, Ok (APIC mime 3 "Front Cover" data) = (Ok f : result Frame) ->
  HashKey f <> key /\ Py.startswith (HashKey f) (key +:+ ":") = false.
Proof.
  intros Hkey f [= <-].
  destruct Hkey as [-> | [id ->]]; [|destruct id]; by split.
Qed.

(** X11. With the default, a picture of a supported type that can be read
    becomes the one picture of the tag, a front cover (type 3) of the guessed
    MIME type holding the bytes of the file; every getter of the track
    returns what it returned before. *)
Theorem add_picture_from_file_sets_cover (path mime : string)
    (data : list Byte.byte) (self : MP3Track.t) :
  guess_type path = Some mime ->
  MP3Track.supported_mime (Some mime) = true ->
  read_file path = Some data ->
  let outcome :=
    MP3Track.add_picture_from_file guess_type read_file path true self in
  fst outcome = Ok tt /\
  MP3Track._get_frames MP3Track._KEY_PICTURE (snd outcome)
  = [APIC mime 3 "Front Cover" data] /\
  (forall setter getter key,
     In (setter, getter, key) Fields.accessors ->
     MP3Track.call_getter getter (snd outcome)
     = MP3Track.call_getter getter self).
Proof.
  intros Hguess Hmime Hread outcome. subst outcome.
  rewrite (add_picture_from_file_ok path mime data true self Hguess Hmime Hread).
  split; [done|]. split.
  - pose proof (get_frames_clear_pictures self) as Hclear.
    unfold MP3Track._get_frames in *. simpl in *. unfold getall in *.
    rewrite getitem_APIC in *. rewrite filter_setitem_fresh.
    + by rewrite Hclear.
    + apply (getitem_None_without
               (fun f => Py.startswith (HashKey f) ("APIC" +:+ ":")));
        [|exact Hclear].
      by intros g ->.
  - intros setter getter key Hin.
    apply (call_getter_ext setter getter key _ _ Hin).
    assert (Hkey : key = "COMM" \/ (exists id, key = FrameID id)).
    { destruct (accessors_text_key _ _ _ Hin) as [[_ ->] | H]; auto. }
    pose proof (id3_add_other key (Ok (APIC mime 3 "Front Cover" data))
                  (snd (MP3Track.clear_pictures self))
                  (cover_other_key mime data key Hkey)) as Hadd.
    simpl in Hadd. simpl. rewrite Hadd.
    destruct Hkey as [-> | [id ->]].
    + apply clear_pictures_comments.
    + apply clear_pictures_other.
Qed.

(** X12. Without clearing, a second picture does not join the first: both
    are front covers, stored under one key, and the track is left as if
    the first picture had not been added. *)
Theorem add_picture_keeping_replaces_cover (path1 mime1 path2 mime2 : string)
    (data1 data2 : list Byte.byte) (self : MP3Track.t) :
  guess_type path1 = Some mime1 ->
  MP3Track.supported_mime (Some mime1) = true ->
  read_file path1 = Some data1 ->
  guess_type path2 = Some mime2 ->
  MP3Track.supported_mime (Some mime2) = true ->
  read_file path2 = Some data2 ->
  MP3Track.add_picture_from_file guess_type read_file path2 false
    (snd (MP3Track.add_picture_from_file guess_type read_file path1 false
            self))
  = MP3Track.add_picture_from_file guess_type read_file path2 false self.
Proof.
  intros Hg1 Hm1 Hr1 Hg2 Hm2 Hr2.
  rewrite (add_picture_from_file_ok path1 mime1 data1 false self Hg1 Hm1 Hr1).
  rewrite !(add_picture_from_file_ok path2 mime2 data2 false _ Hg2 Hm2 Hr2).
  simpl. unfold add. simpl. by rewrite setitem_setitem_same_key.
Qed.
End AddPicture.

Lemma add_picture_from_file_sets_cover_witness :
  MP3Track._get_frames MP3Track._KEY_PICTURE
    (snd (MP3Track.add_picture_from_file Sample.guess_type Inputs.read_file
            "/covers/front.png" true Sample.track_with_cover))
  = [APIC "image/png" 3 "Front Cover" Inputs.png_bytes].
Proof.
  apply (add_picture_from_file_sets_cover Sample.guess_type Inputs.read_file
           "/covers/front.png" "image/png" Inputs.png_bytes
           Sample.track_with_cover); reflexivity.
Defined.

Lemma add_picture_keeping_replaces_cover_witness :
  MP3Track.add_picture_from_file Sample.guess_type Inputs.read_file
    "/covers/back.jpg" false
    (snd (MP3Track.add_picture_from_file Sample.guess_type Inputs.read_file
            "/covers/front.png" false Sample.blank_track))
  = MP3Track.add_picture_from_file Sample.guess_type Inputs.read_file
      "/covers/back.jpg" false Sample.blank_track.
Proof.
  apply (add_picture_keeping_replaces_cover Sample.guess_type
           Inputs.read_file "/covers/front.png" "image/png"
           "/covers/back.jpg" "image/jpeg" Inputs.png_bytes
           Inputs.jpeg_bytes Sample.blank_track); reflexivity.
Defined.

(** ** Opening, saving and clearing a tag *)

Lemma setitem_fresh (f : Frame) (d : list Frame) :
  ~ In (HashKey f) (map HashKey d) -> setitem f d = d ++ [f].
Proof.
  induction d as [|g d IH]; simpl; [done|].
  intros Hnot. destruct (String.eqb (HashKey g) (HashKey f)) eqn:E.
  - apply String.eqb_eq in E. exfalso. apply Hnot. by left.
  - rewrite IH; [done|]. intros Hin. apply Hnot. by right.
Qed.

Lemma setitem_same (f : Frame) (d : list Frame) :
  Spec.is_dict d -> In f d -> setitem f d = d.
Proof.
  unfold Spec.is_dict. induction d as [|g d IH]; simpl; [done|].
  intros Hd Hin. apply NoDup_cons_iff in Hd as [Hg Hd].
  destruct Hin as [-> | Hin].
  - by rewrite String.eqb_refl.
  - destruct (String.eqb (HashKey g) (HashKey f)) eqn:E.
    + apply String.eqb_eq in E. exfalso. apply Hg. rewrite E.
      by apply in_map.
    + by rewrite IH.
Qed.

(** Loading a tag whose keys are new to the dictionary appends its frames. *)
Lemma load_fresh (on_disk d : list Frame) :
  Spec.is_dict (d ++ on_disk) ->
  fold_left (fun d f => setitem f d) on_disk d = d ++ on_disk.
Proof.
  revert d. induction on_disk as [|f on_disk IH]; intros d Hd; simpl.
  - by rewrite app_nil_r.
  - assert (Hf : ~ In (HashKey f) (map HashKey d)).
    { unfold Spec.is_dict in Hd. rewrite map_app in Hd. simpl in Hd.
      apply NoDup_remove_2 in Hd. intros Hin. apply Hd.
      apply in_or_app. by left. }
    rewrite (setitem_fresh f d Hf). rewrite IH.
    + by rewrite <- app_assoc.
    + by rewrite <- app_assoc.
Qed.

(** Loading frames the dictionary holds already changes nothing. *)
Lemma load_same (on_disk d : list Frame) :
  Spec.is_dict d -> (forall f, In f on_disk -> In f d) ->
  fold_left (fun d f => setitem f d) on_disk d = d.
Proof.
  intros Hd. induction on_disk as [|f on_disk IH]; intros Hin; simpl; [done|].
  rewrite (setitem_same f d Hd); [|apply Hin; by left].
  apply IH. intros g Hg. apply Hin. by right.
Qed.

Lemma init_tagged (path : string) (fs : FS) (file : File)
    (on_disk : list Frame) :
  fs !! path = Some file -> tag file = Some on_disk ->
  Spec.is_dict on_disk ->
  MP3Track.__init__ path fs = (Ok (MP3Track.mk (mkID3 on_disk path)), fs).
Proof.
  intros Hfile Htag Hd. unfold MP3Track.__init__, load. simpl.
  rewrite Hfile, Htag. by rewrite (load_fresh on_disk [] Hd).
Qed.

Lemma init_missing (path : string) (fs : FS) :
  fs !! path = None -> MP3Track.__init__ path fs = (Raise IOError, fs).
Proof.
  intros Hfile. unfold MP3Track.__init__, load. simpl. by rewrite Hfile.
Qed.

Lemma init_untagged (path : string) (fs : FS) (file : File) :
  fs !! path = Some file -> tag file = None ->
  MP3Track.__init__ path fs
  = (Ok (MP3Track.mk (mkID3 [TextFrame TIT2 []] path)),
     <[path := mkFile (Some [])]> fs).
Proof.
  intros Hfile Htag. unfold MP3Track.__init__, load. simpl.
  rewrite Hfile, Htag. simpl. by rewrite lookup_insert_eq.
Qed.

(** X13. Opening a track reads and does not write: on a file that carries a
    tag without genre frame, [MP3Track(path)] returns a track of that path
    holding the frames of the tag, and on a missing file it raises
    [IOError]; the files are left as they were in both cases. (The library
    rewrites the text of a genre frame when it loads one, which the
    embedding does not represent.) *)
Theorem open_reads_the_tag (path : string) (fs : FS) :
  (fs !! path = None -> MP3Track.__init__ path fs = (Raise IOError, fs)) /\
  (forall file on_disk,
     fs !! path = Some file -> tag file = Some on_disk ->
     Spec.is_dict on_disk ->
     getitem MP3Track._KEY_GENRE on_disk = None ->
     exists track,
       MP3Track.__init__ path fs = (Ok track, fs) /\
       MP3Track.get_file_path track = path /\
       frames (MP3Track._id3 track) = on_disk).
Proof.
  split; [apply init_missing|].
  intros file on_disk Hfile Htag Hd _.
  exists (MP3Track.mk (mkID3 on_disk path)).
  by rewrite (init_tagged path fs file on_disk Hfile Htag Hd).
Qed.

Lemma getters_of_blank_title (path : string) (setter getter key : string) :
  In (setter, getter, key) Fields.accessors ->
  MP3Track.call_getter getter (MP3Track.mk (mkID3 [TextFrame TIT2 []] path))
  = if String.eqb getter "get_title" then Ok (Py.VStr "")
    else if String.eqb getter "get_part_of_compilation"
         then Ok (Py.VBool false)
         else Ok Py.VNone.
Proof.
  intros Hin. simpl in Hin.
  repeat (destruct Hin as [Hin | Hin]; [injection Hin as <- <- <-|]);
    [..|destruct Hin]; reflexivity.
Qed.

Lemma getters_of_no_frame (path : string) (setter getter key : string) :
  In (setter, getter, key) Fields.accessors ->
  MP3Track.call_getter getter (MP3Track.mk (mkID3 [] path))
  = if String.eqb getter "get_part_of_compilation"
    then Ok (Py.VBool false) else Ok Py.VNone.
Proof.
  intros Hin. simpl in Hin.
  repeat (destruct Hin as [Hin | Hin]; [injection Hin as <- <- <-|]);
    [..|destruct Hin]; reflexivity.
Qed.

(** X14. A file without a tag is given one when it is opened, before any
    change is saved: the file then carries a tag without frames, and no
    other file is touched. The track returned reads the empty string as its
    title and nothing ([None], not part of a compilation) for every other
    field. *)
Theorem open_untagged_file (path : string) (fs : FS) (file : File) :
  fs !! path = Some file -> tag file = None ->
  exists track fs',
    MP3Track.__init__ path fs = (Ok track, fs') /\
    MP3Track.get_file_path track = path /\
    fs' !! path = Some (mkFile (Some [])) /\
    (forall other, other <> path -> fs' !! other = fs !! other) /\
    (forall setter getter key,
       In (setter, getter, key) Fields.accessors ->
       MP3Track.call_getter getter track
       = if String.eqb getter "get_title" then Ok (Py.VStr "")
         else if String.eqb getter "get_part_of_compilation"
              then Ok (Py.VBool false)
              else Ok Py.VNone).
Proof.
  intros Hfile Htag.
  exists (MP3Track.mk (mkID3 [TextFrame TIT2 []] path)),
         (<[path := mkFile (Some [])]> fs).
  split; [by apply (init_untagged path fs file)|].
  split; [done|]. split; [by rewrite lookup_insert_eq|]. split.
  - intros other Hne. by rewrite lookup_insert_ne.
  - apply getters_of_blank_title.
Qed.

Lemma open_untagged_file_witness :
  exists track fs',
    MP3Track.__init__ "/music/new.mp3" {[ "/music/new.mp3" := mkFile None ]}
    = (Ok track, fs') /\
    fs' !! "/music/new.mp3" = Some (mkFile (Some [])) /\
    MP3Track.call_getter "get_title" track = Ok (Py.VStr "").
Proof.
  destruct (open_untagged_file "/music/new.mp3"
              {[ "/music/new.mp3" := mkFile None ]} (mkFile None))
    as (track & fs' & Hopen & _ & Hfile & _ & Hget).
  - by rewrite lookup_singleton_eq.
  - reflexivity.
  - exists track, fs'. split; [exact Hopen|]. split; [exact Hfile|].
    apply (Hget "set_title" "get_title" "TIT2"). simpl. by left.
Defined.

Lemma save_tag_files (fs : FS) (self : MP3Track.t) :
  frames (MP3Track._id3 self) <> [] ->
  MP3Track.save_tag (fs, self)
  = (Ok tt,
     (<[MP3Track.get_file_path self
        := mkFile (Some (List.filter written (frames (MP3Track._id3 self))))]>
        fs,
      self)).
Proof. by destruct self as [[[|f d] p]]. Qed.

Lemma clear_tag_present (fs : FS) (self : MP3Track.t) (file : File) :
  fs !! MP3Track.get_file_path self = Some file ->
  MP3Track.clear_tag (fs, self)
  = (Ok tt,
     (<[MP3Track.get_file_path self := mkFile None]> fs,
      MP3Track.mk (mkID3 [TextFrame TIT2 []] (MP3Track.get_file_path self)))).
Proof.
  intros Hfile. destruct self as [[d p]].
  unfold MP3Track.get_file_path in *. simpl in *.
  unfold MP3Track.clear_tag, Py.bind, MP3Track.on_id3, ID3_delete. simpl.
  by rewrite Hfile.
Qed.

Lemma clear_tag_missing (fs : FS) (self : MP3Track.t) :
  fs !! MP3Track.get_file_path self = None ->
  MP3Track.clear_tag (fs, self) = (Raise IOError, (fs, self)).
Proof.
  intros Hfile. destruct self as [[d p]].
  unfold MP3Track.get_file_path in *. simpl in *.
  unfold MP3Track.clear_tag, Py.bind, MP3Track.on_id3, ID3_delete. simpl.
  by rewrite Hfile.
Qed.

(** X16. [clear_tag] takes the tag out of the file at once, without any
    [save_tag]: the file of the track is left without a tag and no other
    file is touched. The track keeps its path and a blank title frame alone:
    its title reads as the empty string, every other field as nothing, and
    it has no picture. When the file is missing the call raises [IOError]
    and changes nothing. *)
Theorem clear_tag_strips_the_file (fs : FS) (self : MP3Track.t) :
  let path := MP3Track.get_file_path self in
  (forall file, fs !! path = Some file ->
     exists fs' self',
       MP3Track.clear_tag (fs, self) = (Ok tt, (fs', self')) /\
       fs' !! path = Some (mkFile None) /\
       (forall other, other <> path -> fs' !! other = fs !! other) /\
       MP3Track.get_file_path self' = path /\
       MP3Track._get_frames MP3Track._KEY_PICTURE self' = [] /\
       (forall setter getter key,
          In (setter, getter, key) Fields.accessors ->
          MP3Track.call_getter getter self'
          = if String.eqb getter "get_title" then Ok (Py.VStr "")
            else if String.eqb getter "get_part_of_compilation"
                 then Ok (Py.VBool false)
                 else Ok Py.VNone)) /\
  (fs !! path = None ->
   MP3Track.clear_tag (fs, self) = (Raise IOError, (fs, self))).
Proof.
  intros path. subst path. split; [|apply clear_tag_missing].
  intros file Hfile.
  exists (<[MP3Track.get_file_path self := mkFile None]> fs),
         (MP3Track.mk (mkID3 [TextFrame TIT2 []] (MP3Track.get_file_path self))).
  split; [by apply (clear_tag_present fs self file)|].
  split; [by rewrite lookup_insert_eq|]. split.
  { intros other Hne. by rewrite lookup_insert_ne. }
  split; [done|]. split; [done|].
  apply getters_of_blank_title.
Qed.

(** X17. A tag cleared, saved and read again is empty: after [clear_tag]
    and [save_tag] on a track whose file is there, opening the file
    succeeds and gives a track on which every text getter returns [None],
    [get_part_of_compilation] returns [False], and there is no picture. *)
Theorem clear_save_reopen (fs : FS) (self : MP3Track.t) (file : File) :
  let path := MP3Track.get_file_path self in
  fs !! path = Some file ->
  let cleared := snd (MP3Track.clear_tag (fs, self)) in
  let fs' := fst (snd (MP3Track.save_tag cleared)) in
  exists track,
    MP3Track.__init__ path fs' = (Ok track, fs') /\
    MP3Track._get_frames MP3Track._KEY_PICTURE track = [] /\
    (forall setter getter key,
       In (setter, getter, key) Fields.accessors ->
       MP3Track.call_getter getter track
       = if String.eqb getter "get_part_of_compilation"
         then Ok (Py.VBool false) else Ok Py.VNone).
Proof.
  intros path Hfile cleared fs'. subst path cleared fs'.
  rewrite (clear_tag_present fs self file Hfile).
  cbn [snd]. rewrite save_tag_files by done. simpl.
  exists (MP3Track.mk (mkID3 [] (MP3Track.get_file_path self))).
  split; [|split; [done|apply getters_of_no_frame]].
  apply (init_tagged _ _ (mkFile (Some []))).
  - by rewrite lookup_insert_eq.
  - done.
  - apply List.NoDup_nil.
Qed.

Lemma clear_save_reopen_witness :
  exists track,
    MP3Track.__init__ "/music/a.mp3"
      (fst (snd (MP3Track.save_tag
                   (snd (MP3Track.clear_tag
                           (Sample.one_file, Sample.loaded_track))))))
    = (Ok track,
       fst (snd (MP3Track.save_tag
                   (snd (MP3Track.clear_tag
                           (Sample.one_file, Sample.loaded_track))))))
    /\ MP3Track.call_getter "get_title" track = Ok Py.VNone.
Proof.
  destruct (clear_save_reopen Sample.one_file Sample.loaded_track
              (mkFile (Some [TextFrame TIT2 [Str "Old"]])))
    as (track & Hopen & _ & Hget).
  - reflexivity.
  - exists track. split; [exact Hopen|].
    by rewrite (Hget "set_title" "get_title" "TIT2" (or_introl eq_refl)).
Defined.

(** ** Comments added without clearing *)

(** ** The comments of a store, read as one text *)

Lemma append_texts_joined (entries : list TextValue) (all_text : string) :
  MP3Track.append_texts entries all_text
  = all_text +:+ Spec.frame_text (COMM "" "" entries).
Proof.
  revert all_text. induction entries as [|entry entries IH]; intros all_text.
  - simpl. by rewrite str_app_empty_r.
  - simpl. rewrite IH. simpl. by rewrite !str_app_assoc.
Qed.

Lemma frame_text_COMM (lang desc : string) (entries : list TextValue) :
  Spec.frame_text (COMM lang desc entries) = Spec.frame_text (COMM "" "" entries).
Proof. reflexivity. Qed.

(** The loop of [_get_frames_text] over comment frames gives their joined
    text. *)
Lemma append_frames_joined (found : list Frame) (all_text : string) :
  (forall f, In f found -> Spec.is_comment f = true) ->
  MP3Track.append_frames found all_text
  = Ok (all_text +:+ Spec.joined_text found).
Proof.
  revert all_text. induction found as [|f found IH]; intros all_text Hall.
  - simpl. by rewrite str_app_empty_r.
  - assert (Hf : Spec.is_comment f = true) by (apply Hall; by left).
    destruct f as [id t|lang desc t|mime type desc data];
      [by destruct id| |discriminate Hf].
    simpl. rewrite IH by (intros g Hg; apply Hall; by right).
    rewrite append_texts_joined. simpl. by rewrite str_app_assoc.
Qed.

Lemma get_comments_joined (self : MP3Track.t) :
  MP3Track._get_frames MP3Track._KEY_COMMENT self <> [] ->
  MP3Track.get_comments self
  = Ok (Some (Py.rstrip
                (Spec.joined_text
                   (MP3Track._get_frames MP3Track._KEY_COMMENT self)))).
Proof.
  intros Hne. unfold MP3Track.get_comments, MP3Track._get_frames_text.
  destruct (MP3Track._get_frames MP3Track._KEY_COMMENT self) as [|f l] eqn:E;
    [done|].
  change ((length (f :: l) =? 0)%nat) with false. cbv iota.
  rewrite append_frames_joined.
  - by rewrite app_empty_l.
  - intros g Hg. rewrite <- E in Hg.
    unfold MP3Track._get_frames, MP3Track._KEY_COMMENT in Hg.
    rewrite getall_COMM in Hg. by apply filter_In in Hg as [_ Hg].
Qed.

Lemma split_nonempty (s : string) (sep : ascii) : Py.split s sep <> [].
Proof.
  destruct s as [|c s]; simpl; [done|].
  destruct (Py.chr_eqb c sep); [done|]. by destruct (Py.split s sep).
Qed.

(** The entries a text is split into, each followed by a space, read as the
    text with its NULs turned into spaces, and a space. *)
Lemma frame_text_split (lang desc text : string) :
  Spec.frame_text (COMM lang desc (map Str (Py.split text NUL)))
  = Spec.nul_as_space text +:+ " ".
Proof.
  rewrite frame_text_COMM.
  induction text as [|c text IH]; [reflexivity|].
  cbn [Py.split Spec.nul_as_space].
  destruct (Py.chr_eqb c NUL) eqn:Hc.
  - simpl in IH. simpl. rewrite IH. reflexivity.
  - pose proof (split_nonempty text NUL) as Hne.
    destruct (Py.split text NUL) as [|piece pieces]; [done|].
    simpl in *. rewrite !app_cons. by rewrite <- IH.
Qed.

(** A comment set into a list of comments: the comments of the store after
    an addition are those before with the new one set in. *)
Lemma filter_setitem_comment (f : Frame) (d : list Frame) :
  Spec.is_comment f = true ->
  List.filter Spec.is_comment (setitem f d)
  = setitem f (List.filter Spec.is_comment d).
Proof.
  intros Hf. induction d as [|g d IH]; simpl.
  - by rewrite Hf.
  - destruct (String.eqb (HashKey g) (HashKey f)) eqn:E.
    + assert (Hg : Spec.is_comment g = true).
      { apply String.eqb_eq in E. unfold Spec.is_comment in *.
        by rewrite E. }
      simpl. rewrite Hf, Hg. simpl. by rewrite E.
    + simpl. destruct (Spec.is_comment g); simpl; [|exact IH].
      by rewrite E, IH.
Qed.

Lemma get_frames_add_comment (c key : string) (self : MP3Track.t) :
  MP3Track._get_frames MP3Track._KEY_COMMENT
    (snd (MP3Track.add_comment (Py.VStr c) key false self))
  = setitem (COMM "eng" key (map Str (Py.split c NUL)))
      (MP3Track._get_frames MP3Track._KEY_COMMENT self).
Proof.
  rewrite add_comment_keep. unfold MP3Track._get_frames, MP3Track._KEY_COMMENT.
  simpl. rewrite !getall_COMM. by apply filter_setitem_comment.
Qed.

Lemma setitem_nonempty (f : Frame) (d : list Frame) : setitem f d <> [].
Proof.
  destruct d as [|g d]; simpl; [done|].
  by destruct (String.eqb (HashKey g) (HashKey f)).
Qed.

Lemma joined_text_app (d1 d2 : list Frame) :
  Spec.joined_text (d1 ++ d2) = Spec.joined_text d1 +:+ Spec.joined_text d2.
Proof.
  induction d1 as [|f d1 IH]; simpl; [by rewrite app_empty_l|].
  by rewrite IH, str_app_assoc.
Qed.

Lemma getitem_filter_None_inv (key : string) (d : list Frame) :
  Py.startswith key "COMM:" = true ->
  getitem key d = None ->
  getitem key (List.filter Spec.is_comment d) = None.
Proof.
  intros _ H. unfold getitem in *. induction d as [|g d IH]; simpl in *;
    [done|].
  destruct (String.eqb (HashKey g) key) eqn:E; [discriminate|].
  destruct (Spec.is_comment g); simpl; [rewrite E|]; by apply IH.
Qed.

Lemma getitem_None_not_In (key : string) (d : list Frame) :
  getitem key d = None -> ~ In key (map HashKey d).
Proof.
  unfold getitem. induction d as [|g d IH]; simpl; [by intros _ []|].
  destruct (String.eqb (HashKey g) key) eqn:E; [discriminate|].
  intros H [Hg | Hin]; [|by apply IH].
  apply String.eqb_neq in E. done.
Qed.

(** C9 (amended). Two comments added with [clear_existing_comments] false,
    on any store and with any texts and keys: the comment frames of the
    store afterwards are those it had with the two set in, one after the
    other, a comment taking the place of the comment of its key if there is
    one and going last otherwise; [get_comments] returns their joined text,
    each entry followed by a space, with the trailing white space removed.
    Under {e distinct} keys both comments are among the comment frames,
    beside the comments of other keys the store had; when the store had no
    comment of either key, [get_comments] returns the text it had, then the
    first text, then the second, each NUL of a text read as a space. Under
    {e equal} keys the second comment replaces the first: the store is the
    one the second addition alone gives. *)
Theorem add_comment_without_clearing :
  (forall c1 c2 k1 k2 self,
      let f1 := COMM "eng" k1 (map Str (Py.split c1 NUL)) in
      let f2 := COMM "eng" k2 (map Str (Py.split c2 NUL)) in
      let self'' :=
        snd (MP3Track.add_comment (Py.VStr c2) k2 false
               (snd (MP3Track.add_comment (Py.VStr c1) k1 false self))) in
      MP3Track._get_frames MP3Track._KEY_COMMENT self''
      = setitem f2 (setitem f1
                      (MP3Track._get_frames MP3Track._KEY_COMMENT self)) /\
      MP3Track.get_comments self''
      = Ok (Some (Py.rstrip
                    (Spec.joined_text
                       (MP3Track._get_frames MP3Track._KEY_COMMENT self''))))) /\
  (forall c1 c2 k1 k2 self,
      k1 <> k2 ->
      let f1 := COMM "eng" k1 (map Str (Py.split c1 NUL)) in
      let f2 := COMM "eng" k2 (map Str (Py.split c2 NUL)) in
      let self'' :=
        snd (MP3Track.add_comment (Py.VStr c2) k2 false
               (snd (MP3Track.add_comment (Py.VStr c1) k1 false self))) in
      In f1 (MP3Track._get_frames MP3Track._KEY_COMMENT self'') /\
      In f2 (MP3Track._get_frames MP3Track._KEY_COMMENT self'') /\
      (forall g,
          In g (MP3Track._get_frames MP3Track._KEY_COMMENT self) ->
          HashKey g <> HashKey f1 -> HashKey g <> HashKey f2 ->
          In g (MP3Track._get_frames MP3Track._KEY_COMMENT self''))) /\
  (forall c1 c2 k1 k2 self,
      k1 <> k2 ->
      let f1 := COMM "eng" k1 (map Str (Py.split c1 NUL)) in
      let f2 := COMM "eng" k2 (map Str (Py.split c2 NUL)) in
      getitem (HashKey f1) (frames (MP3Track._id3 self)) = None ->
      getitem (HashKey f2) (frames (MP3Track._id3 self)) = None ->
      MP3Track.get_comments
        (snd (MP3Track.add_comment (Py.VStr c2) k2 false
                (snd (MP3Track.add_comment (Py.VStr c1) k1 false self))))
      = Ok (Some (Py.rstrip
                    (Spec.joined_text
                       (MP3Track._get_frames MP3Track._KEY_COMMENT self)
                     +:+ Spec.nul_as_space c1 +:+ " "
                     +:+ Spec.nul_as_space c2 +:+ " ")))) /\
  (forall c1 c2 k self,
      snd (MP3Track.add_comment (Py.VStr c2) k false
             (snd (MP3Track.add_comment (Py.VStr c1) k false self))) =
      snd (MP3Track.add_comment (Py.VStr c2) k false self)).
Proof.
  assert (Hframes : forall c1 c2 k1 k2 self,
    MP3Track._get_frames MP3Track._KEY_COMMENT
      (snd (MP3Track.add_comment (Py.VStr c2) k2 false
              (snd (MP3Track.add_comment (Py.VStr c1) k1 false self))))
    = setitem (COMM "eng" k2 (map Str (Py.split c2 NUL)))
        (setitem (COMM "eng" k1 (map Str (Py.split c1 NUL)))
           (MP3Track._get_frames MP3Track._KEY_COMMENT self))).
  { intros. by rewrite !get_frames_add_comment. }
  assert (Htext : forall c1 c2 k1 k2 self,
    MP3Track.get_comments
      (snd (MP3Track.add_comment (Py.VStr c2) k2 false
              (snd (MP3Track.add_comment (Py.VStr c1) k1 false self))))
    = Ok (Some (Py.rstrip
                  (Spec.joined_text
                     (setitem (COMM "eng" k2 (map Str (Py.split c2 NUL)))
                        (setitem (COMM "eng" k1 (map Str (Py.split c1 NUL)))
                           (MP3Track._get_frames MP3Track._KEY_COMMENT
                              self))))))).
  { intros. rewrite get_comments_joined; rewrite Hframes; [done|].
    apply setitem_nonempty. }
  split; [|split; [|split]].
  - intros c1 c2 k1 k2 self f1 f2 self''. subst f1 f2 self''.
    split; [apply Hframes|]. rewrite Htext. by rewrite Hframes.
  - intros c1 c2 k1 k2 self Hne f1 f2 self''. subst self''.
    rewrite Hframes. fold f1 f2.
    assert (Hkeys : HashKey f1 <> HashKey f2).
    { intros H. by apply HashKey_COMM_inj in H. }
    split; [|split].
    + apply In_setitem_old; [apply In_setitem_new|done].
    + apply In_setitem_new.
    + intros g Hg H1 H2. apply In_setitem_old; [|done].
      by apply In_setitem_old.
  - intros c1 c2 k1 k2 self Hne f1 f2 Hnew1 Hnew2.
    rewrite Htext. fold f1 f2.
    unfold MP3Track._get_frames, MP3Track._KEY_COMMENT.
    rewrite getall_COMM.
    assert (H1 : ~ In (HashKey f1)
                   (map HashKey
                      (List.filter Spec.is_comment
                         (frames (MP3Track._id3 self))))).
    { apply getitem_None_not_In. by apply getitem_filter_None. }
    assert (H2 : ~ In (HashKey f2)
                   (map HashKey
                      (List.filter Spec.is_comment
                         (frames (MP3Track._id3 self)) ++ [f1]))).
    { rewrite map_app. intros [H | [H | []]]%in_app_or.
      - revert H. apply getitem_None_not_In. by apply getitem_filter_None.
      - apply HashKey_COMM_inj in H. by apply Hne. }
    rewrite (setitem_fresh f1 _ H1), (setitem_fresh f2 _ H2).
    rewrite !joined_text_app. cbn [Spec.joined_text fold_right]. subst f1 f2.
    rewrite !frame_text_split.
    rewrite !str_app_empty_r, !str_app_assoc. reflexivity.
  - intros c1 c2 k self. rewrite add_two_comments, add_comment_keep.
    simpl. unfold add. simpl. by rewrite setitem_setitem_same_key.
Qed.

Lemma add_comment_without_clearing_witness :
  "first" <> "second" /\
  MP3Track.get_comments
    (snd (MP3Track.add_comment (Py.VStr "two") "second" false
            (snd (MP3Track.add_comment (Py.VStr "one") "first" false
                    Sample.blank_track)))) = Ok (Some "one two").
Proof.
  split; [discriminate|].
  apply (proj1 (proj2 (proj2 add_comment_without_clearing))
           "one" "two" "first" "second" Sample.blank_track).
  - discriminate.
  - reflexivity.
  - reflexivity.
Defined.

(** With a comment of another key in the store, and with a NUL in a
    text. *)
Example add_comment_beside_other_comments :
  MP3Track.get_comments
    (snd (MP3Track.add_comment (Py.VStr "two") "second" false
       (snd (MP3Track.add_comment (Py.VStr "one") "first" false
          (snd (MP3Track.add_comment (Py.VStr "zero") "other" false
             Sample.blank_track))))))
  = Ok (Some "zero one two") /\
  MP3Track.get_comments
    (snd (MP3Track.add_comment (Py.VStr ("c" +:+ String NUL "d")) "second" false
       (snd (MP3Track.add_comment (Py.VStr "a") "first" false
          Sample.blank_track))))
  = Ok (Some "a c d").
Proof. split; reflexivity. Qed.

(** ** The album art *)

Lemma raise_for_status_ok (results : album_art_utils.Response) :
  album_art_utils.status_code results = album_art_utils.codes_ok ->
  album_art_utils.raise_for_status results = Ok tt.
Proof.
  intros H. unfold album_art_utils.raise_for_status. by rewrite H.
Qed.

Lemma status_check_passes (results : album_art_utils.Response) :
  (if album_art_utils.status_code results =? album_art_utils.codes_ok
   then album_art_utils.raise_for_status results else Ok tt) = Ok tt.
Proof.
  destruct (Z.eqb_spec (album_art_utils.status_code results)
              album_art_utils.codes_ok) as [H|]; [|done].
  by apply raise_for_status_ok.
Qed.

Lemma collect_not_HTTPError (items : list album_art_utils.JSON)
    (urls : list string) :
  album_art_utils.collect items urls <> Raise HTTPError.
Proof.
  revert urls. induction items as [|item items IH]; intros urls; [done|].
  simpl.
  destruct item as [| | | s | l | entries]; simpl; try done.
  - destruct (album_art_utils.is_substring "artworkUrl100" s);
      [done | apply IH].
  - destruct (existsb (album_art_utils.is_JStr "artworkUrl100") l);
      [done | apply IH].
  - destruct (album_art_utils.dict_get entries "artworkUrl100") as [v|].
    + rewrite bool_decide_true by (by eexists).
      destruct v; simpl; solve [done | apply IH].
    + rewrite bool_decide_false by (by intros [? ?]). apply IH.
Qed.

(** X18. The status code of the response plays no role in
    [fetch_album_art]: the check calls [raise_for_status] only on the code
    [ok], which never raises. The outcome is that for the same body with
    any other code, and it is never [HTTPError], the exception the function
    documents for a bad response code. *)
Theorem read_response_ignores_status (code code' : Z)
    (body : option album_art_utils.JSON) :
  album_art_utils.read_response (album_art_utils.mkResponse code body)
  = album_art_utils.read_response (album_art_utils.mkResponse code' body) /\
  album_art_utils.read_response (album_art_utils.mkResponse code body)
  <> Raise HTTPError.
Proof.
  unfold album_art_utils.read_response. rewrite !status_check_passes.
  split; [done|]. simpl.
  destruct body as [document|]; [|done].
  destruct document as [| | | | |entries]; simpl; try done.
  destruct (album_art_utils.dict_get entries "results") as [v|]; [|done].
  destruct v as [| | | s | l | es]; simpl; try done;
    apply collect_not_HTTPError.
Qed.

Lemma collect_results (items : list album_art_utils.JSON)
    (urls : list string) :
  forallb Results.is_result items = true ->
  album_art_utils.collect items urls
  = Ok (urls ++ map (fun small_art_url =>
                       Py.replace small_art_url "100x100" "1200x1200")
                    (omap Results.artwork items)).
Proof.
  revert urls. induction items as [|item items IH]; intros urls Hall.
  - simpl. by rewrite app_nil_r.
  - simpl in Hall. apply andb_prop in Hall as [Hitem Hall].
    destruct item as [| | | | |entries]; try discriminate Hitem.
    simpl in *.
    destruct (album_art_utils.dict_get entries "artworkUrl100") as [v|] eqn:E.
    + destruct v; try discriminate Hitem.
      rewrite bool_decide_true by (by eexists). simpl.
      rewrite (IH _ Hall). by rewrite <- app_assoc.
    + rewrite bool_decide_false by (by intros [? ?]). by apply IH.
Qed.

(** X19. On a response whose body has a list of results, each a dictionary
    whose artwork URL is a string, [fetch_album_art] returns, in the order
    of the results, the artwork URL of each result that has one with
    ["100x100"] replaced by ["1200x1200"]; a result without artwork is
    passed over. *)
Theorem fetch_album_art_urls
    (requests_get : string -> result album_art_utils.Response)
    (query : string) (code : Z)
    (document : list (string * album_art_utils.JSON))
    (items : list album_art_utils.JSON) :
  requests_get (album_art_utils.search_url query)
  = Ok (album_art_utils.mkResponse code
          (Some (album_art_utils.JDict document))) ->
  album_art_utils.dict_get document "results"
  = Some (album_art_utils.JList items) ->
  forallb Results.is_result items = true ->
  album_art_utils.fetch_album_art requests_get query
  = Ok (map (fun small_art_url =>
               Py.replace small_art_url "100x100" "1200x1200")
            (omap Results.artwork items)).
Proof.
  intros Hget Hresults Hitems. unfold album_art_utils.fetch_album_art.
  rewrite Hget. unfold album_art_utils.read_response.
  rewrite status_check_passes. simpl. rewrite Hresults. simpl.
  by rewrite (collect_results items [] Hitems).
Qed.

Lemma fetch_album_art_urls_witness :
  album_art_utils.fetch_album_art
    (fun _ => Ok (Results.response_with 200 Results.three_results))
    "dark arc"
  = Ok ["http://a.example/1/1200x1200bb.jpg";
        "http://a.example/3/1200x1200bb.jpg"].
Proof.
  exact (fetch_album_art_urls
           (fun _ => Ok (Results.response_with 200 Results.three_results))
           "dark arc" 200 _ Results.three_results eq_refl eq_refl eq_refl).
Defined.

Lemma open_tabs_seq (count start : nat) (album_art_urls : list string) :
  open_tabs (seq start count) album_art_urls
  = firstn count (skipn start album_art_urls).
Proof.
  revert start. induction count as [|count IH]; intros start; [done|].
  simpl. destruct (nth_error album_art_urls start) as [url|] eqn:E.
  - rewrite IH.
    destruct (skipn start album_art_urls) as [|u rest] eqn:Es.
    + exfalso. apply nth_error_split in E as (l1 & l2 & -> & <-).
      rewrite skipn_app, Nat.sub_diag, skipn_all in Es. discriminate Es.
    + assert (Hu : nth_error (skipn start album_art_urls) 0 = Some url).
      { rewrite nth_error_skipn. by rewrite Nat.add_0_r. }
      rewrite Es in Hu. injection Hu as ->. simpl. f_equal.
      replace (S start) with (1 + start)%nat by done.
      rewrite <- skipn_skipn. by rewrite Es.
  - apply nth_error_None in E. by rewrite skipn_all2.
Qed.

(** X20. [lookup_album_art] opens the first five URLs [fetch_album_art]
    returns, in order, or all of them when they are fewer; an exception of
    [fetch_album_art] is not caught and no tab is opened. *)
Theorem lookup_album_art_opens_first_five
    (requests_get : string -> result album_art_utils.Response)
    (query : string) :
  lookup_album_art requests_get query
  = match album_art_utils.fetch_album_art requests_get query with
    | Ok album_art_urls => Ok (firstn 5 album_art_urls)
    | Raise e => Raise e
    end.
Proof.
  unfold lookup_album_art.
  destruct (album_art_utils.fetch_album_art requests_get query); [|done].
  by rewrite open_tabs_seq.
Qed.

(** ** Renaming again *)

Lemma rename_file_ok_file (name : string) (fs fs' : FS)
    (self self' : MP3Track.t) :
  MP3Track.rename_file name (fs, self) = (Ok tt, (fs', self')) ->
  is_Some (fs' !! MP3Track.get_file_path self').
Proof.
  unfold MP3Track.rename_file, MP3Track.get_file_path.
  destruct (os.path_exists fs _); [discriminate|].
  unfold os.replace.
  destruct (fs !! filename (MP3Track._id3 self)) as [file|]; [|discriminate].
  unfold MP3Track.on_id3, load. simpl. rewrite lookup_insert_eq.
  destruct (tag file); [|discriminate]. intros H.
  injection H as <- <-. simpl. by rewrite lookup_insert_eq.
Qed.

(** X21. Renaming is not repeatable: once [rename_file] has succeeded, the
    same call on the renamed track raises [FileExistsError] and changes
    nothing, the target being the track's own file now. (The caller skips
    the call when the base name of the track is the new name already, which
    it is not when sanitizing changed the name.) *)
Theorem rename_file_again_collides (name : string) (fs fs' : FS)
    (self self' : MP3Track.t) :
  MP3Track.rename_file name (fs, self) = (Ok tt, (fs', self')) ->
  Py.contains_chr "/" (file_utils.ensure_valid_filename name) = false ->
  MP3Track.rename_file name (fs', self')
  = (Raise FileExistsError, (fs', self')).
Proof.
  intros Hok Hslash. apply rename_file_target_exists.
  pose proof (rename_file_ok_path _ _ _ _ _ Hok) as Hpath.
  pose proof (rename_file_ok_file _ _ _ _ _ Hok) as Hfile.
  rewrite Hpath in *. unfold Spec.target_path in *.
  rewrite (dirname_join_dirname _ _ Hslash).
  unfold os.path_exists. by apply bool_decide_eq_true.
Qed.

Lemma rename_file_again_collides_witness :
  let renamed :=
    snd (MP3Track.rename_file "Re: b.mp3"
           (Sample.one_file, Sample.loaded_track)) in
  MP3Track.get_file_path (snd renamed) = "/music/Re b.mp3" /\
  MP3Track.rename_file "Re: b.mp3" renamed = (Raise FileExistsError, renamed).
Proof.
  split; [reflexivity|].
  exact (rename_file_again_collides "Re: b.mp3" Sample.one_file _
           Sample.loaded_track _ eq_refl eq_refl).
Defined.

(** X22. A file without a tag that is opened has enough metadata for
    [rename_files] at once: its blank title counts as a title, and the
    name built for it is [".mp3"]. The same file opened with an empty tag
    on it, as it is after the first opening, has no metadata to build a name
    from. *)
Theorem untagged_file_is_named_dot_mp3 (path : string) (fs : FS)
    (file : File) :
  fs !! path = Some file ->
  (tag file = None ->
   exists track fs' artist album title,
     MP3Track.__init__ path fs = (Ok track, fs') /\
     MP3Track.get_artist track = Ok artist /\
     MP3Track.get_album track = Ok album /\
     MP3Track.get_title track = Ok title /\
     new_base_filename_of artist album title = Some ".mp3") /\
  (tag file = Some [] ->
   exists track fs' artist album title,
     MP3Track.__init__ path fs = (Ok track, fs') /\
     MP3Track.get_artist track = Ok artist /\
     MP3Track.get_album track = Ok album /\
     MP3Track.get_title track = Ok title /\
     new_base_filename_of artist album title = None).
Proof.
  intros Hfile. split; intros Htag.
  - exists (MP3Track.mk (mkID3 [TextFrame TIT2 []] path)),
           (<[path := mkFile (Some [])]> fs), None, None, (Some "").
    by rewrite (init_untagged path fs file Hfile Htag).
  - exists (MP3Track.mk (mkID3 [] path)), fs, None, None, None.
    rewrite (init_tagged path fs file [] Hfile Htag); [done|].
    apply List.NoDup_nil.
Qed.

Lemma untagged_file_is_named_dot_mp3_witness :
  exists track fs' artist album title,
    MP3Track.__init__ "/music/new.mp3" {[ "/music/new.mp3" := mkFile None ]}
    = (Ok track, fs') /\
    MP3Track.get_artist track = Ok artist /\
    MP3Track.get_album track = Ok album /\
    MP3Track.get_title track = Ok title /\
    new_base_filename_of artist album title = Some ".mp3".
Proof.
  apply (untagged_file_is_named_dot_mp3 "/music/new.mp3" _ (mkFile None)).
  - by rewrite lookup_singleton_eq.
  - reflexivity.
Defined.

(** ** The batch and the call it makes *)










(** A track that has the sanitized form of its name, but not the name as
    the tags give it, is not skipped by the batch: the call is made and
    fails on the track's own file. *)
Example renamed_track_collides_with_itself :
  let track :=
    MP3Track.mk (mkID3 [TextFrame TIT2 [Str "Re: b"]] "/music/Re b.mp3") in
  let st :=
    mkState {[ "/music/Re b.mp3" := mkFile (Some [TextFrame TIT2 [Str "Re: b"]]) ]}
      (fun _ => track)
      (mk [] {[ "/music/Re b.mp3" := 0%nat ]} []) [] in
  exists st',
    rename_files (Some ["/music/Re b.mp3"]) st
    = (Ok (Some (mkReport [] ["/music/Re b.mp3"])), st') /\
    fs st' = fs st.
Proof. eexists. split; [vm_compute; reflexivity|reflexivity]. Qed.

(** ** A change of the selection *)

Lemma clear_idem (field : Field.t) :
  Field.clear (Field.clear field) = Field.clear field.
Proof. unfold Field.clear. by destruct field as [n [] g s c v w]. Qed.

Lemma clear_unselected (field : Field.t) :
  Field.is_selected (Field.clear field) = false.
Proof. unfold Field.clear. by destruct field as [n [] g s c v w]. Qed.

Section UpdateFields.
Variable getattr : string -> MP3Track.t -> result Py.Value.

Lemma scan_checkbox (tracks : list MP3Track.t) (field : Field.t) :
  Field.checkbox_value (snd (Field.scan getattr tracks field))
  = Field.checkbox_value field.
Proof.
  induction tracks as [|track tracks IH]; [done|].
  simpl. unfold Py.bind, Py.get, Py.lift.
  destruct (getattr (Field.getter field) track) as [value|e]; [|done].
  destruct (decide (Field.entry_widget_value field = value)); [apply IH|].
  by destruct (Field.toggle field).
Qed.

(** Whatever the tracks and however the update ends, the field is left
    unselected. *)
Lemma update_value_from_tracks_unselected (random_track : MP3Track.t)
    (tracks : list MP3Track.t) (field : Field.t) :
  Field.is_selected
    (snd (Field.update_value_from_tracks getattr random_track tracks field))
  = false.
Proof.
  unfold Field.update_value_from_tracks, Py.bind, Py.modify, Py.get, Py.lift,
    Py.ret.
  destruct (length tracks =? 0)%nat; [apply clear_unselected|].
  destruct (getattr (Field.getter (Field.clear field)) random_track)
    as [value|e]; [|apply clear_unselected].
  unfold Field.is_selected. rewrite scan_checkbox.
  apply clear_unselected.
Qed.

Lemma update_value_from_no_track (random_track : MP3Track.t)
    (field : Field.t) :
  Field.update_value_from_tracks getattr random_track [] field
  = (Ok tt, Field.clear field).
Proof. reflexivity. Qed.
End UpdateFields.

Lemma update_fields_no_track (random_track : MP3Track.t)
    (fields : list Field.t) :
  update_fields random_track [] fields = (Ok tt, map Field.clear fields).
Proof.
  induction fields as [|field fields IH]; [done|].
  cbn [update_fields]. rewrite update_value_from_no_track. by rewrite IH.
Qed.

Lemma update_fields_unselected (random_track : MP3Track.t)
    (tracks : list MP3Track.t) (fields fields' : list Field.t) :
  update_fields random_track tracks fields = (Ok tt, fields') ->
  Forall (fun field => Field.is_selected field = false) fields'.
Proof.
  revert fields'. induction fields as [|field fields IH]; intros fields'.
  - intros [= <-]. constructor.
  - simpl.
    pose proof (update_value_from_tracks_unselected MP3Track.call_getter
                  random_track tracks field) as Hfield.
    destruct (Field.update_value_from_tracks _ _ _ field) as [[[]|e] field1];
      [|discriminate].
    destruct (update_fields random_track tracks fields) as [r rest] eqn:E.
    intros [= -> <-]. constructor; [exact Hfield|]. by apply IH.
Qed.

(** X23. With nothing selected in the file list, a change of the selection
    ends normally and leaves the state [update_file_list] leaves: every
    field cleared, no track selected, and the index, the track objects and
    the files as they were. *)
Theorem selection_change_without_selection (pop : list nat -> nat)
    (st : State) :
  on_file_list_selection_change pop None st = update_file_list st.
Proof.
  unfold on_file_list_selection_change, update_file_list, Py.bind, Py.modify.
  simpl. rewrite update_fields_no_track.
  unfold with_self. simpl. do 3 f_equal.
  rewrite map_map. apply map_ext, clear_idem.
Qed.

Lemma files_tagged_refl (paths : list string) (files : FS) :
  Selection.files_tagged paths files files.
Proof. intros path. by left. Qed.

Lemma files_tagged_trans (paths1 paths2 : list string)
    (files1 files2 files3 : FS) :
  Selection.files_tagged paths1 files1 files2 ->
  Selection.files_tagged paths2 files2 files3 ->
  Selection.files_tagged (paths1 ++ paths2) files1 files3.
Proof.
  intros H12 H23 path.
  destruct (H23 path) as [E23 | (Hin & file2 & Hf2 & Ht2 & E23)].
  - rewrite E23. destruct (H12 path) as [E12 | (Hin & Hrest)]; [by left|].
    right. split; [|done]. apply in_or_app. by left.
  - destruct (H12 path) as [E12 | (_ & file1 & Hf1 & Ht1 & E12)].
    + right. split; [apply in_or_app; by right|].
      exists file2. by rewrite <- E12.
    + rewrite E12 in Hf2. injection Hf2 as <-. discriminate Ht2.
Qed.

Lemma files_tagged_is_Some (paths : list string) (files files' : FS)
    (path : string) :
  Selection.files_tagged paths files files' ->
  is_Some (files !! path) -> is_Some (files' !! path).
Proof.
  intros H Hfile. destruct (H path) as [-> | (_ & file & _ & _ & ->)]; [done|].
  by eexists.
Qed.

Lemma files_tagged_keeps_tags (paths : list string) (files files' : FS)
    (path : string) (file : File) (on_disk : list Frame) :
  Selection.files_tagged paths files files' ->
  files !! path = Some file -> tag file = Some on_disk ->
  files' !! path = Some file.
Proof.
  intros H Hfile Htag.
  destruct (H path) as [-> | (_ & file0 & Hf0 & Ht0 & _)]; [done|].
  rewrite Hfile in Hf0. injection Hf0 as <-. by rewrite Htag in Ht0.
Qed.

(** Opening a file that is there gives a track of its path; the file
    carries a tag afterwards, and no other file is touched. *)
Lemma init_existing (path : string) (files : FS) :
  is_Some (files !! path) ->
  exists track files',
    MP3Track.__init__ path files = (Ok track, files') /\
    MP3Track.get_file_path track = path /\
    (exists file' on_disk',
        files' !! path = Some file' /\ tag file' = Some on_disk') /\
    Selection.files_tagged [path] files files'.
Proof.
  intros [file Hfile]. destruct (tag file) as [on_disk|] eqn:Htag.
  - exists (MP3Track.mk
              (mkID3 (fold_left (fun d f => setitem f d) on_disk []) path)),
           files.
    split; [|split; [done|split; [by exists file, on_disk|]]].
    + unfold MP3Track.__init__, load. simpl. by rewrite Hfile, Htag.
    + apply files_tagged_refl.
  - exists (MP3Track.mk (mkID3 [TextFrame TIT2 []] path)),
           (<[path := mkFile (Some [])]> files).
    split; [by apply (init_untagged path files file)|].
    split; [done|]. split.
    + exists (mkFile (Some [])), []. by rewrite lookup_insert_eq.
    + intros q. destruct (decide (q = path)) as [-> | Hne].
      * right. split; [by left|]. exists file. by rewrite lookup_insert_eq.
      * left. by rewrite lookup_insert_ne.
Qed.

Lemma new_identity_fresh (index : gmap string nat) (path : string) (r : nat) :
  index !! path = Some r -> (r < new_identity index)%nat.
Proof.
  unfold new_identity. revert path r.
  apply (map_fold_weak_ind
           (fun acc (m : gmap string nat) =>
              forall path r, m !! path = Some r -> (r < S acc)%nat)).
  - intros path r H. by rewrite lookup_empty in H.
  - intros p x m acc Hp IH path r H.
    destruct (decide (path = p)) as [-> | Hne].
    + rewrite lookup_insert_eq in H. injection H as ->. lia.
    + rewrite lookup_insert_ne in H by done.
      specialize (IH path r H). lia.
Qed.

Lemma tracks_kept_refl (st : State) : Selection.tracks_kept st st.
Proof. by intros path r H. Qed.

Lemma tracks_kept_trans (st1 st2 st3 : State) :
  Selection.tracks_kept st1 st2 -> Selection.tracks_kept st2 st3 ->
  Selection.tracks_kept st1 st3.
Proof.
  intros H12 H23 path r H. destruct (H12 path r H) as [H2 E2].
  destruct (H23 path r H2) as [H3 E3]. split; [done|]. by rewrite E3.
Qed.

(** The first step of the loop: the path is in the index afterwards. *)
Lemma materialize_spec (path : string) (st : State) :
  Spec.index_in_order st ->
  is_Some (fs st !! path) ->
  exists st' r,
    materialize path st = (Ok tt, st') /\
    mp3_tracks (self st') !! path = Some r /\
    Spec.index_in_order st' /\
    Selection.tracks_kept st st' /\
    Selection.index_grown [path] st st' /\
    Selection.files_tagged [path] (fs st) (fs st') /\
    fields (self st') = fields (self st) /\
    selected_mp3_tracks (self st') = selected_mp3_tracks (self st).
Proof.
  intros Horder Hfile. unfold materialize.
  destruct (mp3_tracks (self st) !! path) as [r|] eqn:Hindex.
  - exists st, r. split; [done|]. split; [done|]. split; [done|].
    split; [apply tracks_kept_refl|]. split; [by intros q x Hq; left|].
    split; [apply files_tagged_refl|]. done.
  - destruct (init_existing path (fs st) Hfile)
      as (track & files' & Hopen & Hpath & Htagged & Hfiles).
    rewrite Hopen. eexists _, _. split; [reflexivity|]. simpl.
    split; [by rewrite lookup_insert_eq|].
    split; [|split; [|split; [|done]]].
    + intros q r. simpl. destruct (decide (q = path)) as [-> | Hne].
      * rewrite lookup_insert_eq. intros [= <-].
        by rewrite fn_lookup_insert.
      * rewrite lookup_insert_ne by done. intros Hq.
        pose proof (new_identity_fresh _ _ _ Hq) as Hfresh.
        rewrite fn_lookup_insert_ne by lia.
        destruct (Horder q r Hq) as [Hp (file & on_disk & Hf & Ht)].
        split; [done|]. exists file, on_disk. split; [|done].
        by apply (files_tagged_keeps_tags [path] (fs st) files' q file
                    on_disk).
    + intros q r Hq. simpl.
      assert (q <> path) by (intros ->; by rewrite Hindex in Hq).
      rewrite lookup_insert_ne by done. split; [done|].
      pose proof (new_identity_fresh _ _ _ Hq) as Hfresh.
      by rewrite fn_lookup_insert_ne by lia.
    + intros q r. simpl. destruct (decide (q = path)) as [-> | Hne].
      * intros _. right. by left.
      * rewrite lookup_insert_ne by done. by left.
Qed.

Lemma elem_of_set_add (x y : nat) (s : list nat) :
  y ∈ set_add x s <-> y = x \/ y ∈ s.
Proof.
  unfold set_add. destruct (decide (x ∈ s)) as [Hin | Hnot].
  - split; [by right|]. by intros [-> | H].
  - rewrite elem_of_app, list_elem_of_singleton. tauto.
Qed.

Lemma NoDup_set_add (x : nat) (s : list nat) :
  NoDup s -> NoDup (set_add x s).
Proof.
  intros Hs. unfold set_add. destruct (decide (x ∈ s)) as [Hin | Hnot];
    [done|].
  apply list.NoDup_app. split; [done|]. split.
  - intros y Hy Hx. apply list_elem_of_singleton in Hx. by subst.
  - apply list.NoDup_singleton.
Qed.

(** The first loop of [on_file_list_selection_change]. *)
Lemma select_paths_spec (paths : list string) (st : State) :
  Spec.index_in_order st ->
  (forall path, In path paths -> is_Some (fs st !! path)) ->
  exists st',
    select_paths paths st = (Ok tt, st') /\
    Spec.index_in_order st' /\
    Selection.tracks_kept st st' /\
    Selection.index_grown paths st st' /\
    Selection.files_tagged paths (fs st) (fs st') /\
    fields (self st') = fields (self st) /\
    (forall path, In path paths -> is_Some (mp3_tracks (self st') !! path)) /\
    (forall r, r ∈ selected_mp3_tracks (self st') <->
               r ∈ selected_mp3_tracks (self st) \/
               exists path, In path paths /\
                            mp3_tracks (self st') !! path = Some r) /\
    (NoDup (selected_mp3_tracks (self st)) ->
     NoDup (selected_mp3_tracks (self st'))).
Proof.
  revert st. induction paths as [|path paths IH]; intros st Horder Hfiles.
  - exists st. split; [done|]. split; [done|].
    split; [apply tracks_kept_refl|]. split; [by intros q x Hq; left|].
    split; [apply files_tagged_refl|].
    split; [done|]. split; [by intros ? []|]. split; [|done].
    intros r. split; [by left|]. by intros [H | (p & [] & _)].
  - destruct (materialize_spec path st Horder (Hfiles path (or_introl eq_refl)))
      as (st1 & r & Hstep & Hindex & Horder1 & Hkept1 & Hgrown1 & Hfiles1
          & Hfields1 & Hsel1).
    set (st2 := with_self (fun form =>
                  mk (fields form) (mp3_tracks form)
                     (set_add r (selected_mp3_tracks form))) st1).
    assert (Horder2 : Spec.index_in_order st2) by exact Horder1.
    assert (Hfiles2 : forall p, In p paths -> is_Some (fs st2 !! p)).
    { intros p Hp. apply (files_tagged_is_Some [path] (fs st)); [done|].
      apply Hfiles. by right. }
    destruct (IH st2 Horder2 Hfiles2)
      as (st' & Hrest & Horder' & Hkept' & Hgrown' & Hfiles' & Hfields'
          & Hall & Hsel & Hnodup).
    exists st'. split.
    { cbn [select_paths]. unfold Py.bind at 1. rewrite Hstep.
      unfold Py.bind at 1, mp3_tracks_getitem. rewrite Hindex.
      unfold Py.bind, Py.modify. exact Hrest. }
    split; [done|].
    assert (Hkept : Selection.tracks_kept st st').
    { apply (tracks_kept_trans st st1); [done|].
      apply (tracks_kept_trans st1 st2); [by intros q x Hq|done]. }
    split; [done|]. split.
    { intros q x Hq. destruct (Hgrown' q x Hq) as [Hq2 | Hin];
        [|right; by right].
      destruct (Hgrown1 q x Hq2) as [Hq1 | [<- | []]]; [by left|].
      right. by left. }
    split.
    { exact (files_tagged_trans [path] paths (fs st) (fs st1) (fs st')
               Hfiles1 Hfiles'). }
    split; [by rewrite Hfields'|].
    assert (Hpath : mp3_tracks (self st') !! path = Some r).
    { by apply (Hkept' path r). }
    split; [|split].
    + intros p [<- | Hp]; [by eexists | by apply Hall].
    + intros x. rewrite Hsel. simpl. rewrite elem_of_set_add, Hsel1.
      split.
      * intros [[-> | Hx] | (p & Hp & Hx)].
        -- right. exists path. split; [by left|done].
        -- by left.
        -- right. exists p. split; [by right|done].
      * intros [Hx | (p & [<- | Hp] & Hx)].
        -- left. by right.
        -- left. left. rewrite Hpath in Hx. by injection Hx.
        -- right. by exists p.
    + intros Hnd. apply Hnodup. simpl. apply NoDup_set_add.
      by rewrite Hsel1.
Qed.

Lemma get_comments_ok (self : MP3Track.t) :
  exists v, MP3Track.get_comments self = Ok v.
Proof.
  unfold MP3Track.get_comments, MP3Track._get_frames_text,
    MP3Track._get_frames.
  destruct (length _ =? 0)%nat; [by eexists|].
  destruct (append_frames_ok
              (getall MP3Track._KEY_COMMENT (frames (MP3Track._id3 self))) "")
    as [s ->]; [|by eexists].
  intros f. unfold MP3Track._KEY_COMMENT. rewrite getall_COMM.
  intros [_ Hf]%filter_In.
  destruct f as [id t|lang desc t|mime type desc data];
    [by exists t | by exists t | discriminate Hf].
Qed.

(** The getters of a track never raise. *)
Lemma call_getter_ok (getter : string) (track : MP3Track.t) :
  In getter Fields.getters ->
  exists value, MP3Track.call_getter getter track = Ok value.
Proof.
  intros Hin. simpl in Hin.
  repeat (destruct Hin as [<- | Hin]); [..|destruct Hin];
    unfold MP3Track.call_getter; cbn [String.eqb Ascii.eqb Bool.eqb];
    unfold MP3Track.get_title, MP3Track.get_artist, MP3Track.get_album_artist,
      MP3Track.get_album, MP3Track.get_genre, MP3Track.get_year,
      MP3Track.get_track, MP3Track.get_part_of_compilation.
  1-7: text_id ltac:(fun id =>
         let H := fresh in
         destruct (get_frames_text_ok id track) as [[?|] H];
         (unfold MP3Track._KEY_TITLE, MP3Track._KEY_ARTIST,
            MP3Track._KEY_ALBUM_ARTIST, MP3Track._KEY_ALBUM,
            MP3Track._KEY_GENRE, MP3Track._KEY_YEAR, MP3Track._KEY_TRACK;
          cbn [FrameID] in H; rewrite H; by eexists)).
  - destruct (get_comments_ok track) as [[?|] ->]; by eexists.
  - destruct (get_frames_text_ok TCMP track) as [[flag|] H];
      unfold MP3Track._KEY_COMPILATION; cbn [FrameID] in H; rewrite H; simpl;
      [destruct (String.eqb flag "0")|]; by eexists.
Qed.

Lemma scan_ok (tracks : list MP3Track.t) (field : Field.t) :
  In (Field.getter field) Fields.getters ->
  fst (Field.scan MP3Track.call_getter tracks field) = Ok tt.
Proof.
  intros Hgetter. induction tracks as [|track tracks IH]; [done|].
  simpl. unfold Py.bind, Py.get, Py.lift.
  destruct (call_getter_ok _ track Hgetter) as [value ->].
  destruct (decide (Field.entry_widget_value field = value)); [apply IH|].
  by destruct (Field.toggle field).
Qed.

Lemma getter_with_entry_value (value : Py.Value) (field : Field.t) :
  Field.getter (Field.with_entry_value value field) = Field.getter field.
Proof. done. Qed.

Lemma update_value_from_tracks_ok (random_track : MP3Track.t)
    (tracks : list MP3Track.t) (field : Field.t) :
  In (Field.getter field) Fields.getters ->
  fst (Field.update_value_from_tracks MP3Track.call_getter random_track
         tracks field) = Ok tt.
Proof.
  intros Hgetter.
  unfold Field.update_value_from_tracks, Py.bind, Py.modify, Py.get, Py.lift,
    Py.ret.
  destruct (length tracks =? 0)%nat; [done|].
  rewrite getter_clear.
  destruct (call_getter_ok _ random_track Hgetter) as [value ->].
  apply scan_ok. rewrite getter_with_entry_value. by rewrite getter_clear.
Qed.

Lemma update_fields_ok (random_track : MP3Track.t)
    (tracks : list MP3Track.t) (fields : list Field.t) :
  Forall (fun field => In (Field.getter field) Fields.getters) fields ->
  fst (update_fields random_track tracks fields) = Ok tt.
Proof.
  induction 1 as [|field fields Hfield _ IH]; [done|].
  cbn [update_fields].
  pose proof (update_value_from_tracks_ok random_track tracks field Hfield)
    as Hok.
  destruct (Field.update_value_from_tracks _ _ _ field) as [[[]|e] field'];
    [|discriminate Hok].
  by destruct (update_fields random_track tracks fields) as [r rest].
Qed.

(** How the method runs on a selection the first loop gets through. *)
Lemma selection_change_unfold (pop : list nat -> nat) (paths : list string)
    (st st1 : State) :
  select_paths paths
    (with_self (fun form => mk (fields form) (mp3_tracks form) []) st)
  = (Ok tt, st1) ->
  on_file_list_selection_change pop (Some paths) st
  = (fst (update_fields (heap st1 (pop (selected_mp3_tracks (self st1))))
            (map (heap st1) (selected_mp3_tracks (self st1)))
            (fields (self st1))),
     with_self (fun form =>
       mk (snd (update_fields
                  (heap st1 (pop (selected_mp3_tracks (self st1))))
                  (map (heap st1) (selected_mp3_tracks (self st1)))
                  (fields (self st1))))
          (mp3_tracks form) (selected_mp3_tracks form)) st1).
Proof.
  intros Hloop. unfold on_file_list_selection_change.
  unfold Py.bind at 1. unfold Py.modify at 1.
  unfold Py.bind. rewrite Hloop.
  by destruct (update_fields _ _ _).
Qed.

(** X24. A change of the selection to files that are there, on a form whose
    index is in order and whose fields read the tracks with getters of
    [MP3Track], ends normally, and leaves every field unselected: the
    ticks of the checkboxes do not outlast the selection they were made
    for. *)
Theorem selection_change_unticks_fields (pop : list nat -> nat)
    (paths : list string) (st : State) :
  Spec.index_in_order st ->
  (forall path, In path paths -> is_Some (fs st !! path)) ->
  Selection.fields_read_tracks st ->
  let outcome := on_file_list_selection_change pop (Some paths) st in
  fst outcome = Ok tt /\
  Forall (fun field => Field.is_selected field = false)
         (fields (self (snd outcome))).
Proof.
  intros Horder Hfiles Hfields outcome. subst outcome.
  destruct (select_paths_spec paths
              (with_self (fun form => mk (fields form) (mp3_tracks form) [])
                 st) Horder Hfiles)
    as (st1 & Hloop & _ & _ & _ & _ & Hfields1 & _).
  rewrite (selection_change_unfold pop paths st st1 Hloop).
  cbn [fst snd].
  assert (Hok : fst (update_fields
                       (heap st1 (pop (selected_mp3_tracks (self st1))))
                       (map (heap st1) (selected_mp3_tracks (self st1)))
                       (fields (self st1))) = Ok tt).
  { apply update_fields_ok. rewrite Hfields1. exact Hfields. }
  split; [exact Hok|].
  destruct (update_fields _ _ _) as [r fields'] eqn:E. simpl in *. subst r.
  by apply (update_fields_unselected _ _ _ _ E).
Qed.

(** X25. The tracks are created lazily and once. On a form whose index is in
    order, after a change of the selection to files that are there: the
    index is in order; every track that was indexed is indexed as before
    and is the same object in the same state, unsaved changes included;
    every selected path is indexed, and the index has no new entry but for
    selected paths; the selected tracks are those of the selected paths,
    each once; and no file is touched but that a selected file without a
    tag is given an empty one. *)
Theorem selection_change_opens_lazily (pop : list nat -> nat)
    (paths : list string) (st : State) :
  Spec.index_in_order st ->
  (forall path, In path paths -> is_Some (fs st !! path)) ->
  let st' := snd (on_file_list_selection_change pop (Some paths) st) in
  Spec.index_in_order st' /\
  Selection.tracks_kept st st' /\
  (forall path, In path paths -> is_Some (mp3_tracks (self st') !! path)) /\
  Selection.index_grown paths st st' /\
  (forall r, r ∈ selected_mp3_tracks (self st') <->
             exists path, In path paths /\
                          mp3_tracks (self st') !! path = Some r) /\
  NoDup (selected_mp3_tracks (self st')) /\
  Selection.files_tagged paths (fs st) (fs st').
Proof.
  intros Horder Hfiles st'. subst st'.
  destruct (select_paths_spec paths
              (with_self (fun form => mk (fields form) (mp3_tracks form) [])
                 st) Horder Hfiles)
    as (st1 & Hloop & Horder1 & Hkept & Hgrown & Htagged & _ & Hall & Hsel
        & Hnodup).
  rewrite (selection_change_unfold pop paths st st1 Hloop).
  cbn [snd]. split; [exact Horder1|]. split; [exact Hkept|].
  split; [exact Hall|]. split; [exact Hgrown|].
  split; [|split; [|exact Htagged]].
  - intros r. simpl. rewrite (Hsel r). simpl. split.
    + intros [H | H]; [by apply elem_of_nil in H | done].
    + by right.
  - simpl. apply Hnodup. simpl. apply NoDup_nil_2.
Qed.

(** ** The properties at sample inputs *)

Lemma folder_state_in_order : Spec.index_in_order Inputs.folder_state.
Proof.
  intros path r H. simpl in H.
  apply lookup_singleton_Some in H as [<- <-].
  split; [reflexivity|]. by eexists _, _.
Qed.

Lemma folder_selection_files :
  forall path, In path Inputs.folder_selection ->
    is_Some (fs Inputs.folder_state !! path).
Proof. intros path [<- | [<- | []]]; by eexists. Qed.

Lemma folder_state_fields : Selection.fields_read_tracks Inputs.folder_state.
Proof.
  unfold Selection.fields_read_tracks. simpl.
  constructor; [|constructor; [|constructor]].
  - simpl. right. by left.
  - simpl. by left.
Qed.

Lemma selection_change_unticks_fields_witness :
  Spec.index_in_order Inputs.folder_state /\
  (forall path, In path Inputs.folder_selection ->
     is_Some (fs Inputs.folder_state !! path)) /\
  Selection.fields_read_tracks Inputs.folder_state /\
  fst (on_file_list_selection_change Inputs.first_of
         (Some Inputs.folder_selection) Inputs.folder_state) = Ok tt /\
  Forall (fun field => Field.is_selected field = false)
    (fields (self (snd (on_file_list_selection_change Inputs.first_of
                          (Some Inputs.folder_selection)
                          Inputs.folder_state)))).
Proof.
  split; [exact folder_state_in_order|].
  split; [exact folder_selection_files|].
  split; [exact folder_state_fields|].
  exact (selection_change_unticks_fields Inputs.first_of
           Inputs.folder_selection Inputs.folder_state folder_state_in_order
           folder_selection_files folder_state_fields).
Defined.

Lemma selection_change_opens_lazily_witness :
  Spec.index_in_order Inputs.folder_state /\
  (forall path, In path Inputs.folder_selection ->
     is_Some (fs Inputs.folder_state !! path)) /\
  Spec.index_in_order
    (snd (on_file_list_selection_change Inputs.first_of
            (Some Inputs.folder_selection) Inputs.folder_state)) /\
  Selection.tracks_kept Inputs.folder_state
    (snd (on_file_list_selection_change Inputs.first_of
            (Some Inputs.folder_selection) Inputs.folder_state)).
Proof.
  split; [exact folder_state_in_order|].
  split; [exact folder_selection_files|].
  destruct (selection_change_opens_lazily Inputs.first_of
              Inputs.folder_selection Inputs.folder_state
              folder_state_in_order folder_selection_files)
    as (Horder & Hkept & _).
  by split.
Defined.

Example selection_change_on_the_folder :
  let st' := snd (on_file_list_selection_change Inputs.first_of
                    (Some Inputs.folder_selection) Inputs.folder_state) in
  heap st' 0%nat = Inputs.opened_track /\
  mp3_tracks (self st') !! "/music/new.mp3" = Some 1%nat /\
  selected_mp3_tracks (self st') = [0%nat; 1%nat] /\
  fs st' !! "/music/new.mp3" = Some (mkFile (Some [])) /\
  map Field.entry_widget_value (fields (self st'))
    = [Py.VStr "Multiple Values"; Py.VStr "Multiple Values"].
Proof. vm_compute. repeat split; reflexivity. Qed.

Lemma set_track_accepts_iff_witness :
  MP3Track.set_track (Py.VStr "3/12") Sample.blank_track
  = (Ok tt,
     MP3Track.mk (add (TextFrame TRCK [Str "3/12"])
                      (MP3Track._id3 Sample.blank_track))) /\
  MP3Track.set_track (Py.VStr "three") Sample.blank_track
  = (Raise ValueError, Sample.blank_track).
Proof.
  split.
  - apply (proj1 (set_track_accepts_iff "3/12" Sample.blank_track)).
    exists "3", "12". split; [reflexivity|]. split; [reflexivity|]. by left.
  - apply (proj2 (set_track_accepts_iff "three" Sample.blank_track)).
    intros H%match_track_iff. discriminate H.
Defined.

Lemma add_comment_replaces_comments_witness :
  MP3Track.get_comments
    (snd (MP3Track.add_comment (Py.VStr "Live") "comment_key" true
            Sample.loaded_track))
  = Ok (Some "Live").
Proof.
  apply (proj2 (add_comment_replaces_comments "Live" "comment_key"
                  Sample.loaded_track)); reflexivity.
Defined.

Lemma clear_comments_clears_only_comments_witness :
  MP3Track.call_getter "get_title"
    (snd (MP3Track.clear_comments Sample.loaded_track))
  = MP3Track.call_getter "get_title" Sample.loaded_track.
Proof.
  destruct (clear_comments_clears_only_comments Sample.loaded_track)
    as (_ & _ & _ & Hother & _).
  apply (Hother "set_title" "get_title" "TIT2").
  - simpl. by left.
  - discriminate.
Defined.

Lemma clear_pictures_clears_only_pictures_witness :
  MP3Track.call_getter "get_title"
    (snd (MP3Track.clear_pictures Sample.track_with_cover))
  = MP3Track.call_getter "get_title" Sample.track_with_cover.
Proof.
  destruct (clear_pictures_clears_only_pictures Sample.track_with_cover)
    as (_ & _ & Hother).
  apply (Hother "set_title" "get_title" "TIT2"). simpl. by left.
Defined.

Lemma open_reads_the_tag_witness :
  MP3Track.__init__ "/music/b.mp3" Sample.one_file
  = (Raise IOError, Sample.one_file) /\
  exists track,
    MP3Track.__init__ "/music/a.mp3" Sample.one_file
    = (Ok track, Sample.one_file) /\
    MP3Track.get_file_path track = "/music/a.mp3" /\
    frames (MP3Track._id3 track) = [TextFrame TIT2 [Str "Old"]].
Proof.
  split.
  - apply (proj1 (open_reads_the_tag "/music/b.mp3" Sample.one_file)).
    reflexivity.
  - apply (proj2 (open_reads_the_tag "/music/a.mp3" Sample.one_file)
             (mkFile (Some [TextFrame TIT2 [Str "Old"]]))).
    + reflexivity.
    + reflexivity.
    + apply List.NoDup_cons; [by intros []|apply List.NoDup_nil].
    + reflexivity.
Defined.

Lemma clear_tag_strips_the_file_witness :
  exists fs' self',
    MP3Track.clear_tag (Sample.one_file, Sample.loaded_track)
    = (Ok tt, (fs', self')) /\
    fs' !! "/music/a.mp3" = Some (mkFile None).
Proof.
  destruct (proj1 (clear_tag_strips_the_file Sample.one_file
                     Sample.loaded_track)
              (mkFile (Some [TextFrame TIT2 [Str "Old"]])) eq_refl)
    as (fs' & self' & Hclear & Hfile & _).
  by exists fs', self'.
Defined.
